(** * Bangalore Traffic Sentinel: the estimation pipeline of [backend/server.py]

    A shallow embedding of the traffic-estimation code of the backend
    ([predict_traffic_value], [get_traffic_level], [get_days] and the
    [/predict-traffic] handler [predict_traffic_range]) together with the
    properties its specification states about it, and of the other
    endpoints ([get_locations], [create_status_check], [get_status_checks]),
    with further properties read off the code.

    Python [float]s are IEEE 754 binary64 numbers; they are modelled by the
    standard library's [spec_float] at precision 53 and maximal exponent 1024,
    with its round-to-nearest-even operations.  Python [int]s are [Z].  The
    three sources of non-determinism of the handler
    (the process-wide random generator, [uuid.uuid4] and the clock) and the
    Mongo collection it appends to are fields of an explicit [World].
    A Python [str] is represented by its UTF-8 encoding, and [str.lower]
    follows the case tables of Unicode 14.0.0, the version of CPython
    3.11. *)

From Stdlib Require Import ZArith List String Ascii Bool Lia DecimalString.
From Stdlib Require Import Floats.SpecFloat.
Import ListNotations.

Local Open Scope Z_scope.

(** ** Binary64 arithmetic as Python performs it *)

Module F64.

Definition prec : Z := 53.
Definition emax : Z := 1024.

Definition float : Type := spec_float.

Definition mul : float -> float -> float := SFmul prec emax.
Definition add : float -> float -> float := SFadd prec emax.
Definition div : float -> float -> float := SFdiv prec emax.

Definition ltb : float -> float -> bool := SFltb.
Definition leb : float -> float -> bool := SFleb.

(** [x > y] is [y < x] and [x >= y] is [y <= x], as for IEEE comparisons. *)
Definition gtb (x y : float) : bool := ltb y x.
Definition geb (x y : float) : bool := leb y x.

(** [float(n)] for a Python int: the nearest binary64 number. *)
Definition of_Z (n : Z) : float := binary_normalize prec emax n 0 false.

(** The binary64 number nearest to the fraction [n / d] (ties to even): the
    value of a decimal literal, and of the decimal string that [round] hands
    back to [strtod]. *)
Definition of_ratio (s : bool) (n d : positive) : float :=
  let '(q, e, l) := SFdiv_core_binary prec emax (Zpos n) 0 (Zpos d) 0 in
  binary_round_aux prec emax s q e l.

(** [n / d] rounded to the nearest integer, ties to the even one ([0 < d]). *)
Definition round_half_even (n d : Z) : Z :=
  let q := n / d in
  match (2 * (n mod d)) ?= d with
  | Lt => q
  | Gt => q + 1
  | Eq => if Z.even q then q else q + 1
  end.

(** The exact value of [m * 2^e] in hundredths, rounded to an integer. *)
Definition hundredths (m : positive) (e : Z) : Z :=
  match e with
  | Zneg p => round_half_even (Zpos m * 100) (2 ^ Zpos p)
  | _ => Zpos m * 100 * 2 ^ e
  end.

(** [round(x, 2)]: CPython prints the exact value of [x] with two digits
    after the point (correctly rounded, ties to even) and reads the decimal
    string back; infinities, NaN and zeros round to themselves. *)
Definition round2 (x : float) : float :=
  match x with
  | S754_finite s m e =>
      match hundredths m e with
      | Zpos p => of_ratio s p 100
      | _ => S754_zero s
      end
  | _ => x
  end.

Definition is_nan (x : float) : bool :=
  match x with S754_nan => true | _ => false end.

End F64.

Abbreviation float := F64.float.

Declare Scope f64_scope.
Delimit Scope f64_scope with f64.
Infix "*" := F64.mul : f64_scope.
Infix "+" := F64.add : f64_scope.
Infix "/" := F64.div : f64_scope.
Infix "<?" := F64.ltb : f64_scope.
Infix "<=?" := F64.leb : f64_scope.
Infix ">?" := F64.gtb : f64_scope.

(** The float literals of the source. *)
Definition f0_6 : float := F64.of_ratio false 6 10.
Definition f1_0 : float := F64.of_Z 1.
Definition f1_8 : float := F64.of_ratio false 18 10.
Definition f2_0 : float := F64.of_Z 2.
Definition f1_3 : float := F64.of_ratio false 13 10.
Definition f0_3 : float := F64.of_ratio false 3 10.
Definition f0_5 : float := F64.of_ratio false 5 10.
Definition f1_15 : float := F64.of_ratio false 115 100.
Definition f1_1 : float := F64.of_ratio false 11 10.
Definition f0_9 : float := F64.of_ratio false 9 10.
Definition f0_2 : float := F64.of_ratio false 2 10.

(** ** Python containers and strings *)

Section Dict.
Context {V : Type}.

(** A dict literal keeps its insertion order: an association list. *)
Definition dict : Type := list (string * V).

Fixpoint dict_lookup (d : dict) (k : string) : option V :=
  match d with
  | [] => None
  | (k', v) :: d' => if String.eqb k k' then Some v else dict_lookup d' k
  end.

(** [d.get(k, default)] *)
Definition dict_get (d : dict) (k : string) (default : V) : V :=
  match dict_lookup d k with Some v => v | None => default end.

(** [k in d] *)
Definition dict_mem (k : string) (d : dict) : bool :=
  match dict_lookup d k with Some _ => true | None => false end.

(** [list(d.keys())] *)
Definition dict_keys (d : dict) : list string := map fst d.
End Dict.
Arguments dict V : clear implicits.

(** [x in l] for a list of strings. *)
Definition list_mem (x : string) (l : list string) : bool :=
  existsb (String.eqb x) l.

(** [range(a, b)] *)
Definition py_range (a b : Z) : list Z :=
  map (fun i => a + Z.of_nat i) (seq 0 (Z.to_nat (b - a))).

(** [str(n)] for an int, as an f-string field prints it. *)
Definition str_of_Z (n : Z) : string := NilZero.string_of_int (Z.to_int n).

(** [repr] of a list of strings, as an f-string field prints a list.  The
    strings of the two reference tables contain no quote or backslash, so
    each prints between single quotes unchanged. *)
Fixpoint join (sep : string) (l : list string) : string :=
  match l with
  | [] => ""
  | [x] => x
  | x :: l' => x ++ sep ++ join sep l'
  end.

Definition repr_str (s : string) : string := "'" ++ s ++ "'".

Definition repr_list (l : list string) : string :=
  "[" ++ join ", " (map repr_str l) ++ "]".

(** The lowercase of an ASCII letter; every other byte is left as it is. *)
Definition lower_ascii (c : ascii) : ascii :=
  let n := nat_of_ascii c in
  if (65 <=? n)%nat && (n <=? 90)%nat then ascii_of_nat (n + 32) else c.

Fixpoint map_string (f : ascii -> ascii) (s : string) : string :=
  match s with
  | EmptyString => EmptyString
  | String c s' => String (f c) (map_string f s')
  end.

(** *** Python strings

    A Python [str] is a sequence of Unicode code points.  It is represented
    here by its UTF-8 encoding, a [string] of bytes, and a byte that belongs
    to no well-formed encoding stands for itself: the convention of Python's
    [surrogateescape] error handler, which reads the stray byte [b] as the
    lone surrogate [U+DC00 + b] and writes it back as [b].  So every
    [string] [s] denotes the [str] [s.decode("utf-8", "surrogateescape")],
    two strings are equal exactly when the [str]s are, and the byte [0x20]
    occurs exactly where the [str] has a space. *)

Definition is_continuation (b : N) : bool := (0x80 <=? b)%N && (b <=? 0xbf)%N.

(** The code point of a well-formed encoding of two, three or four bytes:
    the shortest encoding only, no surrogate, nothing above [U+10FFFF]. *)
Definition two_bytes (b0 b1 : N) : option N :=
  if (0xc2 <=? b0)%N && (b0 <=? 0xdf)%N && is_continuation b1
  then Some ((b0 - 0xc0) * 0x40 + (b1 - 0x80))%N
  else None.

Definition three_bytes (b0 b1 b2 : N) : option N :=
  if (0xe0 <=? b0)%N && (b0 <=? 0xef)%N
     && is_continuation b1 && is_continuation b2
  then
    let n := ((b0 - 0xe0) * 0x1000 + (b1 - 0x80) * 0x40 + (b2 - 0x80))%N in
    if (n <? 0x800)%N || ((0xd800 <=? n)%N && (n <=? 0xdfff)%N) then None
    else Some n
  else None.

Definition four_bytes (b0 b1 b2 b3 : N) : option N :=
  if (0xf0 <=? b0)%N && (b0 <=? 0xf4)%N
     && is_continuation b1 && is_continuation b2 && is_continuation b3
  then
    let n := ((b0 - 0xf0) * 0x40000 + (b1 - 0x80) * 0x1000
              + (b2 - 0x80) * 0x40 + (b3 - 0x80))%N in
    if (n <? 0x10000)%N || (0x10ffff <? n)%N then None else Some n
  else None.

Definition surrogate_escape (b : N) : N := (0xdc00 + b)%N.

(** The code points of the [str] that a [string] denotes. *)
Fixpoint decode (s : string) : list N :=
  match s with
  | EmptyString => []
  | String c0 s0 =>
      let b0 := N_of_ascii c0 in
      if (b0 <? 0x80)%N then b0 :: decode s0
      else
        match s0 with
        | EmptyString => surrogate_escape b0 :: decode s0
        | String c1 s1 =>
            let b1 := N_of_ascii c1 in
            match two_bytes b0 b1 with
            | Some n => n :: decode s1
            | None =>
                match s1 with
                | EmptyString => surrogate_escape b0 :: decode s0
                | String c2 s2 =>
                    let b2 := N_of_ascii c2 in
                    match three_bytes b0 b1 b2 with
                    | Some n => n :: decode s2
                    | None =>
                        match s2 with
                        | EmptyString => surrogate_escape b0 :: decode s0
                        | String c3 s3 =>
                            match four_bytes b0 b1 b2 (N_of_ascii c3) with
                            | Some n => n :: decode s3
                            | None => surrogate_escape b0 :: decode s0
                            end
                        end
                    end
                end
            end
        end
  end.

(** The bytes of one code point; an escaped byte is written back as it
    was. *)
Definition encode_point (n : N) : list N :=
  if (n <? 0x80)%N then [n]
  else if (n <? 0x800)%N then [0xc0 + n / 0x40; 0x80 + n mod 0x40]%N
  else if (0xdc80 <=? n)%N && (n <=? 0xdcff)%N then [n - 0xdc00]%N
  else if (n <? 0x10000)%N then
    [0xe0 + n / 0x1000; 0x80 + (n / 0x40) mod 0x40; 0x80 + n mod 0x40]%N
  else
    [0xf0 + n / 0x40000; 0x80 + (n / 0x1000) mod 0x40;
     0x80 + (n / 0x40) mod 0x40; 0x80 + n mod 0x40]%N.

Fixpoint string_of_bytes (l : list N) : string :=
  match l with
  | [] => EmptyString
  | b :: l' => String (ascii_of_N b) (string_of_bytes l')
  end.

Definition encode (l : list N) : string :=
  string_of_bytes (flat_map encode_point l).

(** The simple lowercase mappings of the Unicode Character Database,
    version 14.0.0 (the one CPython 3.11 is built with): every code point
    whose lowercase is one other code point, with that code point, in
    increasing order. *)
Definition lower_table : list (N * N) :=
  [(0x41, 0x61); (0x42, 0x62); (0x43, 0x63); (0x44, 0x64); (0x45, 0x65);
   (0x46, 0x66); (0x47, 0x67); (0x48, 0x68); (0x49, 0x69); (0x4a, 0x6a);
   (0x4b, 0x6b); (0x4c, 0x6c); (0x4d, 0x6d); (0x4e, 0x6e); (0x4f, 0x6f);
   (0x50, 0x70); (0x51, 0x71); (0x52, 0x72); (0x53, 0x73); (0x54, 0x74);
   (0x55, 0x75); (0x56, 0x76); (0x57, 0x77); (0x58, 0x78); (0x59, 0x79);
   (0x5a, 0x7a); (0xc0, 0xe0); (0xc1, 0xe1); (0xc2, 0xe2); (0xc3, 0xe3);
   (0xc4, 0xe4); (0xc5, 0xe5); (0xc6, 0xe6); (0xc7, 0xe7); (0xc8, 0xe8);
   (0xc9, 0xe9); (0xca, 0xea); (0xcb, 0xeb); (0xcc, 0xec); (0xcd, 0xed);
   (0xce, 0xee); (0xcf, 0xef); (0xd0, 0xf0); (0xd1, 0xf1); (0xd2, 0xf2);
   (0xd3, 0xf3); (0xd4, 0xf4); (0xd5, 0xf5); (0xd6, 0xf6); (0xd8, 0xf8);
   (0xd9, 0xf9); (0xda, 0xfa); (0xdb, 0xfb); (0xdc, 0xfc); (0xdd, 0xfd);
   (0xde, 0xfe); (0x100, 0x101); (0x102, 0x103); (0x104, 0x105);
   (0x106, 0x107); (0x108, 0x109); (0x10a, 0x10b); (0x10c, 0x10d);
   (0x10e, 0x10f); (0x110, 0x111); (0x112, 0x113); (0x114, 0x115);
   (0x116, 0x117); (0x118, 0x119); (0x11a, 0x11b); (0x11c, 0x11d);
   (0x11e, 0x11f); (0x120, 0x121); (0x122, 0x123); (0x124, 0x125);
   (0x126, 0x127); (0x128, 0x129); (0x12a, 0x12b); (0x12c, 0x12d);
   (0x12e, 0x12f); (0x132, 0x133); (0x134, 0x135); (0x136, 0x137);
   (0x139, 0x13a); (0x13b, 0x13c); (0x13d, 0x13e); (0x13f, 0x140);
   (0x141, 0x142); (0x143, 0x144); (0x145, 0x146); (0x147, 0x148);
   (0x14a, 0x14b); (0x14c, 0x14d); (0x14e, 0x14f); (0x150, 0x151);
   (0x152, 0x153); (0x154, 0x155); (0x156, 0x157); (0x158, 0x159);
   (0x15a, 0x15b); (0x15c, 0x15d); (0x15e, 0x15f); (0x160, 0x161);
   (0x162, 0x163); (0x164, 0x165); (0x166, 0x167); (0x168, 0x169);
   (0x16a, 0x16b); (0x16c, 0x16d); (0x16e, 0x16f); (0x170, 0x171);
   (0x172, 0x173); (0x174, 0x175); (0x176, 0x177); (0x178, 0xff);
   (0x179, 0x17a); (0x17b, 0x17c); (0x17d, 0x17e); (0x181, 0x253);
   (0x182, 0x183); (0x184, 0x185); (0x186, 0x254); (0x187, 0x188);
   (0x189, 0x256); (0x18a, 0x257); (0x18b, 0x18c); (0x18e, 0x1dd);
   (0x18f, 0x259); (0x190, 0x25b); (0x191, 0x192); (0x193, 0x260);
   (0x194, 0x263); (0x196, 0x269); (0x197, 0x268); (0x198, 0x199);
   (0x19c, 0x26f); (0x19d, 0x272); (0x19f, 0x275); (0x1a0, 0x1a1);
   (0x1a2, 0x1a3); (0x1a4, 0x1a5); (0x1a6, 0x280); (0x1a7, 0x1a8);
   (0x1a9, 0x283); (0x1ac, 0x1ad); (0x1ae, 0x288); (0x1af, 0x1b0);
   (0x1b1, 0x28a); (0x1b2, 0x28b); (0x1b3, 0x1b4); (0x1b5, 0x1b6);
   (0x1b7, 0x292); (0x1b8, 0x1b9); (0x1bc, 0x1bd); (0x1c4, 0x1c6);
   (0x1c5, 0x1c6); (0x1c7, 0x1c9); (0x1c8, 0x1c9); (0x1ca, 0x1cc);
   (0x1cb, 0x1cc); (0x1cd, 0x1ce); (0x1cf, 0x1d0); (0x1d1, 0x1d2);
   (0x1d3, 0x1d4); (0x1d5, 0x1d6); (0x1d7, 0x1d8); (0x1d9, 0x1da);
   (0x1db, 0x1dc); (0x1de, 0x1df); (0x1e0, 0x1e1); (0x1e2, 0x1e3);
   (0x1e4, 0x1e5); (0x1e6, 0x1e7); (0x1e8, 0x1e9); (0x1ea, 0x1eb);
   (0x1ec, 0x1ed); (0x1ee, 0x1ef); (0x1f1, 0x1f3); (0x1f2, 0x1f3);
   (0x1f4, 0x1f5); (0x1f6, 0x195); (0x1f7, 0x1bf); (0x1f8, 0x1f9);
   (0x1fa, 0x1fb); (0x1fc, 0x1fd); (0x1fe, 0x1ff); (0x200, 0x201);
   (0x202, 0x203); (0x204, 0x205); (0x206, 0x207); (0x208, 0x209);
   (0x20a, 0x20b); (0x20c, 0x20d); (0x20e, 0x20f); (0x210, 0x211);
   (0x212, 0x213); (0x214, 0x215); (0x216, 0x217); (0x218, 0x219);
   (0x21a, 0x21b); (0x21c, 0x21d); (0x21e, 0x21f); (0x220, 0x19e);
   (0x222, 0x223); (0x224, 0x225); (0x226, 0x227); (0x228, 0x229);
   (0x22a, 0x22b); (0x22c, 0x22d); (0x22e, 0x22f); (0x230, 0x231);
   (0x232, 0x233); (0x23a, 0x2c65); (0x23b, 0x23c); (0x23d, 0x19a);
   (0x23e, 0x2c66); (0x241, 0x242); (0x243, 0x180); (0x244, 0x289);
   (0x245, 0x28c); (0x246, 0x247); (0x248, 0x249); (0x24a, 0x24b);
   (0x24c, 0x24d); (0x24e, 0x24f); (0x370, 0x371); (0x372, 0x373);
   (0x376, 0x377); (0x37f, 0x3f3); (0x386, 0x3ac); (0x388, 0x3ad);
   (0x389, 0x3ae); (0x38a, 0x3af); (0x38c, 0x3cc); (0x38e, 0x3cd);
   (0x38f, 0x3ce); (0x391, 0x3b1); (0x392, 0x3b2); (0x393, 0x3b3);
   (0x394, 0x3b4); (0x395, 0x3b5); (0x396, 0x3b6); (0x397, 0x3b7);
   (0x398, 0x3b8); (0x399, 0x3b9); (0x39a, 0x3ba); (0x39b, 0x3bb);
   (0x39c, 0x3bc); (0x39d, 0x3bd); (0x39e, 0x3be); (0x39f, 0x3bf);
   (0x3a0, 0x3c0); (0x3a1, 0x3c1); (0x3a3, 0x3c3); (0x3a4, 0x3c4);
   (0x3a5, 0x3c5); (0x3a6, 0x3c6); (0x3a7, 0x3c7); (0x3a8, 0x3c8);
   (0x3a9, 0x3c9); (0x3aa, 0x3ca); (0x3ab, 0x3cb); (0x3cf, 0x3d7);
   (0x3d8, 0x3d9); (0x3da, 0x3db); (0x3dc, 0x3dd); (0x3de, 0x3df);
   (0x3e0, 0x3e1); (0x3e2, 0x3e3); (0x3e4, 0x3e5); (0x3e6, 0x3e7);
   (0x3e8, 0x3e9); (0x3ea, 0x3eb); (0x3ec, 0x3ed); (0x3ee, 0x3ef);
   (0x3f4, 0x3b8); (0x3f7, 0x3f8); (0x3f9, 0x3f2); (0x3fa, 0x3fb);
   (0x3fd, 0x37b); (0x3fe, 0x37c); (0x3ff, 0x37d); (0x400, 0x450);
   (0x401, 0x451); (0x402, 0x452); (0x403, 0x453); (0x404, 0x454);
   (0x405, 0x455); (0x406, 0x456); (0x407, 0x457); (0x408, 0x458);
   (0x409, 0x459); (0x40a, 0x45a); (0x40b, 0x45b); (0x40c, 0x45c);
   (0x40d, 0x45d); (0x40e, 0x45e); (0x40f, 0x45f); (0x410, 0x430);
   (0x411, 0x431); (0x412, 0x432); (0x413, 0x433); (0x414, 0x434);
   (0x415, 0x435); (0x416, 0x436); (0x417, 0x437); (0x418, 0x438);
   (0x419, 0x439); (0x41a, 0x43a); (0x41b, 0x43b); (0x41c, 0x43c);
   (0x41d, 0x43d); (0x41e, 0x43e); (0x41f, 0x43f); (0x420, 0x440);
   (0x421, 0x441); (0x422, 0x442); (0x423, 0x443); (0x424, 0x444);
   (0x425, 0x445); (0x426, 0x446); (0x427, 0x447); (0x428, 0x448);
   (0x429, 0x449); (0x42a, 0x44a); (0x42b, 0x44b); (0x42c, 0x44c);
   (0x42d, 0x44d); (0x42e, 0x44e); (0x42f, 0x44f); (0x460, 0x461);
   (0x462, 0x463); (0x464, 0x465); (0x466, 0x467); (0x468, 0x469);
   (0x46a, 0x46b); (0x46c, 0x46d); (0x46e, 0x46f); (0x470, 0x471);
   (0x472, 0x473); (0x474, 0x475); (0x476, 0x477); (0x478, 0x479);
   (0x47a, 0x47b); (0x47c, 0x47d); (0x47e, 0x47f); (0x480, 0x481);
   (0x48a, 0x48b); (0x48c, 0x48d); (0x48e, 0x48f); (0x490, 0x491);
   (0x492, 0x493); (0x494, 0x495); (0x496, 0x497); (0x498, 0x499);
   (0x49a, 0x49b); (0x49c, 0x49d); (0x49e, 0x49f); (0x4a0, 0x4a1);
   (0x4a2, 0x4a3); (0x4a4, 0x4a5); (0x4a6, 0x4a7); (0x4a8, 0x4a9);
   (0x4aa, 0x4ab); (0x4ac, 0x4ad); (0x4ae, 0x4af); (0x4b0, 0x4b1);
   (0x4b2, 0x4b3); (0x4b4, 0x4b5); (0x4b6, 0x4b7); (0x4b8, 0x4b9);
   (0x4ba, 0x4bb); (0x4bc, 0x4bd); (0x4be, 0x4bf); (0x4c0, 0x4cf);
   (0x4c1, 0x4c2); (0x4c3, 0x4c4); (0x4c5, 0x4c6); (0x4c7, 0x4c8);
   (0x4c9, 0x4ca); (0x4cb, 0x4cc); (0x4cd, 0x4ce); (0x4d0, 0x4d1);
   (0x4d2, 0x4d3); (0x4d4, 0x4d5); (0x4d6, 0x4d7); (0x4d8, 0x4d9);
   (0x4da, 0x4db); (0x4dc, 0x4dd); (0x4de, 0x4df); (0x4e0, 0x4e1);
   (0x4e2, 0x4e3); (0x4e4, 0x4e5); (0x4e6, 0x4e7); (0x4e8, 0x4e9);
   (0x4ea, 0x4eb); (0x4ec, 0x4ed); (0x4ee, 0x4ef); (0x4f0, 0x4f1);
   (0x4f2, 0x4f3); (0x4f4, 0x4f5); (0x4f6, 0x4f7); (0x4f8, 0x4f9);
   (0x4fa, 0x4fb); (0x4fc, 0x4fd); (0x4fe, 0x4ff); (0x500, 0x501);
   (0x502, 0x503); (0x504, 0x505); (0x506, 0x507); (0x508, 0x509);
   (0x50a, 0x50b); (0x50c, 0x50d); (0x50e, 0x50f); (0x510, 0x511);
   (0x512, 0x513); (0x514, 0x515); (0x516, 0x517); (0x518, 0x519);
   (0x51a, 0x51b); (0x51c, 0x51d); (0x51e, 0x51f); (0x520, 0x521);
   (0x522, 0x523); (0x524, 0x525); (0x526, 0x527); (0x528, 0x529);
   (0x52a, 0x52b); (0x52c, 0x52d); (0x52e, 0x52f); (0x531, 0x561);
   (0x532, 0x562); (0x533, 0x563); (0x534, 0x564); (0x535, 0x565);
   (0x536, 0x566); (0x537, 0x567); (0x538, 0x568); (0x539, 0x569);
   (0x53a, 0x56a); (0x53b, 0x56b); (0x53c, 0x56c); (0x53d, 0x56d);
   (0x53e, 0x56e); (0x53f, 0x56f); (0x540, 0x570); (0x541, 0x571);
   (0x542, 0x572); (0x543, 0x573); (0x544, 0x574); (0x545, 0x575);
   (0x546, 0x576); (0x547, 0x577); (0x548, 0x578); (0x549, 0x579);
   (0x54a, 0x57a); (0x54b, 0x57b); (0x54c, 0x57c); (0x54d, 0x57d);
   (0x54e, 0x57e); (0x54f, 0x57f); (0x550, 0x580); (0x551, 0x581);
   (0x552, 0x582); (0x553, 0x583); (0x554, 0x584); (0x555, 0x585);
   (0x556, 0x586); (0x10a0, 0x2d00); (0x10a1, 0x2d01); (0x10a2, 0x2d02);
   (0x10a3, 0x2d03); (0x10a4, 0x2d04); (0x10a5, 0x2d05); (0x10a6, 0x2d06);
   (0x10a7, 0x2d07); (0x10a8, 0x2d08); (0x10a9, 0x2d09); (0x10aa, 0x2d0a);
   (0x10ab, 0x2d0b); (0x10ac, 0x2d0c); (0x10ad, 0x2d0d); (0x10ae, 0x2d0e);
   (0x10af, 0x2d0f); (0x10b0, 0x2d10); (0x10b1, 0x2d11); (0x10b2, 0x2d12);
   (0x10b3, 0x2d13); (0x10b4, 0x2d14); (0x10b5, 0x2d15); (0x10b6, 0x2d16);
   (0x10b7, 0x2d17); (0x10b8, 0x2d18); (0x10b9, 0x2d19); (0x10ba, 0x2d1a);
   (0x10bb, 0x2d1b); (0x10bc, 0x2d1c); (0x10bd, 0x2d1d); (0x10be, 0x2d1e);
   (0x10bf, 0x2d1f); (0x10c0, 0x2d20); (0x10c1, 0x2d21); (0x10c2, 0x2d22);
   (0x10c3, 0x2d23); (0x10c4, 0x2d24); (0x10c5, 0x2d25); (0x10c7, 0x2d27);
   (0x10cd, 0x2d2d); (0x13a0, 0xab70); (0x13a1, 0xab71); (0x13a2, 0xab72);
   (0x13a3, 0xab73); (0x13a4, 0xab74); (0x13a5, 0xab75); (0x13a6, 0xab76);
   (0x13a7, 0xab77); (0x13a8, 0xab78); (0x13a9, 0xab79); (0x13aa, 0xab7a);
   (0x13ab, 0xab7b); (0x13ac, 0xab7c); (0x13ad, 0xab7d); (0x13ae, 0xab7e);
   (0x13af, 0xab7f); (0x13b0, 0xab80); (0x13b1, 0xab81); (0x13b2, 0xab82);
   (0x13b3, 0xab83); (0x13b4, 0xab84); (0x13b5, 0xab85); (0x13b6, 0xab86);
   (0x13b7, 0xab87); (0x13b8, 0xab88); (0x13b9, 0xab89); (0x13ba, 0xab8a);
   (0x13bb, 0xab8b); (0x13bc, 0xab8c); (0x13bd, 0xab8d); (0x13be, 0xab8e);
   (0x13bf, 0xab8f); (0x13c0, 0xab90); (0x13c1, 0xab91); (0x13c2, 0xab92);
   (0x13c3, 0xab93); (0x13c4, 0xab94); (0x13c5, 0xab95); (0x13c6, 0xab96);
   (0x13c7, 0xab97); (0x13c8, 0xab98); (0x13c9, 0xab99); (0x13ca, 0xab9a);
   (0x13cb, 0xab9b); (0x13cc, 0xab9c); (0x13cd, 0xab9d); (0x13ce, 0xab9e);
   (0x13cf, 0xab9f); (0x13d0, 0xaba0); (0x13d1, 0xaba1); (0x13d2, 0xaba2);
   (0x13d3, 0xaba3); (0x13d4, 0xaba4); (0x13d5, 0xaba5); (0x13d6, 0xaba6);
   (0x13d7, 0xaba7); (0x13d8, 0xaba8); (0x13d9, 0xaba9); (0x13da, 0xabaa);
   (0x13db, 0xabab); (0x13dc, 0xabac); (0x13dd, 0xabad); (0x13de, 0xabae);
   (0x13df, 0xabaf); (0x13e0, 0xabb0); (0x13e1, 0xabb1); (0x13e2, 0xabb2);
   (0x13e3, 0xabb3); (0x13e4, 0xabb4); (0x13e5, 0xabb5); (0x13e6, 0xabb6);
   (0x13e7, 0xabb7); (0x13e8, 0xabb8); (0x13e9, 0xabb9); (0x13ea, 0xabba);
   (0x13eb, 0xabbb); (0x13ec, 0xabbc); (0x13ed, 0xabbd); (0x13ee, 0xabbe);
   (0x13ef, 0xabbf); (0x13f0, 0x13f8); (0x13f1, 0x13f9); (0x13f2, 0x13fa);
   (0x13f3, 0x13fb); (0x13f4, 0x13fc); (0x13f5, 0x13fd); (0x1c90, 0x10d0);
   (0x1c91, 0x10d1); (0x1c92, 0x10d2); (0x1c93, 0x10d3); (0x1c94, 0x10d4);
   (0x1c95, 0x10d5); (0x1c96, 0x10d6); (0x1c97, 0x10d7); (0x1c98, 0x10d8);
   (0x1c99, 0x10d9); (0x1c9a, 0x10da); (0x1c9b, 0x10db); (0x1c9c, 0x10dc);
   (0x1c9d, 0x10dd); (0x1c9e, 0x10de); (0x1c9f, 0x10df); (0x1ca0, 0x10e0);
   (0x1ca1, 0x10e1); (0x1ca2, 0x10e2); (0x1ca3, 0x10e3); (0x1ca4, 0x10e4);
   (0x1ca5, 0x10e5); (0x1ca6, 0x10e6); (0x1ca7, 0x10e7); (0x1ca8, 0x10e8);
   (0x1ca9, 0x10e9); (0x1caa, 0x10ea); (0x1cab, 0x10eb); (0x1cac, 0x10ec);
   (0x1cad, 0x10ed); (0x1cae, 0x10ee); (0x1caf, 0x10ef); (0x1cb0, 0x10f0);
   (0x1cb1, 0x10f1); (0x1cb2, 0x10f2); (0x1cb3, 0x10f3); (0x1cb4, 0x10f4);
   (0x1cb5, 0x10f5); (0x1cb6, 0x10f6); (0x1cb7, 0x10f7); (0x1cb8, 0x10f8);
   (0x1cb9, 0x10f9); (0x1cba, 0x10fa); (0x1cbd, 0x10fd); (0x1cbe, 0x10fe);
   (0x1cbf, 0x10ff); (0x1e00, 0x1e01); (0x1e02, 0x1e03); (0x1e04, 0x1e05);
   (0x1e06, 0x1e07); (0x1e08, 0x1e09); (0x1e0a, 0x1e0b); (0x1e0c, 0x1e0d);
   (0x1e0e, 0x1e0f); (0x1e10, 0x1e11); (0x1e12, 0x1e13); (0x1e14, 0x1e15);
   (0x1e16, 0x1e17); (0x1e18, 0x1e19); (0x1e1a, 0x1e1b); (0x1e1c, 0x1e1d);
   (0x1e1e, 0x1e1f); (0x1e20, 0x1e21); (0x1e22, 0x1e23); (0x1e24, 0x1e25);
   (0x1e26, 0x1e27); (0x1e28, 0x1e29); (0x1e2a, 0x1e2b); (0x1e2c, 0x1e2d);
   (0x1e2e, 0x1e2f); (0x1e30, 0x1e31); (0x1e32, 0x1e33); (0x1e34, 0x1e35);
   (0x1e36, 0x1e37); (0x1e38, 0x1e39); (0x1e3a, 0x1e3b); (0x1e3c, 0x1e3d);
   (0x1e3e, 0x1e3f); (0x1e40, 0x1e41); (0x1e42, 0x1e43); (0x1e44, 0x1e45);
   (0x1e46, 0x1e47); (0x1e48, 0x1e49); (0x1e4a, 0x1e4b); (0x1e4c, 0x1e4d);
   (0x1e4e, 0x1e4f); (0x1e50, 0x1e51); (0x1e52, 0x1e53); (0x1e54, 0x1e55);
   (0x1e56, 0x1e57); (0x1e58, 0x1e59); (0x1e5a, 0x1e5b); (0x1e5c, 0x1e5d);
   (0x1e5e, 0x1e5f); (0x1e60, 0x1e61); (0x1e62, 0x1e63); (0x1e64, 0x1e65);
   (0x1e66, 0x1e67); (0x1e68, 0x1e69); (0x1e6a, 0x1e6b); (0x1e6c, 0x1e6d);
   (0x1e6e, 0x1e6f); (0x1e70, 0x1e71); (0x1e72, 0x1e73); (0x1e74, 0x1e75);
   (0x1e76, 0x1e77); (0x1e78, 0x1e79); (0x1e7a, 0x1e7b); (0x1e7c, 0x1e7d);
   (0x1e7e, 0x1e7f); (0x1e80, 0x1e81); (0x1e82, 0x1e83); (0x1e84, 0x1e85);
   (0x1e86, 0x1e87); (0x1e88, 0x1e89); (0x1e8a, 0x1e8b); (0x1e8c, 0x1e8d);
   (0x1e8e, 0x1e8f); (0x1e90, 0x1e91); (0x1e92, 0x1e93); (0x1e94, 0x1e95);
   (0x1e9e, 0xdf); (0x1ea0, 0x1ea1); (0x1ea2, 0x1ea3); (0x1ea4, 0x1ea5);
   (0x1ea6, 0x1ea7); (0x1ea8, 0x1ea9); (0x1eaa, 0x1eab); (0x1eac, 0x1ead);
   (0x1eae, 0x1eaf); (0x1eb0, 0x1eb1); (0x1eb2, 0x1eb3); (0x1eb4, 0x1eb5);
   (0x1eb6, 0x1eb7); (0x1eb8, 0x1eb9); (0x1eba, 0x1ebb); (0x1ebc, 0x1ebd);
   (0x1ebe, 0x1ebf); (0x1ec0, 0x1ec1); (0x1ec2, 0x1ec3); (0x1ec4, 0x1ec5);
   (0x1ec6, 0x1ec7); (0x1ec8, 0x1ec9); (0x1eca, 0x1ecb); (0x1ecc, 0x1ecd);
   (0x1ece, 0x1ecf); (0x1ed0, 0x1ed1); (0x1ed2, 0x1ed3); (0x1ed4, 0x1ed5);
   (0x1ed6, 0x1ed7); (0x1ed8, 0x1ed9); (0x1eda, 0x1edb); (0x1edc, 0x1edd);
   (0x1ede, 0x1edf); (0x1ee0, 0x1ee1); (0x1ee2, 0x1ee3); (0x1ee4, 0x1ee5);
   (0x1ee6, 0x1ee7); (0x1ee8, 0x1ee9); (0x1eea, 0x1eeb); (0x1eec, 0x1eed);
   (0x1eee, 0x1eef); (0x1ef0, 0x1ef1); (0x1ef2, 0x1ef3); (0x1ef4, 0x1ef5);
   (0x1ef6, 0x1ef7); (0x1ef8, 0x1ef9); (0x1efa, 0x1efb); (0x1efc, 0x1efd);
   (0x1efe, 0x1eff); (0x1f08, 0x1f00); (0x1f09, 0x1f01); (0x1f0a, 0x1f02);
   (0x1f0b, 0x1f03); (0x1f0c, 0x1f04); (0x1f0d, 0x1f05); (0x1f0e, 0x1f06);
   (0x1f0f, 0x1f07); (0x1f18, 0x1f10); (0x1f19, 0x1f11); (0x1f1a, 0x1f12);
   (0x1f1b, 0x1f13); (0x1f1c, 0x1f14); (0x1f1d, 0x1f15); (0x1f28, 0x1f20);
   (0x1f29, 0x1f21); (0x1f2a, 0x1f22); (0x1f2b, 0x1f23); (0x1f2c, 0x1f24);
   (0x1f2d, 0x1f25); (0x1f2e, 0x1f26); (0x1f2f, 0x1f27); (0x1f38, 0x1f30);
   (0x1f39, 0x1f31); (0x1f3a, 0x1f32); (0x1f3b, 0x1f33); (0x1f3c, 0x1f34);
   (0x1f3d, 0x1f35); (0x1f3e, 0x1f36); (0x1f3f, 0x1f37); (0x1f48, 0x1f40);
   (0x1f49, 0x1f41); (0x1f4a, 0x1f42); (0x1f4b, 0x1f43); (0x1f4c, 0x1f44);
   (0x1f4d, 0x1f45); (0x1f59, 0x1f51); (0x1f5b, 0x1f53); (0x1f5d, 0x1f55);
   (0x1f5f, 0x1f57); (0x1f68, 0x1f60); (0x1f69, 0x1f61); (0x1f6a, 0x1f62);
   (0x1f6b, 0x1f63); (0x1f6c, 0x1f64); (0x1f6d, 0x1f65); (0x1f6e, 0x1f66);
   (0x1f6f, 0x1f67); (0x1f88, 0x1f80); (0x1f89, 0x1f81); (0x1f8a, 0x1f82);
   (0x1f8b, 0x1f83); (0x1f8c, 0x1f84); (0x1f8d, 0x1f85); (0x1f8e, 0x1f86);
   (0x1f8f, 0x1f87); (0x1f98, 0x1f90); (0x1f99, 0x1f91); (0x1f9a, 0x1f92);
   (0x1f9b, 0x1f93); (0x1f9c, 0x1f94); (0x1f9d, 0x1f95); (0x1f9e, 0x1f96);
   (0x1f9f, 0x1f97); (0x1fa8, 0x1fa0); (0x1fa9, 0x1fa1); (0x1faa, 0x1fa2);
   (0x1fab, 0x1fa3); (0x1fac, 0x1fa4); (0x1fad, 0x1fa5); (0x1fae, 0x1fa6);
   (0x1faf, 0x1fa7); (0x1fb8, 0x1fb0); (0x1fb9, 0x1fb1); (0x1fba, 0x1f70);
   (0x1fbb, 0x1f71); (0x1fbc, 0x1fb3); (0x1fc8, 0x1f72); (0x1fc9, 0x1f73);
   (0x1fca, 0x1f74); (0x1fcb, 0x1f75); (0x1fcc, 0x1fc3); (0x1fd8, 0x1fd0);
   (0x1fd9, 0x1fd1); (0x1fda, 0x1f76); (0x1fdb, 0x1f77); (0x1fe8, 0x1fe0);
   (0x1fe9, 0x1fe1); (0x1fea, 0x1f7a); (0x1feb, 0x1f7b); (0x1fec, 0x1fe5);
   (0x1ff8, 0x1f78); (0x1ff9, 0x1f79); (0x1ffa, 0x1f7c); (0x1ffb, 0x1f7d);
   (0x1ffc, 0x1ff3); (0x2126, 0x3c9); (0x212a, 0x6b); (0x212b, 0xe5);
   (0x2132, 0x214e); (0x2160, 0x2170); (0x2161, 0x2171); (0x2162, 0x2172);
   (0x2163, 0x2173); (0x2164, 0x2174); (0x2165, 0x2175); (0x2166, 0x2176);
   (0x2167, 0x2177); (0x2168, 0x2178); (0x2169, 0x2179); (0x216a, 0x217a);
   (0x216b, 0x217b); (0x216c, 0x217c); (0x216d, 0x217d); (0x216e, 0x217e);
   (0x216f, 0x217f); (0x2183, 0x2184); (0x24b6, 0x24d0); (0x24b7, 0x24d1);
   (0x24b8, 0x24d2); (0x24b9, 0x24d3); (0x24ba, 0x24d4); (0x24bb, 0x24d5);
   (0x24bc, 0x24d6); (0x24bd, 0x24d7); (0x24be, 0x24d8); (0x24bf, 0x24d9);
   (0x24c0, 0x24da); (0x24c1, 0x24db); (0x24c2, 0x24dc); (0x24c3, 0x24dd);
   (0x24c4, 0x24de); (0x24c5, 0x24df); (0x24c6, 0x24e0); (0x24c7, 0x24e1);
   (0x24c8, 0x24e2); (0x24c9, 0x24e3); (0x24ca, 0x24e4); (0x24cb, 0x24e5);
   (0x24cc, 0x24e6); (0x24cd, 0x24e7); (0x24ce, 0x24e8); (0x24cf, 0x24e9);
   (0x2c00, 0x2c30); (0x2c01, 0x2c31); (0x2c02, 0x2c32); (0x2c03, 0x2c33);
   (0x2c04, 0x2c34); (0x2c05, 0x2c35); (0x2c06, 0x2c36); (0x2c07, 0x2c37);
   (0x2c08, 0x2c38); (0x2c09, 0x2c39); (0x2c0a, 0x2c3a); (0x2c0b, 0x2c3b);
   (0x2c0c, 0x2c3c); (0x2c0d, 0x2c3d); (0x2c0e, 0x2c3e); (0x2c0f, 0x2c3f);
   (0x2c10, 0x2c40); (0x2c11, 0x2c41); (0x2c12, 0x2c42); (0x2c13, 0x2c43);
   (0x2c14, 0x2c44); (0x2c15, 0x2c45); (0x2c16, 0x2c46); (0x2c17, 0x2c47);
   (0x2c18, 0x2c48); (0x2c19, 0x2c49); (0x2c1a, 0x2c4a); (0x2c1b, 0x2c4b);
   (0x2c1c, 0x2c4c); (0x2c1d, 0x2c4d); (0x2c1e, 0x2c4e); (0x2c1f, 0x2c4f);
   (0x2c20, 0x2c50); (0x2c21, 0x2c51); (0x2c22, 0x2c52); (0x2c23, 0x2c53);
   (0x2c24, 0x2c54); (0x2c25, 0x2c55); (0x2c26, 0x2c56); (0x2c27, 0x2c57);
   (0x2c28, 0x2c58); (0x2c29, 0x2c59); (0x2c2a, 0x2c5a); (0x2c2b, 0x2c5b);
   (0x2c2c, 0x2c5c); (0x2c2d, 0x2c5d); (0x2c2e, 0x2c5e); (0x2c2f, 0x2c5f);
   (0x2c60, 0x2c61); (0x2c62, 0x26b); (0x2c63, 0x1d7d); (0x2c64, 0x27d);
   (0x2c67, 0x2c68); (0x2c69, 0x2c6a); (0x2c6b, 0x2c6c); (0x2c6d, 0x251);
   (0x2c6e, 0x271); (0x2c6f, 0x250); (0x2c70, 0x252); (0x2c72, 0x2c73);
   (0x2c75, 0x2c76); (0x2c7e, 0x23f); (0x2c7f, 0x240); (0x2c80, 0x2c81);
   (0x2c82, 0x2c83); (0x2c84, 0x2c85); (0x2c86, 0x2c87); (0x2c88, 0x2c89);
   (0x2c8a, 0x2c8b); (0x2c8c, 0x2c8d); (0x2c8e, 0x2c8f); (0x2c90, 0x2c91);
   (0x2c92, 0x2c93); (0x2c94, 0x2c95); (0x2c96, 0x2c97); (0x2c98, 0x2c99);
   (0x2c9a, 0x2c9b); (0x2c9c, 0x2c9d); (0x2c9e, 0x2c9f); (0x2ca0, 0x2ca1);
   (0x2ca2, 0x2ca3); (0x2ca4, 0x2ca5); (0x2ca6, 0x2ca7); (0x2ca8, 0x2ca9);
   (0x2caa, 0x2cab); (0x2cac, 0x2cad); (0x2cae, 0x2caf); (0x2cb0, 0x2cb1);
   (0x2cb2, 0x2cb3); (0x2cb4, 0x2cb5); (0x2cb6, 0x2cb7); (0x2cb8, 0x2cb9);
   (0x2cba, 0x2cbb); (0x2cbc, 0x2cbd); (0x2cbe, 0x2cbf); (0x2cc0, 0x2cc1);
   (0x2cc2, 0x2cc3); (0x2cc4, 0x2cc5); (0x2cc6, 0x2cc7); (0x2cc8, 0x2cc9);
   (0x2cca, 0x2ccb); (0x2ccc, 0x2ccd); (0x2cce, 0x2ccf); (0x2cd0, 0x2cd1);
   (0x2cd2, 0x2cd3); (0x2cd4, 0x2cd5); (0x2cd6, 0x2cd7); (0x2cd8, 0x2cd9);
   (0x2cda, 0x2cdb); (0x2cdc, 0x2cdd); (0x2cde, 0x2cdf); (0x2ce0, 0x2ce1);
   (0x2ce2, 0x2ce3); (0x2ceb, 0x2cec); (0x2ced, 0x2cee); (0x2cf2, 0x2cf3);
   (0xa640, 0xa641); (0xa642, 0xa643); (0xa644, 0xa645); (0xa646, 0xa647);
   (0xa648, 0xa649); (0xa64a, 0xa64b); (0xa64c, 0xa64d); (0xa64e, 0xa64f);
   (0xa650, 0xa651); (0xa652, 0xa653); (0xa654, 0xa655); (0xa656, 0xa657);
   (0xa658, 0xa659); (0xa65a, 0xa65b); (0xa65c, 0xa65d); (0xa65e, 0xa65f);
   (0xa660, 0xa661); (0xa662, 0xa663); (0xa664, 0xa665); (0xa666, 0xa667);
   (0xa668, 0xa669); (0xa66a, 0xa66b); (0xa66c, 0xa66d); (0xa680, 0xa681);
   (0xa682, 0xa683); (0xa684, 0xa685); (0xa686, 0xa687); (0xa688, 0xa689);
   (0xa68a, 0xa68b); (0xa68c, 0xa68d); (0xa68e, 0xa68f); (0xa690, 0xa691);
   (0xa692, 0xa693); (0xa694, 0xa695); (0xa696, 0xa697); (0xa698, 0xa699);
   (0xa69a, 0xa69b); (0xa722, 0xa723); (0xa724, 0xa725); (0xa726, 0xa727);
   (0xa728, 0xa729); (0xa72a, 0xa72b); (0xa72c, 0xa72d); (0xa72e, 0xa72f);
   (0xa732, 0xa733); (0xa734, 0xa735); (0xa736, 0xa737); (0xa738, 0xa739);
   (0xa73a, 0xa73b); (0xa73c, 0xa73d); (0xa73e, 0xa73f); (0xa740, 0xa741);
   (0xa742, 0xa743); (0xa744, 0xa745); (0xa746, 0xa747); (0xa748, 0xa749);
   (0xa74a, 0xa74b); (0xa74c, 0xa74d); (0xa74e, 0xa74f); (0xa750, 0xa751);
   (0xa752, 0xa753); (0xa754, 0xa755); (0xa756, 0xa757); (0xa758, 0xa759);
   (0xa75a, 0xa75b); (0xa75c, 0xa75d); (0xa75e, 0xa75f); (0xa760, 0xa761);
   (0xa762, 0xa763); (0xa764, 0xa765); (0xa766, 0xa767); (0xa768, 0xa769);
   (0xa76a, 0xa76b); (0xa76c, 0xa76d); (0xa76e, 0xa76f); (0xa779, 0xa77a);
   (0xa77b, 0xa77c); (0xa77d, 0x1d79); (0xa77e, 0xa77f); (0xa780, 0xa781);
   (0xa782, 0xa783); (0xa784, 0xa785); (0xa786, 0xa787); (0xa78b, 0xa78c);
   (0xa78d, 0x265); (0xa790, 0xa791); (0xa792, 0xa793); (0xa796, 0xa797);
   (0xa798, 0xa799); (0xa79a, 0xa79b); (0xa79c, 0xa79d); (0xa79e, 0xa79f);
   (0xa7a0, 0xa7a1); (0xa7a2, 0xa7a3); (0xa7a4, 0xa7a5); (0xa7a6, 0xa7a7);
   (0xa7a8, 0xa7a9); (0xa7aa, 0x266); (0xa7ab, 0x25c); (0xa7ac, 0x261);
   (0xa7ad, 0x26c); (0xa7ae, 0x26a); (0xa7b0, 0x29e); (0xa7b1, 0x287);
   (0xa7b2, 0x29d); (0xa7b3, 0xab53); (0xa7b4, 0xa7b5); (0xa7b6, 0xa7b7);
   (0xa7b8, 0xa7b9); (0xa7ba, 0xa7bb); (0xa7bc, 0xa7bd); (0xa7be, 0xa7bf);
   (0xa7c0, 0xa7c1); (0xa7c2, 0xa7c3); (0xa7c4, 0xa794); (0xa7c5, 0x282);
   (0xa7c6, 0x1d8e); (0xa7c7, 0xa7c8); (0xa7c9, 0xa7ca); (0xa7d0, 0xa7d1);
   (0xa7d6, 0xa7d7); (0xa7d8, 0xa7d9); (0xa7f5, 0xa7f6); (0xff21, 0xff41);
   (0xff22, 0xff42); (0xff23, 0xff43); (0xff24, 0xff44); (0xff25, 0xff45);
   (0xff26, 0xff46); (0xff27, 0xff47); (0xff28, 0xff48); (0xff29, 0xff49);
   (0xff2a, 0xff4a); (0xff2b, 0xff4b); (0xff2c, 0xff4c); (0xff2d, 0xff4d);
   (0xff2e, 0xff4e); (0xff2f, 0xff4f); (0xff30, 0xff50); (0xff31, 0xff51);
   (0xff32, 0xff52); (0xff33, 0xff53); (0xff34, 0xff54); (0xff35, 0xff55);
   (0xff36, 0xff56); (0xff37, 0xff57); (0xff38, 0xff58); (0xff39, 0xff59);
   (0xff3a, 0xff5a); (0x10400, 0x10428); (0x10401, 0x10429);
   (0x10402, 0x1042a); (0x10403, 0x1042b); (0x10404, 0x1042c);
   (0x10405, 0x1042d); (0x10406, 0x1042e); (0x10407, 0x1042f);
   (0x10408, 0x10430); (0x10409, 0x10431); (0x1040a, 0x10432);
   (0x1040b, 0x10433); (0x1040c, 0x10434); (0x1040d, 0x10435);
   (0x1040e, 0x10436); (0x1040f, 0x10437); (0x10410, 0x10438);
   (0x10411, 0x10439); (0x10412, 0x1043a); (0x10413, 0x1043b);
   (0x10414, 0x1043c); (0x10415, 0x1043d); (0x10416, 0x1043e);
   (0x10417, 0x1043f); (0x10418, 0x10440); (0x10419, 0x10441);
   (0x1041a, 0x10442); (0x1041b, 0x10443); (0x1041c, 0x10444);
   (0x1041d, 0x10445); (0x1041e, 0x10446); (0x1041f, 0x10447);
   (0x10420, 0x10448); (0x10421, 0x10449); (0x10422, 0x1044a);
   (0x10423, 0x1044b); (0x10424, 0x1044c); (0x10425, 0x1044d);
   (0x10426, 0x1044e); (0x10427, 0x1044f); (0x104b0, 0x104d8);
   (0x104b1, 0x104d9); (0x104b2, 0x104da); (0x104b3, 0x104db);
   (0x104b4, 0x104dc); (0x104b5, 0x104dd); (0x104b6, 0x104de);
   (0x104b7, 0x104df); (0x104b8, 0x104e0); (0x104b9, 0x104e1);
   (0x104ba, 0x104e2); (0x104bb, 0x104e3); (0x104bc, 0x104e4);
   (0x104bd, 0x104e5); (0x104be, 0x104e6); (0x104bf, 0x104e7);
   (0x104c0, 0x104e8); (0x104c1, 0x104e9); (0x104c2, 0x104ea);
   (0x104c3, 0x104eb); (0x104c4, 0x104ec); (0x104c5, 0x104ed);
   (0x104c6, 0x104ee); (0x104c7, 0x104ef); (0x104c8, 0x104f0);
   (0x104c9, 0x104f1); (0x104ca, 0x104f2); (0x104cb, 0x104f3);
   (0x104cc, 0x104f4); (0x104cd, 0x104f5); (0x104ce, 0x104f6);
   (0x104cf, 0x104f7); (0x104d0, 0x104f8); (0x104d1, 0x104f9);
   (0x104d2, 0x104fa); (0x104d3, 0x104fb); (0x10570, 0x10597);
   (0x10571, 0x10598); (0x10572, 0x10599); (0x10573, 0x1059a);
   (0x10574, 0x1059b); (0x10575, 0x1059c); (0x10576, 0x1059d);
   (0x10577, 0x1059e); (0x10578, 0x1059f); (0x10579, 0x105a0);
   (0x1057a, 0x105a1); (0x1057c, 0x105a3); (0x1057d, 0x105a4);
   (0x1057e, 0x105a5); (0x1057f, 0x105a6); (0x10580, 0x105a7);
   (0x10581, 0x105a8); (0x10582, 0x105a9); (0x10583, 0x105aa);
   (0x10584, 0x105ab); (0x10585, 0x105ac); (0x10586, 0x105ad);
   (0x10587, 0x105ae); (0x10588, 0x105af); (0x10589, 0x105b0);
   (0x1058a, 0x105b1); (0x1058c, 0x105b3); (0x1058d, 0x105b4);
   (0x1058e, 0x105b5); (0x1058f, 0x105b6); (0x10590, 0x105b7);
   (0x10591, 0x105b8); (0x10592, 0x105b9); (0x10594, 0x105bb);
   (0x10595, 0x105bc); (0x10c80, 0x10cc0); (0x10c81, 0x10cc1);
   (0x10c82, 0x10cc2); (0x10c83, 0x10cc3); (0x10c84, 0x10cc4);
   (0x10c85, 0x10cc5); (0x10c86, 0x10cc6); (0x10c87, 0x10cc7);
   (0x10c88, 0x10cc8); (0x10c89, 0x10cc9); (0x10c8a, 0x10cca);
   (0x10c8b, 0x10ccb); (0x10c8c, 0x10ccc); (0x10c8d, 0x10ccd);
   (0x10c8e, 0x10cce); (0x10c8f, 0x10ccf); (0x10c90, 0x10cd0);
   (0x10c91, 0x10cd1); (0x10c92, 0x10cd2); (0x10c93, 0x10cd3);
   (0x10c94, 0x10cd4); (0x10c95, 0x10cd5); (0x10c96, 0x10cd6);
   (0x10c97, 0x10cd7); (0x10c98, 0x10cd8); (0x10c99, 0x10cd9);
   (0x10c9a, 0x10cda); (0x10c9b, 0x10cdb); (0x10c9c, 0x10cdc);
   (0x10c9d, 0x10cdd); (0x10c9e, 0x10cde); (0x10c9f, 0x10cdf);
   (0x10ca0, 0x10ce0); (0x10ca1, 0x10ce1); (0x10ca2, 0x10ce2);
   (0x10ca3, 0x10ce3); (0x10ca4, 0x10ce4); (0x10ca5, 0x10ce5);
   (0x10ca6, 0x10ce6); (0x10ca7, 0x10ce7); (0x10ca8, 0x10ce8);
   (0x10ca9, 0x10ce9); (0x10caa, 0x10cea); (0x10cab, 0x10ceb);
   (0x10cac, 0x10cec); (0x10cad, 0x10ced); (0x10cae, 0x10cee);
   (0x10caf, 0x10cef); (0x10cb0, 0x10cf0); (0x10cb1, 0x10cf1);
   (0x10cb2, 0x10cf2); (0x118a0, 0x118c0); (0x118a1, 0x118c1);
   (0x118a2, 0x118c2); (0x118a3, 0x118c3); (0x118a4, 0x118c4);
   (0x118a5, 0x118c5); (0x118a6, 0x118c6); (0x118a7, 0x118c7);
   (0x118a8, 0x118c8); (0x118a9, 0x118c9); (0x118aa, 0x118ca);
   (0x118ab, 0x118cb); (0x118ac, 0x118cc); (0x118ad, 0x118cd);
   (0x118ae, 0x118ce); (0x118af, 0x118cf); (0x118b0, 0x118d0);
   (0x118b1, 0x118d1); (0x118b2, 0x118d2); (0x118b3, 0x118d3);
   (0x118b4, 0x118d4); (0x118b5, 0x118d5); (0x118b6, 0x118d6);
   (0x118b7, 0x118d7); (0x118b8, 0x118d8); (0x118b9, 0x118d9);
   (0x118ba, 0x118da); (0x118bb, 0x118db); (0x118bc, 0x118dc);
   (0x118bd, 0x118dd); (0x118be, 0x118de); (0x118bf, 0x118df);
   (0x16e40, 0x16e60); (0x16e41, 0x16e61); (0x16e42, 0x16e62);
   (0x16e43, 0x16e63); (0x16e44, 0x16e64); (0x16e45, 0x16e65);
   (0x16e46, 0x16e66); (0x16e47, 0x16e67); (0x16e48, 0x16e68);
   (0x16e49, 0x16e69); (0x16e4a, 0x16e6a); (0x16e4b, 0x16e6b);
   (0x16e4c, 0x16e6c); (0x16e4d, 0x16e6d); (0x16e4e, 0x16e6e);
   (0x16e4f, 0x16e6f); (0x16e50, 0x16e70); (0x16e51, 0x16e71);
   (0x16e52, 0x16e72); (0x16e53, 0x16e73); (0x16e54, 0x16e74);
   (0x16e55, 0x16e75); (0x16e56, 0x16e76); (0x16e57, 0x16e77);
   (0x16e58, 0x16e78); (0x16e59, 0x16e79); (0x16e5a, 0x16e7a);
   (0x16e5b, 0x16e7b); (0x16e5c, 0x16e7c); (0x16e5d, 0x16e7d);
   (0x16e5e, 0x16e7e); (0x16e5f, 0x16e7f); (0x1e900, 0x1e922);
   (0x1e901, 0x1e923); (0x1e902, 0x1e924); (0x1e903, 0x1e925);
   (0x1e904, 0x1e926); (0x1e905, 0x1e927); (0x1e906, 0x1e928);
   (0x1e907, 0x1e929); (0x1e908, 0x1e92a); (0x1e909, 0x1e92b);
   (0x1e90a, 0x1e92c); (0x1e90b, 0x1e92d); (0x1e90c, 0x1e92e);
   (0x1e90d, 0x1e92f); (0x1e90e, 0x1e930); (0x1e90f, 0x1e931);
   (0x1e910, 0x1e932); (0x1e911, 0x1e933); (0x1e912, 0x1e934);
   (0x1e913, 0x1e935); (0x1e914, 0x1e936); (0x1e915, 0x1e937);
   (0x1e916, 0x1e938); (0x1e917, 0x1e939); (0x1e918, 0x1e93a);
   (0x1e919, 0x1e93b); (0x1e91a, 0x1e93c); (0x1e91b, 0x1e93d);
   (0x1e91c, 0x1e93e); (0x1e91d, 0x1e93f); (0x1e91e, 0x1e940);
   (0x1e91f, 0x1e941); (0x1e920, 0x1e942); (0x1e921, 0x1e943)]%N.

(** The code points with the property Cased (the derived properties
    Lowercase and Uppercase, and the category Lt), as ranges in increasing
    order. *)
Definition cased_ranges : list (N * N) :=
  [(0x41, 0x5a); (0x61, 0x7a); (0xaa, 0xaa); (0xb5, 0xb5); (0xba, 0xba);
   (0xc0, 0xd6); (0xd8, 0xf6); (0xf8, 0x1ba); (0x1bc, 0x1bf); (0x1c4, 0x293);
   (0x295, 0x2b8); (0x2c0, 0x2c1); (0x2e0, 0x2e4); (0x345, 0x345);
   (0x370, 0x373); (0x376, 0x377); (0x37a, 0x37d); (0x37f, 0x37f);
   (0x386, 0x386); (0x388, 0x38a); (0x38c, 0x38c); (0x38e, 0x3a1);
   (0x3a3, 0x3f5); (0x3f7, 0x481); (0x48a, 0x52f); (0x531, 0x556);
   (0x560, 0x588); (0x10a0, 0x10c5); (0x10c7, 0x10c7); (0x10cd, 0x10cd);
   (0x10d0, 0x10fa); (0x10fd, 0x10ff); (0x13a0, 0x13f5); (0x13f8, 0x13fd);
   (0x1c80, 0x1c88); (0x1c90, 0x1cba); (0x1cbd, 0x1cbf); (0x1d00, 0x1dbf);
   (0x1e00, 0x1f15); (0x1f18, 0x1f1d); (0x1f20, 0x1f45); (0x1f48, 0x1f4d);
   (0x1f50, 0x1f57); (0x1f59, 0x1f59); (0x1f5b, 0x1f5b); (0x1f5d, 0x1f5d);
   (0x1f5f, 0x1f7d); (0x1f80, 0x1fb4); (0x1fb6, 0x1fbc); (0x1fbe, 0x1fbe);
   (0x1fc2, 0x1fc4); (0x1fc6, 0x1fcc); (0x1fd0, 0x1fd3); (0x1fd6, 0x1fdb);
   (0x1fe0, 0x1fec); (0x1ff2, 0x1ff4); (0x1ff6, 0x1ffc); (0x2071, 0x2071);
   (0x207f, 0x207f); (0x2090, 0x209c); (0x2102, 0x2102); (0x2107, 0x2107);
   (0x210a, 0x2113); (0x2115, 0x2115); (0x2119, 0x211d); (0x2124, 0x2124);
   (0x2126, 0x2126); (0x2128, 0x2128); (0x212a, 0x212d); (0x212f, 0x2134);
   (0x2139, 0x2139); (0x213c, 0x213f); (0x2145, 0x2149); (0x214e, 0x214e);
   (0x2160, 0x217f); (0x2183, 0x2184); (0x24b6, 0x24e9); (0x2c00, 0x2ce4);
   (0x2ceb, 0x2cee); (0x2cf2, 0x2cf3); (0x2d00, 0x2d25); (0x2d27, 0x2d27);
   (0x2d2d, 0x2d2d); (0xa640, 0xa66d); (0xa680, 0xa69d); (0xa722, 0xa787);
   (0xa78b, 0xa78e); (0xa790, 0xa7ca); (0xa7d0, 0xa7d1); (0xa7d3, 0xa7d3);
   (0xa7d5, 0xa7d9); (0xa7f5, 0xa7f6); (0xa7f8, 0xa7fa); (0xab30, 0xab5a);
   (0xab5c, 0xab68); (0xab70, 0xabbf); (0xfb00, 0xfb06); (0xfb13, 0xfb17);
   (0xff21, 0xff3a); (0xff41, 0xff5a); (0x10400, 0x1044f); (0x104b0, 0x104d3);
   (0x104d8, 0x104fb); (0x10570, 0x1057a); (0x1057c, 0x1058a);
   (0x1058c, 0x10592); (0x10594, 0x10595); (0x10597, 0x105a1);
   (0x105a3, 0x105b1); (0x105b3, 0x105b9); (0x105bb, 0x105bc);
   (0x10780, 0x10780); (0x10783, 0x10785); (0x10787, 0x107b0);
   (0x107b2, 0x107ba); (0x10c80, 0x10cb2); (0x10cc0, 0x10cf2);
   (0x118a0, 0x118df); (0x16e40, 0x16e7f); (0x1d400, 0x1d454);
   (0x1d456, 0x1d49c); (0x1d49e, 0x1d49f); (0x1d4a2, 0x1d4a2);
   (0x1d4a5, 0x1d4a6); (0x1d4a9, 0x1d4ac); (0x1d4ae, 0x1d4b9);
   (0x1d4bb, 0x1d4bb); (0x1d4bd, 0x1d4c3); (0x1d4c5, 0x1d505);
   (0x1d507, 0x1d50a); (0x1d50d, 0x1d514); (0x1d516, 0x1d51c);
   (0x1d51e, 0x1d539); (0x1d53b, 0x1d53e); (0x1d540, 0x1d544);
   (0x1d546, 0x1d546); (0x1d54a, 0x1d550); (0x1d552, 0x1d6a5);
   (0x1d6a8, 0x1d6c0); (0x1d6c2, 0x1d6da); (0x1d6dc, 0x1d6fa);
   (0x1d6fc, 0x1d714); (0x1d716, 0x1d734); (0x1d736, 0x1d74e);
   (0x1d750, 0x1d76e); (0x1d770, 0x1d788); (0x1d78a, 0x1d7a8);
   (0x1d7aa, 0x1d7c2); (0x1d7c4, 0x1d7cb); (0x1df00, 0x1df09);
   (0x1df0b, 0x1df1e); (0x1e900, 0x1e943); (0x1f130, 0x1f149);
   (0x1f150, 0x1f169); (0x1f170, 0x1f189)]%N.

(** The code points with the property Case_Ignorable, as ranges in
    increasing order. *)
Definition case_ignorable_ranges : list (N * N) :=
  [(0x27, 0x27); (0x2e, 0x2e); (0x3a, 0x3a); (0x5e, 0x5e); (0x60, 0x60);
   (0xa8, 0xa8); (0xad, 0xad); (0xaf, 0xaf); (0xb4, 0xb4); (0xb7, 0xb8);
   (0x2b0, 0x36f); (0x374, 0x375); (0x37a, 0x37a); (0x384, 0x385);
   (0x387, 0x387); (0x483, 0x489); (0x559, 0x559); (0x55f, 0x55f);
   (0x591, 0x5bd); (0x5bf, 0x5bf); (0x5c1, 0x5c2); (0x5c4, 0x5c5);
   (0x5c7, 0x5c7); (0x5f4, 0x5f4); (0x600, 0x605); (0x610, 0x61a);
   (0x61c, 0x61c); (0x640, 0x640); (0x64b, 0x65f); (0x670, 0x670);
   (0x6d6, 0x6dd); (0x6df, 0x6e8); (0x6ea, 0x6ed); (0x70f, 0x70f);
   (0x711, 0x711); (0x730, 0x74a); (0x7a6, 0x7b0); (0x7eb, 0x7f5);
   (0x7fa, 0x7fa); (0x7fd, 0x7fd); (0x816, 0x82d); (0x859, 0x85b);
   (0x888, 0x888); (0x890, 0x891); (0x898, 0x89f); (0x8c9, 0x902);
   (0x93a, 0x93a); (0x93c, 0x93c); (0x941, 0x948); (0x94d, 0x94d);
   (0x951, 0x957); (0x962, 0x963); (0x971, 0x971); (0x981, 0x981);
   (0x9bc, 0x9bc); (0x9c1, 0x9c4); (0x9cd, 0x9cd); (0x9e2, 0x9e3);
   (0x9fe, 0x9fe); (0xa01, 0xa02); (0xa3c, 0xa3c); (0xa41, 0xa42);
   (0xa47, 0xa48); (0xa4b, 0xa4d); (0xa51, 0xa51); (0xa70, 0xa71);
   (0xa75, 0xa75); (0xa81, 0xa82); (0xabc, 0xabc); (0xac1, 0xac5);
   (0xac7, 0xac8); (0xacd, 0xacd); (0xae2, 0xae3); (0xafa, 0xaff);
   (0xb01, 0xb01); (0xb3c, 0xb3c); (0xb3f, 0xb3f); (0xb41, 0xb44);
   (0xb4d, 0xb4d); (0xb55, 0xb56); (0xb62, 0xb63); (0xb82, 0xb82);
   (0xbc0, 0xbc0); (0xbcd, 0xbcd); (0xc00, 0xc00); (0xc04, 0xc04);
   (0xc3c, 0xc3c); (0xc3e, 0xc40); (0xc46, 0xc48); (0xc4a, 0xc4d);
   (0xc55, 0xc56); (0xc62, 0xc63); (0xc81, 0xc81); (0xcbc, 0xcbc);
   (0xcbf, 0xcbf); (0xcc6, 0xcc6); (0xccc, 0xccd); (0xce2, 0xce3);
   (0xd00, 0xd01); (0xd3b, 0xd3c); (0xd41, 0xd44); (0xd4d, 0xd4d);
   (0xd62, 0xd63); (0xd81, 0xd81); (0xdca, 0xdca); (0xdd2, 0xdd4);
   (0xdd6, 0xdd6); (0xe31, 0xe31); (0xe34, 0xe3a); (0xe46, 0xe4e);
   (0xeb1, 0xeb1); (0xeb4, 0xebc); (0xec6, 0xec6); (0xec8, 0xecd);
   (0xf18, 0xf19); (0xf35, 0xf35); (0xf37, 0xf37); (0xf39, 0xf39);
   (0xf71, 0xf7e); (0xf80, 0xf84); (0xf86, 0xf87); (0xf8d, 0xf97);
   (0xf99, 0xfbc); (0xfc6, 0xfc6); (0x102d, 0x1030); (0x1032, 0x1037);
   (0x1039, 0x103a); (0x103d, 0x103e); (0x1058, 0x1059); (0x105e, 0x1060);
   (0x1071, 0x1074); (0x1082, 0x1082); (0x1085, 0x1086); (0x108d, 0x108d);
   (0x109d, 0x109d); (0x10fc, 0x10fc); (0x135d, 0x135f); (0x1712, 0x1714);
   (0x1732, 0x1733); (0x1752, 0x1753); (0x1772, 0x1773); (0x17b4, 0x17b5);
   (0x17b7, 0x17bd); (0x17c6, 0x17c6); (0x17c9, 0x17d3); (0x17d7, 0x17d7);
   (0x17dd, 0x17dd); (0x180b, 0x180f); (0x1843, 0x1843); (0x1885, 0x1886);
   (0x18a9, 0x18a9); (0x1920, 0x1922); (0x1927, 0x1928); (0x1932, 0x1932);
   (0x1939, 0x193b); (0x1a17, 0x1a18); (0x1a1b, 0x1a1b); (0x1a56, 0x1a56);
   (0x1a58, 0x1a5e); (0x1a60, 0x1a60); (0x1a62, 0x1a62); (0x1a65, 0x1a6c);
   (0x1a73, 0x1a7c); (0x1a7f, 0x1a7f); (0x1aa7, 0x1aa7); (0x1ab0, 0x1ace);
   (0x1b00, 0x1b03); (0x1b34, 0x1b34); (0x1b36, 0x1b3a); (0x1b3c, 0x1b3c);
   (0x1b42, 0x1b42); (0x1b6b, 0x1b73); (0x1b80, 0x1b81); (0x1ba2, 0x1ba5);
   (0x1ba8, 0x1ba9); (0x1bab, 0x1bad); (0x1be6, 0x1be6); (0x1be8, 0x1be9);
   (0x1bed, 0x1bed); (0x1bef, 0x1bf1); (0x1c2c, 0x1c33); (0x1c36, 0x1c37);
   (0x1c78, 0x1c7d); (0x1cd0, 0x1cd2); (0x1cd4, 0x1ce0); (0x1ce2, 0x1ce8);
   (0x1ced, 0x1ced); (0x1cf4, 0x1cf4); (0x1cf8, 0x1cf9); (0x1d2c, 0x1d6a);
   (0x1d78, 0x1d78); (0x1d9b, 0x1dff); (0x1fbd, 0x1fbd); (0x1fbf, 0x1fc1);
   (0x1fcd, 0x1fcf); (0x1fdd, 0x1fdf); (0x1fed, 0x1fef); (0x1ffd, 0x1ffe);
   (0x200b, 0x200f); (0x2018, 0x2019); (0x2024, 0x2024); (0x2027, 0x2027);
   (0x202a, 0x202e); (0x2060, 0x2064); (0x2066, 0x206f); (0x2071, 0x2071);
   (0x207f, 0x207f); (0x2090, 0x209c); (0x20d0, 0x20f0); (0x2c7c, 0x2c7d);
   (0x2cef, 0x2cf1); (0x2d6f, 0x2d6f); (0x2d7f, 0x2d7f); (0x2de0, 0x2dff);
   (0x2e2f, 0x2e2f); (0x3005, 0x3005); (0x302a, 0x302d); (0x3031, 0x3035);
   (0x303b, 0x303b); (0x3099, 0x309e); (0x30fc, 0x30fe); (0xa015, 0xa015);
   (0xa4f8, 0xa4fd); (0xa60c, 0xa60c); (0xa66f, 0xa672); (0xa674, 0xa67d);
   (0xa67f, 0xa67f); (0xa69c, 0xa69f); (0xa6f0, 0xa6f1); (0xa700, 0xa721);
   (0xa770, 0xa770); (0xa788, 0xa78a); (0xa7f2, 0xa7f4); (0xa7f8, 0xa7f9);
   (0xa802, 0xa802); (0xa806, 0xa806); (0xa80b, 0xa80b); (0xa825, 0xa826);
   (0xa82c, 0xa82c); (0xa8c4, 0xa8c5); (0xa8e0, 0xa8f1); (0xa8ff, 0xa8ff);
   (0xa926, 0xa92d); (0xa947, 0xa951); (0xa980, 0xa982); (0xa9b3, 0xa9b3);
   (0xa9b6, 0xa9b9); (0xa9bc, 0xa9bd); (0xa9cf, 0xa9cf); (0xa9e5, 0xa9e6);
   (0xaa29, 0xaa2e); (0xaa31, 0xaa32); (0xaa35, 0xaa36); (0xaa43, 0xaa43);
   (0xaa4c, 0xaa4c); (0xaa70, 0xaa70); (0xaa7c, 0xaa7c); (0xaab0, 0xaab0);
   (0xaab2, 0xaab4); (0xaab7, 0xaab8); (0xaabe, 0xaabf); (0xaac1, 0xaac1);
   (0xaadd, 0xaadd); (0xaaec, 0xaaed); (0xaaf3, 0xaaf4); (0xaaf6, 0xaaf6);
   (0xab5b, 0xab5f); (0xab69, 0xab6b); (0xabe5, 0xabe5); (0xabe8, 0xabe8);
   (0xabed, 0xabed); (0xfb1e, 0xfb1e); (0xfbb2, 0xfbc2); (0xfe00, 0xfe0f);
   (0xfe13, 0xfe13); (0xfe20, 0xfe2f); (0xfe52, 0xfe52); (0xfe55, 0xfe55);
   (0xfeff, 0xfeff); (0xff07, 0xff07); (0xff0e, 0xff0e); (0xff1a, 0xff1a);
   (0xff3e, 0xff3e); (0xff40, 0xff40); (0xff70, 0xff70); (0xff9e, 0xff9f);
   (0xffe3, 0xffe3); (0xfff9, 0xfffb); (0x101fd, 0x101fd); (0x102e0, 0x102e0);
   (0x10376, 0x1037a); (0x10780, 0x10785); (0x10787, 0x107b0);
   (0x107b2, 0x107ba); (0x10a01, 0x10a03); (0x10a05, 0x10a06);
   (0x10a0c, 0x10a0f); (0x10a38, 0x10a3a); (0x10a3f, 0x10a3f);
   (0x10ae5, 0x10ae6); (0x10d24, 0x10d27); (0x10eab, 0x10eac);
   (0x10f46, 0x10f50); (0x10f82, 0x10f85); (0x11001, 0x11001);
   (0x11038, 0x11046); (0x11070, 0x11070); (0x11073, 0x11074);
   (0x1107f, 0x11081); (0x110b3, 0x110b6); (0x110b9, 0x110ba);
   (0x110bd, 0x110bd); (0x110c2, 0x110c2); (0x110cd, 0x110cd);
   (0x11100, 0x11102); (0x11127, 0x1112b); (0x1112d, 0x11134);
   (0x11173, 0x11173); (0x11180, 0x11181); (0x111b6, 0x111be);
   (0x111c9, 0x111cc); (0x111cf, 0x111cf); (0x1122f, 0x11231);
   (0x11234, 0x11234); (0x11236, 0x11237); (0x1123e, 0x1123e);
   (0x112df, 0x112df); (0x112e3, 0x112ea); (0x11300, 0x11301);
   (0x1133b, 0x1133c); (0x11340, 0x11340); (0x11366, 0x1136c);
   (0x11370, 0x11374); (0x11438, 0x1143f); (0x11442, 0x11444);
   (0x11446, 0x11446); (0x1145e, 0x1145e); (0x114b3, 0x114b8);
   (0x114ba, 0x114ba); (0x114bf, 0x114c0); (0x114c2, 0x114c3);
   (0x115b2, 0x115b5); (0x115bc, 0x115bd); (0x115bf, 0x115c0);
   (0x115dc, 0x115dd); (0x11633, 0x1163a); (0x1163d, 0x1163d);
   (0x1163f, 0x11640); (0x116ab, 0x116ab); (0x116ad, 0x116ad);
   (0x116b0, 0x116b5); (0x116b7, 0x116b7); (0x1171d, 0x1171f);
   (0x11722, 0x11725); (0x11727, 0x1172b); (0x1182f, 0x11837);
   (0x11839, 0x1183a); (0x1193b, 0x1193c); (0x1193e, 0x1193e);
   (0x11943, 0x11943); (0x119d4, 0x119d7); (0x119da, 0x119db);
   (0x119e0, 0x119e0); (0x11a01, 0x11a0a); (0x11a33, 0x11a38);
   (0x11a3b, 0x11a3e); (0x11a47, 0x11a47); (0x11a51, 0x11a56);
   (0x11a59, 0x11a5b); (0x11a8a, 0x11a96); (0x11a98, 0x11a99);
   (0x11c30, 0x11c36); (0x11c38, 0x11c3d); (0x11c3f, 0x11c3f);
   (0x11c92, 0x11ca7); (0x11caa, 0x11cb0); (0x11cb2, 0x11cb3);
   (0x11cb5, 0x11cb6); (0x11d31, 0x11d36); (0x11d3a, 0x11d3a);
   (0x11d3c, 0x11d3d); (0x11d3f, 0x11d45); (0x11d47, 0x11d47);
   (0x11d90, 0x11d91); (0x11d95, 0x11d95); (0x11d97, 0x11d97);
   (0x11ef3, 0x11ef4); (0x13430, 0x13438); (0x16af0, 0x16af4);
   (0x16b30, 0x16b36); (0x16b40, 0x16b43); (0x16f4f, 0x16f4f);
   (0x16f8f, 0x16f9f); (0x16fe0, 0x16fe1); (0x16fe3, 0x16fe4);
   (0x1aff0, 0x1aff3); (0x1aff5, 0x1affb); (0x1affd, 0x1affe);
   (0x1bc9d, 0x1bc9e); (0x1bca0, 0x1bca3); (0x1cf00, 0x1cf2d);
   (0x1cf30, 0x1cf46); (0x1d167, 0x1d169); (0x1d173, 0x1d182);
   (0x1d185, 0x1d18b); (0x1d1aa, 0x1d1ad); (0x1d242, 0x1d244);
   (0x1da00, 0x1da36); (0x1da3b, 0x1da6c); (0x1da75, 0x1da75);
   (0x1da84, 0x1da84); (0x1da9b, 0x1da9f); (0x1daa1, 0x1daaf);
   (0x1e000, 0x1e006); (0x1e008, 0x1e018); (0x1e01b, 0x1e021);
   (0x1e023, 0x1e024); (0x1e026, 0x1e02a); (0x1e130, 0x1e13d);
   (0x1e2ae, 0x1e2ae); (0x1e2ec, 0x1e2ef); (0x1e8d0, 0x1e8d6);
   (0x1e944, 0x1e94b); (0x1f3fb, 0x1f3ff); (0xe0001, 0xe0001);
   (0xe0020, 0xe007f); (0xe0100, 0xe01ef)]%N.

(** Lookups in the tables, which are in increasing order. *)
Fixpoint lookup_lower (c : N) (t : list (N * N)) : N :=
  match t with
  | [] => c
  | (k, v) :: t' =>
      if (c <? k)%N then c else if (c =? k)%N then v else lookup_lower c t'
  end.

Fixpoint in_ranges (c : N) (t : list (N * N)) : bool :=
  match t with
  | [] => false
  | (lo, hi) :: t' =>
      if (c <? lo)%N then false
      else if (c <=? hi)%N then true else in_ranges c t'
  end.

Definition is_cased (c : N) : bool := in_ranges c cased_ranges.

Definition is_case_ignorable (c : N) : bool :=
  in_ranges c case_ignorable_ranges.

(** The full lowercase mapping of one code point: [U+0130] is the only one
    whose lowercase has two code points. *)
Definition to_lower_full (c : N) : list N :=
  if (c =? 0x130)%N then [0x69; 0x307]%N else [lookup_lower c lower_table].

(** The first code point of [l] that is not case-ignorable. *)
Fixpoint first_not_ignorable (l : list N) : option N :=
  match l with
  | [] => None
  | c :: l' => if is_case_ignorable c then first_not_ignorable l' else Some c
  end.

(** A capital sigma is final when a cased letter precedes it and none
    follows it, case-ignorable code points apart; [before] is the text
    before it, the nearest code point first. *)
Definition final_sigma (before after : list N) : bool :=
  match first_not_ignorable before with
  | None => false
  | Some c =>
      is_cased c
      && match first_not_ignorable after with
         | None => true
         | Some c' => negb (is_cased c')
         end
  end.

Fixpoint lower_points (before l : list N) : list N :=
  match l with
  | [] => []
  | c :: l' =>
      (if (c =? 0x3a3)%N then
         [if final_sigma before l' then 0x3c2 else 0x3c3]%N
       else to_lower_full c)
      ++ lower_points (c :: before) l'
  end.

(** [s.lower()] *)
Definition lower (s : string) : string :=
  encode (lower_points [] (decode s)).

(** [s.replace(" ", "_")]: the pattern is one character long. *)
Definition replace_space (s : string) : string :=
  map_string (fun c => if Ascii.eqb c " " then "_"%char else c) s.

(** [max(l, key=key)]: the first item is the candidate, and a later item
    replaces it only when its key is strictly greater. *)
Fixpoint max_loop {A : Type} (key : A -> float) (best : A) (l : list A) : A :=
  match l with
  | [] => best
  | x :: l' => max_loop key (if (key x >? key best)%f64 then x else best) l'
  end.

Definition py_max {A : Type} (key : A -> float) (l : list A) : option A :=
  match l with
  | [] => None
  | x :: l' => Some (max_loop key x l')
  end.

(** [sum(vs)] over floats: the start value is the int [0], and the items
    are added from left to right, each addition rounded (CPython up to
    3.11; later versions add with a compensation term). *)
Definition py_sum (vs : list float) : float :=
  fold_left F64.add vs (F64.of_Z 0).

(** ** Reference data (server.py, lines 28-36) *)

Record Location := {
  loc_name : string;
  loc_latitude : float;
  loc_longitude : float
}.

Definition TRAFFIC_LOCATIONS : dict Location := [
  ("silk_board", {| loc_name := "Silk Board";
                    loc_latitude := F64.of_ratio false 129177 10000;
                    loc_longitude := F64.of_ratio false 776233 10000 |});
  ("kr_puram", {| loc_name := "KR Puram";
                  loc_latitude := F64.of_ratio false 130075 10000;
                  loc_longitude := F64.of_ratio false 776959 10000 |});
  ("whitefield", {| loc_name := "Whitefield";
                    loc_latitude := F64.of_ratio false 129698 10000;
                    loc_longitude := F64.of_ratio false 777500 10000 |});
  ("hebbal", {| loc_name := "Hebbal";
                loc_latitude := F64.of_ratio false 130358 10000;
                loc_longitude := F64.of_ratio false 775970 10000 |})
]%string.

Definition DAYS_OF_WEEK : list string :=
  ["Monday"; "Tuesday"; "Wednesday"; "Thursday"; "Friday"; "Saturday";
   "Sunday"]%string.

(** ** The signal generator (server.py, lines 39-81) *)

Definition base_traffic : dict Z := [
  ("silk_board", 2500);
  ("kr_puram", 2200);
  ("whitefield", 1800);
  ("hebbal", 2000)
]%string.

Definition weekend_factor (day : string) : float :=
  let is_weekend := list_mem day ["Saturday"; "Sunday"]%string in
  if is_weekend then f0_6 else f1_0.

Definition hour_multiplier (hour : Z) : float :=
  if (8 <=? hour) && (hour <=? 10) then f1_8
  else if (17 <=? hour) && (hour <=? 20) then f2_0
  else if (12 <=? hour) && (hour <=? 14) then f1_3
  else if (0 <=? hour) && (hour <=? 5) then f0_3
  else if (22 <=? hour) && (hour <=? 23) then f0_5
  else f1_0.

Definition day_factor (day : string) : float :=
  if String.eqb day "Friday" then f1_15
  else if String.eqb day "Monday" then f1_1
  else f1_0.

(** Line 78: the product before the random variation. *)
Definition raw_traffic (place day : string) (hour : Z) : float :=
  let base := dict_get base_traffic place 1500 in
  (F64.of_Z base * weekend_factor day * hour_multiplier hour
   * day_factor day)%f64.

(** Lines 79-81 for the draw [u] that [random.random()] returned. *)
Definition jitter (u : float) : float := (f0_9 + u * f0_2)%f64.

Definition traffic_with_draw (place day : string) (hour : Z) (u : float)
  : float :=
  let traffic := raw_traffic place day hour in
  let traffic := (traffic * jitter u)%f64 in
  F64.round2 traffic.

(** ** The classifier (server.py, lines 83-90) *)

Record LevelInfo := {
  level : string;
  color : string;
  severity : Z
}.

Definition get_traffic_level (traffic_value : float) : LevelInfo :=
  if (traffic_value <? F64.of_Z 1500)%f64 then
    {| level := "Normal"; color := "#10B981"; severity := 1 |}
  else if (traffic_value <? F64.of_Z 2500)%f64 then
    {| level := "Moderate"; color := "#F59E0B"; severity := 2 |}
  else
    {| level := "High"; color := "#EF4444"; severity := 3 |}.

(** ** The world the handlers run in *)

(** The document stored in the [traffic_predictions] collection
    (server.py, lines 206-215). *)
Record PredictionDoc := {
  doc_id : string;
  doc_place : string;
  doc_day : string;
  doc_start_hour : Z;
  doc_end_hour : Z;
  doc_peak_hour : Z;
  doc_peak_traffic : float;
  doc_timestamp : string
}.

(** [random_values], [uuid_values] and [now_values] are the results the
    process will get from [random.random()], [str(uuid.uuid4())] and
    [datetime.now(timezone.utc).isoformat()], with a cursor on each;
    [traffic_predictions] is the Mongo collection, oldest document first;
    [generator_calls] is a ghost log of the arguments of every call of
    [predict_traffic_value], oldest first. *)
Record World := {
  random_values : nat -> float;
  random_pos : nat;
  uuid_values : nat -> string;
  uuid_pos : nat;
  now_values : nat -> string;
  now_pos : nat;
  traffic_predictions : list PredictionDoc;
  generator_calls : list (string * string * Z)
}.

Inductive exn :=
| HTTPException (status_code : Z) (detail : string)
| RequestValidationError (field : string)
| KeyError (key : string)
| ValueError (msg : string)
| ZeroDivisionError.

Inductive result (A : Type) :=
| Ok (a : A)
| Raise (e : exn).
Arguments Ok {A} a.
Arguments Raise {A} e.

(** State and exceptions: a raised exception keeps the world as it was
    when it was raised. *)
Definition M (A : Type) : Type := World -> result A * World.

Definition ret {A : Type} (a : A) : M A := fun w => (Ok a, w).

Definition raise {A : Type} (e : exn) : M A := fun w => (Raise e, w).

Definition bind {A B : Type} (m : M A) (k : A -> M B) : M B :=
  fun w =>
    match m w with
    | (Ok a, w') => k a w'
    | (Raise e, w') => (Raise e, w')
    end.

Notation "x <- m ;; k" := (bind m (fun x => k))
  (at level 61, m at next level, right associativity).

Fixpoint for_each {A B : Type} (f : A -> M B) (l : list A) : M (list B) :=
  match l with
  | [] => ret []
  | x :: l' =>
      y <- f x ;;
      ys <- for_each f l' ;;
      ret (y :: ys)
  end.

Definition random_random : M float :=
  fun w =>
    (Ok (random_values w (random_pos w)),
     {| random_values := random_values w;
        random_pos := S (random_pos w);
        uuid_values := uuid_values w;
        uuid_pos := uuid_pos w;
        now_values := now_values w;
        now_pos := now_pos w;
        traffic_predictions := traffic_predictions w;
        generator_calls := generator_calls w |}).

Definition uuid4_str : M string :=
  fun w =>
    (Ok (uuid_values w (uuid_pos w)),
     {| random_values := random_values w;
        random_pos := random_pos w;
        uuid_values := uuid_values w;
        uuid_pos := S (uuid_pos w);
        now_values := now_values w;
        now_pos := now_pos w;
        traffic_predictions := traffic_predictions w;
        generator_calls := generator_calls w |}).

Definition now_isoformat : M string :=
  fun w =>
    (Ok (now_values w (now_pos w)),
     {| random_values := random_values w;
        random_pos := random_pos w;
        uuid_values := uuid_values w;
        uuid_pos := uuid_pos w;
        now_values := now_values w;
        now_pos := S (now_pos w);
        traffic_predictions := traffic_predictions w;
        generator_calls := generator_calls w |}).

(** [db.traffic_predictions.insert_one(doc)] *)
Definition insert_one (doc : PredictionDoc) : M unit :=
  fun w =>
    (Ok tt,
     {| random_values := random_values w;
        random_pos := random_pos w;
        uuid_values := uuid_values w;
        uuid_pos := uuid_pos w;
        now_values := now_values w;
        now_pos := now_pos w;
        traffic_predictions := traffic_predictions w ++ [doc];
        generator_calls := generator_calls w |}).

Definition log_call (place day : string) (hour : Z) : M unit :=
  fun w =>
    (Ok tt,
     {| random_values := random_values w;
        random_pos := random_pos w;
        uuid_values := uuid_values w;
        uuid_pos := uuid_pos w;
        now_values := now_values w;
        now_pos := now_pos w;
        traffic_predictions := traffic_predictions w;
        generator_calls := generator_calls w ++ [(place, day, hour)] |}).

(** [predict_traffic_value] as the process runs it: one draw of the random
    generator per call. *)
Definition predict_traffic_value (place day : string) (hour : Z) : M float :=
  _ <- log_call place day hour ;;
  u <- random_random ;;
  ret (traffic_with_draw place day hour u).

(** ** Request and response models (server.py, lines 103-126) *)

Record TrafficPredictionRequest := {
  place : string;
  day : string;
  start_hour : Z;
  end_hour : Z
}.

Record HourlyPrediction := {
  hour : Z;
  traffic_value : float;
  traffic_level : string;
  hp_color : string;
  hp_severity : Z
}.

Record TrafficPredictionResponse := {
  resp_place : string;
  place_name : string;
  latitude : float;
  longitude : float;
  resp_day : string;
  predictions : list HourlyPrediction;
  peak_hour : Z;
  peak_traffic : float;
  average_traffic : float;
  insight : string
}.

(** The constraints [Field(ge=0, le=23)] of the two hour fields, checked
    when the request body is turned into a [TrafficPredictionRequest],
    before the handler is called. *)
Definition validate_request (body : TrafficPredictionRequest)
  : M TrafficPredictionRequest :=
  if negb ((0 <=? start_hour body) && (start_hour body <=? 23)) then
    raise (RequestValidationError "start_hour")
  else if negb ((0 <=? end_hour body) && (end_hour body <=? 23)) then
    raise (RequestValidationError "end_hour")
  else ret body.

(** ** The handlers (server.py, lines 148-229) *)

#[warnings="-register-all"]
Inductive py_value :=
| PyStr (s : string)
| PyList (items : list py_value)
| PyDict (fields : list (string * py_value)).

Definition get_days : py_value :=
  PyDict [("days"%string, PyList (map PyStr DAYS_OF_WEEK))].

(** Lines 197-203. *)
Definition build_insight (peak_prediction : HourlyPrediction) : string :=
  if hp_severity peak_prediction =? 3 then
    "Peak congestion expected at " ++ str_of_Z (hour peak_prediction)
    ++ ":00. Consider alternative routes or delay travel by 1-2 hours."
  else if hp_severity peak_prediction =? 2 then
    "Moderate traffic expected. " ++ str_of_Z (hour peak_prediction)
    ++ ":00 shows highest activity. Plan buffer time."
  else
    "Traffic conditions are favorable. Smooth commute expected throughout the selected time range.".

(** Line 159. *)
Definition normalize_place (s : string) : string := replace_space (lower s).

(** Lines 182-191: the body of the loop for one hour. *)
Definition predict_hour (place day : string) (h : Z) : M HourlyPrediction :=
  traffic_value <- predict_traffic_value place day h ;;
  let level_info := get_traffic_level traffic_value in
  ret {| hour := h;
         traffic_value := traffic_value;
         traffic_level := level level_info;
         hp_color := color level_info;
         hp_severity := severity level_info |}.

Definition predict_traffic_range (request : TrafficPredictionRequest)
  : M TrafficPredictionResponse :=
  let place := normalize_place (place request) in
  if negb (dict_mem place TRAFFIC_LOCATIONS) then
    raise (HTTPException 400
             ("Invalid location. Supported locations: "
              ++ repr_list (dict_keys TRAFFIC_LOCATIONS)))
  else if negb (list_mem (day request) DAYS_OF_WEEK) then
    raise (HTTPException 400
             ("Invalid day. Supported days: " ++ repr_list DAYS_OF_WEEK))
  else if end_hour request <? start_hour request then
    raise (HTTPException 400
             "End hour must be greater than or equal to start hour")
  else
    match dict_lookup TRAFFIC_LOCATIONS place with
    | None => raise (KeyError place)
    | Some location =>
        predictions <-
          for_each (predict_hour place (day request))
                   (py_range (start_hour request) (end_hour request + 1)) ;;
        match py_max traffic_value predictions with
        | None => raise (ValueError "max() arg is an empty sequence")
        | Some peak_prediction =>
            let average_traffic :=
              (py_sum (map traffic_value predictions)
               / F64.of_Z (Z.of_nat (List.length predictions)))%f64 in
            let insight := build_insight peak_prediction in
            id <- uuid4_str ;;
            timestamp <- now_isoformat ;;
            _ <- insert_one
                   {| doc_id := id;
                      doc_place := place;
                      doc_day := day request;
                      doc_start_hour := start_hour request;
                      doc_end_hour := end_hour request;
                      doc_peak_hour := hour peak_prediction;
                      doc_peak_traffic := traffic_value peak_prediction;
                      doc_timestamp := timestamp |} ;;
            ret {| resp_place := place;
                   place_name := loc_name location;
                   latitude := loc_latitude location;
                   longitude := loc_longitude location;
                   resp_day := day request;
                   predictions := predictions;
                   peak_hour := hour peak_prediction;
                   peak_traffic := traffic_value peak_prediction;
                   average_traffic := F64.round2 average_traffic;
                   insight := insight |}
        end
    end.

(** [POST /predict-traffic]: the framework builds the request model from the
    body, then calls the handler. *)
Definition post_predict_traffic (body : TrafficPredictionRequest)
  : M TrafficPredictionResponse :=
  request <- validate_request body ;;
  predict_traffic_range request.

(** ** What one run of the loop computes *)

(** The prediction built for hour [h] from the draw [u]. *)
Definition hourly (place day : string) (h : Z) (u : float)
  : HourlyPrediction :=
  let v := traffic_with_draw place day h u in
  {| hour := h;
     traffic_value := v;
     traffic_level := level (get_traffic_level v);
     hp_color := color (get_traffic_level v);
     hp_severity := severity (get_traffic_level v) |}.

(** The predictions for the hours [l], the first one using draw number
    [pos] of [draws]. *)
Fixpoint run_hours (place day : string) (l : list Z) (draws : nat -> float)
  (pos : nat) : list HourlyPrediction :=
  match l with
  | [] => []
  | h :: l' => hourly place day h (draws pos)
               :: run_hours place day l' draws (S pos)
  end.

(** The world after the generator has been called for the hours [l]. *)
Definition after_hours (place day : string) (l : list Z) (w : World)
  : World :=
  {| random_values := random_values w;
     random_pos := List.length l + random_pos w;
     uuid_values := uuid_values w;
     uuid_pos := uuid_pos w;
     now_values := now_values w;
     now_pos := now_pos w;
     traffic_predictions := traffic_predictions w;
     generator_calls :=
       generator_calls w ++ map (fun h => (place, day, h)) l |}.

(** The hours of a request and the document its success stores. *)
Definition hours_of (request : TrafficPredictionRequest) : list Z :=
  py_range (start_hour request) (end_hour request + 1).

Definition audit_doc (request : TrafficPredictionRequest) (w : World)
  (peak : HourlyPrediction) : PredictionDoc :=
  {| doc_id := uuid_values w (uuid_pos w);
     doc_place := normalize_place (place request);
     doc_day := day request;
     doc_start_hour := start_hour request;
     doc_end_hour := end_hour request;
     doc_peak_hour := hour peak;
     doc_peak_traffic := traffic_value peak;
     doc_timestamp := now_values w (now_pos w) |}.

Definition after_success (request : TrafficPredictionRequest) (w : World)
  (peak : HourlyPrediction) : World :=
  {| random_values := random_values w;
     random_pos := List.length (hours_of request) + random_pos w;
     uuid_values := uuid_values w;
     uuid_pos := S (uuid_pos w);
     now_values := now_values w;
     now_pos := S (now_pos w);
     traffic_predictions :=
       traffic_predictions w ++ [audit_doc request w peak];
     generator_calls :=
       generator_calls w
       ++ map (fun h => (normalize_place (place request), day request, h))
              (hours_of request) |}.

Definition success_response (request : TrafficPredictionRequest)
  (location : Location) (preds : list HourlyPrediction)
  (peak : HourlyPrediction) : TrafficPredictionResponse :=
  {| resp_place := normalize_place (place request);
     place_name := loc_name location;
     latitude := loc_latitude location;
     longitude := loc_longitude location;
     resp_day := day request;
     predictions := preds;
     peak_hour := hour peak;
     peak_traffic := traffic_value peak;
     average_traffic :=
       F64.round2 (py_sum (map traffic_value preds)
                   / F64.of_Z (Z.of_nat (List.length preds)))%f64;
     insight := build_insight peak |}.

(** The three conditions the handler checks, as propositions. *)
Definition known_place (s : string) : Prop :=
  In (normalize_place s) (dict_keys TRAFFIC_LOCATIONS).

Definition known_day (s : string) : Prop := In s DAYS_OF_WEEK.

(** ** The locations endpoint (server.py, lines 128-146) *)



(** ** The status endpoints (server.py, lines 94-101 and 231-246) *)

(** A [datetime] is represented by the string its [isoformat()] returns:
    the clock of the world yields its readings in this form. *)
Definition datetime : Type := string.
Definition isoformat (t : datetime) : string := t.

Record StatusCheck := {
  sc_id : string;
  sc_client_name : string;
  sc_timestamp : datetime
}.

Record StatusCheckCreate := {
  scc_client_name : string
}.

(** A document of the [status_checks] collection, as [POST /status]
    inserts it: the dump of a [StatusCheck] with its timestamp as a
    string. *)
Record StatusDoc := {
  sd_id : string;
  sd_client_name : string;
  sd_timestamp : string
}.

(** The process state with the second collection, oldest document first. *)
Record Backend := {
  world : World;
  status_checks : list StatusDoc
}.

(** [POST /status]: the model takes its id from [uuid.uuid4] and its
    timestamp from the clock, in this order; the dump is inserted with the
    timestamp in ISO format and the model is returned. *)
Definition create_status_check (input : StatusCheckCreate) (b : Backend)
  : result StatusCheck * Backend :=
  match uuid4_str (world b) with
  | (Raise e, w1) => (Raise e, {| world := w1;
                                  status_checks := status_checks b |})
  | (Ok id, w1) =>
      match now_isoformat w1 with
      | (Raise e, w2) => (Raise e, {| world := w2;
                                      status_checks := status_checks b |})
      | (Ok now, w2) =>
          let status_obj :=
            {| sc_id := id;
               sc_client_name := scc_client_name input;
               sc_timestamp := now |} in
          let doc :=
            {| sd_id := sc_id status_obj;
               sd_client_name := sc_client_name status_obj;
               sd_timestamp := isoformat (sc_timestamp status_obj) |} in
          (Ok status_obj,
           {| world := w2; status_checks := status_checks b ++ [doc] |})
      end
  end.

Section StatusListing.

(** [datetime.fromisoformat].  The parser belongs to the standard library,
    not to the repository: it is a parameter of the listing, which gives
    for a string either the [datetime] it denotes or the exception that
    the library raises on it. *)
Variable fromisoformat : string -> result datetime.

(** Lines 243-245: the timestamps are read in the order of the documents
    (each is a string), and the first exception ends the loop. *)
Fixpoint parse_timestamps (docs : list StatusDoc)
  : result (list StatusCheck) :=
  match docs with
  | [] => Ok []
  | check :: docs' =>
      match fromisoformat (sd_timestamp check) with
      | Raise e => Raise e
      | Ok t =>
          match parse_timestamps docs' with
          | Raise e => Raise e
          | Ok l => Ok ({| sc_id := sd_id check;
                           sc_client_name := sd_client_name check;
                           sc_timestamp := t |} :: l)
          end
      end
  end.

(** [GET /status]: at most 1000 documents, each with its timestamp read
    by [fromisoformat]; an exception of the parser is not caught. *)
Definition get_status_checks (b : Backend)
  : result (list StatusCheck) * Backend :=
  (parse_timestamps (firstn 1000 (status_checks b)), b).

End StatusListing.

(** * Vocabulary of the properties *)

(** ** The details of the three client errors *)

Definition invalid_location_detail : string :=
  "Invalid location. Supported locations: ['silk_board', 'kr_puram', 'whitefield', 'hebbal']".

Definition invalid_day_detail : string :=
  "Invalid day. Supported days: ['Monday', 'Tuesday', 'Wednesday', 'Thursday', 'Friday', 'Saturday', 'Sunday']".

Definition invalid_range_detail : string :=
  "End hour must be greater than or equal to start hour".

(** The hours that the request model accepts. *)
Definition valid_hours (body : TrafficPredictionRequest) : Prop :=
  0 <= start_hour body <= 23 /\ 0 <= end_hour body <= 23.

(** ** Sample data *)

(** A world whose draws are all [0.0], and two requests. *)
Definition sample_world : World :=
  {| random_values := fun _ => S754_zero false;
     random_pos := 0;
     uuid_values := fun _ => "00000000-0000-4000-8000-000000000000"%string;
     uuid_pos := 0;
     now_values := fun _ => "2024-01-01T00:00:00+00:00"%string;
     now_pos := 0;
     traffic_predictions := [];
     generator_calls := [] |}.

Definition sample_request : TrafficPredictionRequest :=
  {| place := "Silk Board"; day := "Monday";
     start_hour := 8; end_hour := 11 |}.

Definition invalid_location_request : TrafficPredictionRequest :=
  {| place := "invalid_location"; day := "Monday";
     start_hour := 8; end_hour := 11 |}.

(** The response to [sample_request] in [sample_world]. *)
Definition sample_response : TrafficPredictionResponse :=
  Eval vm_compute in
  match fst (predict_traffic_range sample_request sample_world) with
  | Ok resp => resp
  | Raise _ =>
      success_response sample_request
        {| loc_name := ""; loc_latitude := S754_nan;
           loc_longitude := S754_nan |} []
        (hourly "" "" 0 S754_nan)
  end.

(** ** The order of binary64 numbers *)

(** The order of the numbers that are not NaN is the lexicographic order
    of a class (infinities, signs, zero), an exponent and a mantissa. *)
Definition ord (x : float) : Z * Z * Z :=
  match x with
  | S754_zero _ => (0, 0, 0)
  | S754_infinity false => (2, 0, 0)
  | S754_infinity true => (-2, 0, 0)
  | S754_nan => (0, 0, 0)
  | S754_finite false m e => (1, e, Zpos m)
  | S754_finite true m e => (-1, - e, Zneg m)
  end.

(** The strict and the large lexicographic order of triples. *)
Definition lex_lt (a b : Z * Z * Z) : Prop :=
  let '(a1, a2, a3) := a in
  let '(b1, b2, b3) := b in
  a1 < b1 \/ (a1 = b1 /\ (a2 < b2 \/ (a2 = b2 /\ a3 < b3))).

Definition lex_le (a b : Z * Z * Z) : Prop :=
  let '(a1, a2, a3) := a in
  let '(b1, b2, b3) := b in
  a1 < b1 \/ (a1 = b1 /\ (a2 < b2 \/ (a2 = b2 /\ a3 <= b3))).

(** ** The three results of the classifier *)

Definition normal_info : LevelInfo :=
  {| level := "Normal"; color := "#10B981"; severity := 1 |}.
Definition moderate_info : LevelInfo :=
  {| level := "Moderate"; color := "#F59E0B"; severity := 2 |}.
Definition high_info : LevelInfo :=
  {| level := "High"; color := "#EF4444"; severity := 3 |}.

(** ** Normalization, character by character *)

Definition normalize_char (c : ascii) : ascii :=
  if Ascii.eqb c " " then "_"%char else lower_ascii c.

(** A string of ASCII characters only. *)
Fixpoint is_ascii (s : string) : bool :=
  match s with
  | EmptyString => true
  | String c s' => (N_of_ascii c <? 0x80)%N && is_ascii s'
  end.

(** [U+212A] KELVIN SIGN in UTF-8: a character outside ASCII whose
    lowercase is the ASCII letter [k]; and [U+0130], whose lowercase has
    two code points. *)
Definition kelvin_sign : string := string_of_bytes [0xe2; 0x84; 0xaa]%N.

Definition capital_i_with_dot : string := string_of_bytes [0xc4; 0xb0]%N.

(** A request whose hours the request model rejects, and a parser that
    knows the one reading of the sample clock. *)
Definition late_request : TrafficPredictionRequest :=
  {| place := "silk_board"; day := "Monday";
     start_hour := 0; end_hour := 24 |}.

Definition sample_fromisoformat (s : string) : result datetime :=
  if String.eqb s "2024-01-01T00:00:00+00:00" then Ok s
  else Raise (ValueError "Invalid isoformat string").

(** ** The generator as the specification words it *)

(** The generator as the specification words it: the four tables, then
    [round(raw * (0.9 + 0.2 * u), 2)]. *)
Definition spec_base (place : string) : Z :=
  if String.eqb place "silk_board" then 2500
  else if String.eqb place "kr_puram" then 2200
  else if String.eqb place "whitefield" then 1800
  else if String.eqb place "hebbal" then 2000
  else 1500.

Definition spec_weekend_multiplier (day : string) : float :=
  if String.eqb day "Saturday" || String.eqb day "Sunday" then f0_6
  else f1_0.

(** The hour bands, as the specification lists them. *)
Definition hour_among (hour : Z) (hours : list Z) : bool :=
  existsb (Z.eqb hour) hours.

Definition spec_hour_multiplier (hour : Z) : float :=
  if hour_among hour [8; 9; 10] then f1_8
  else if hour_among hour [17; 18; 19; 20] then f2_0
  else if hour_among hour [12; 13; 14] then f1_3
  else if hour_among hour [0; 1; 2; 3; 4; 5] then f0_3
  else if hour_among hour [22; 23] then f0_5
  else f1_0.

Definition spec_day_multiplier (day : string) : float :=
  if String.eqb day "Friday" then f1_15
  else if String.eqb day "Monday" then f1_1
  else f1_0.

Definition spec_raw (place day : string) (hour : Z) : float :=
  (F64.of_Z (spec_base place) * spec_weekend_multiplier day
   * spec_hour_multiplier hour * spec_day_multiplier day)%f64.

Definition spec_generate (place day : string) (hour : Z) (u : float)
  : float :=
  F64.round2 (spec_raw place day hour * (f0_9 + f0_2 * u))%f64.

(** ** The values the lookups of the generator can take *)

(** The values the three lookups of the generator can take. *)
Definition bases : list Z := [2500; 2200; 1800; 2000; 1500].
Definition hour_multipliers : list float :=
  [f1_8; f2_0; f1_3; f0_3; f0_5; f1_0].
Definition day_factors : list float := [f1_15; f1_1; f1_0].

(** Every weekend product is strictly below every weekday product with
    the same base and hour multiplier. *)
Definition weekend_check : bool :=
  forallb (fun b =>
    forallb (fun hm =>
      forallb (fun df =>
        (F64.of_Z b * f0_6 * hm * f1_0 <? F64.of_Z b * f1_0 * hm * df)%f64)
        day_factors) hour_multipliers) bases.

(** ** Signs of binary64 numbers *)

(** Not NaN and not below zero: a zero, a positive number or [+inf]. *)
Definition nonneg (x : float) : bool :=
  match x with
  | S754_zero _ => true
  | S754_infinity false => true
  | S754_finite false _ _ => true
  | _ => false
  end.

(** A positive number or [+inf], or the zero [+0.0]. *)
Definition rounded_nonneg (x : float) : Prop :=
  x = S754_zero false \/ x = S754_infinity false
  \/ exists m e, x = S754_finite false m e.

(** ** Rounding to nearest, on integers *)

(** The number of binary digits of a mantissa. *)
Definition digits (m : Z) : Z := Zdigits2 m.

(** The exponent of the last place of a binary64 number of magnitude [k]:
    53 bits of precision, and no exponent below that of the subnormals. *)
Definition fexp64 (k : Z) : Z := Z.max (k - 53) (-1074).

(** [2^52] and [2^53]. *)
Definition two52 : Z := 4503599627370496.
Definition two53 : Z := 9007199254740992.

(** The number of low bits of [m] that rounding [m * 2^e] drops. *)
Definition shift_of (m e : Z) : Z := fexp64 (digits m + e) - e.

(** A mantissa that reaches [2^53] moves to the next exponent. *)
Definition carry (M G : Z) : Z * Z :=
  if M =? two53 then (two52, G + 1) else (M, G).

(** Mantissa and exponent of [m * 2^e] rounded to nearest, ties to even. *)
Definition rnd_pair (m e : Z) : Z * Z :=
  carry (F64.round_half_even m (2 ^ shift_of m e)) (e + shift_of m e).

(** The binary64 number of a rounded mantissa and exponent: a zero, a
    finite number, or an infinity when the exponent overflows. *)
Definition pack (s : bool) (p : Z * Z) : float :=
  match fst p with
  | 0 => S754_zero s
  | Zpos q => if snd p <=? 971 then S754_finite s q (snd p)
              else S754_infinity s
  | Zneg _ => S754_nan
  end.

(** The record [mrs] is the fraction [N / D]: its mantissa is the quotient,
    and its round and sticky bits place the remainder below, at or above
    the half of [D]. *)
Definition shr_frac (N D : Z) (mrs : shr_record) : Prop :=
  shr_m mrs = N / D
  /\ match shr_r mrs, shr_s mrs with
     | false, false => N mod D = 0
     | false, true => 0 < 2 * (N mod D) < D
     | true, false => 2 * (N mod D) = D
     | true, true => D < 2 * (N mod D)
     end.

(** ** Canonical mantissas and the order of rounded pairs *)

(** A positive binary64 mantissa and exponent in canonical form. *)
Definition canon (q E : Z) : Prop :=
  0 < q < two53 /\ -1074 <= E /\ (two52 <= q \/ E = -1074).

(** The order of rounded pairs: a zero mantissa is below everything. *)
Definition pair_le (p1 p2 : Z * Z) : Prop :=
  fst p1 = 0
  \/ (0 < fst p1 /\ 0 < fst p2
      /\ (snd p1 < snd p2 \/ (snd p1 = snd p2 /\ fst p1 <= fst p2))).

(** [m1 * 2^e1 <= m2 * 2^e2], on integers. *)
Definition dle (m1 e1 m2 e2 : Z) : Prop :=
  m1 * 2 ^ (e1 - Z.min e1 e2) <= m2 * 2 ^ (e2 - Z.min e1 e2).

(** ** Positive binary64 numbers *)

(** A positive finite number in canonical form, as every operation
    returns it and as [random.random()] produces it. *)
Definition canonical_pos (x : float) : Prop :=
  exists m e, x = S754_finite false m e /\ canon (Zpos m) e /\ e <= 971.

(** A positive normal number (53 significant bits). *)
Definition normal_pos (x : float) : Prop :=
  exists m e, x = S754_finite false m e /\ two52 <= Zpos m.

(** ** The draws of the random generator *)

(** What [random.random()] returns: a binary64 number in [[0.0, 1.0)]. *)
Definition unit_draw (u : float) : Prop :=
  valid_binary F64.prec F64.emax u = true
  /\ (F64.of_Z 0 <=? u)%f64 = true
  /\ (u <? F64.of_Z 1)%f64 = true.

(** A positive normal number in canonical form, decided. *)
Definition is_normal_pos (x : float) : bool :=
  match x with
  | S754_finite false m e =>
      (two52 <=? Zpos m) && (Zpos m <? two53) && (-1074 <=? e) && (e <=? 971)
  | _ => false
  end.

Definition weekend_factors : list float := [f0_6; f1_0].

(** Every value the product before the variation can take. *)
Definition raw_values : list float :=
  flat_map (fun b =>
    flat_map (fun wf =>
      flat_map (fun hm =>
        map (fun df => (F64.of_Z b * wf * hm * df)%f64) day_factors)
        hour_multipliers) weekend_factors) bases.

(** The two ends of the envelope are positive normal numbers. *)
Definition envelope_check : bool :=
  forallb (fun r => is_normal_pos (r * f0_9)%f64
                    && is_normal_pos (r * f1_1)%f64) raw_values.

(** ** A draw and a world for the envelope *)

(** The draw [2^-20], and a world whose draws are all [u]. *)
Definition draw_2_pow_minus_20 : float :=
  S754_finite false 4503599627370496 (-72).

Definition world_with_draw (u : float) : World :=
  {| random_values := fun _ => u;
     random_pos := 0;
     uuid_values := uuid_values sample_world;
     uuid_pos := 0;
     now_values := now_values sample_world;
     now_pos := 0;
     traffic_predictions := [];
     generator_calls := [] |}.

(** ** Checks over the values of the generator *)

(** The bases of the four places of the table. *)
Definition known_bases : list Z := [2500; 2200; 1800; 2000].

Definition known_raw_values : list float :=
  flat_map (fun b =>
    flat_map (fun wf =>
      flat_map (fun hm =>
        map (fun df => (F64.of_Z b * wf * hm * df)%f64) day_factors)
        hour_multipliers) weekend_factors) known_bases.

(** The rounded envelope stays within [[lo, hi]] for every product of
    [raws]. *)
Definition range_check (lo hi : Z) (raws : list float) : bool :=
  forallb (fun r => (F64.of_Z lo <=? F64.round2 (f0_9 * r))%f64
                    && (F64.round2 (f1_1 * r) <=? F64.of_Z hi)%f64) raws.

(** A Monday is above an ordinary day and below a Friday. *)
Definition day_check : bool :=
  forallb (fun b =>
    forallb (fun hm =>
      (F64.of_Z b * f1_0 * hm * f1_0 <? F64.of_Z b * f1_0 * hm * f1_1)%f64
      && (F64.of_Z b * f1_0 * hm * f1_1
          <? F64.of_Z b * f1_0 * hm * f1_15)%f64)
      hour_multipliers) bases.

(** The hour bands, from the lowest multiplier to the highest. *)
Definition hour_bands : list float := [f0_3; f0_5; f1_0; f1_3; f1_8; f2_0].

(** Each number of the list is strictly below the next one. *)
Fixpoint chain (l : list float) : bool :=
  match l with
  | x :: (y :: _) as l' => (x <? y)%f64 && chain l'
  | _ => true
  end.

Definition hour_check : bool :=
  forallb (fun b =>
    forallb (fun wf =>
      forallb (fun df =>
        chain (map (fun hm => (F64.of_Z b * wf * hm * df)%f64) hour_bands))
        day_factors) weekend_factors) bases.

(** The bases from the lowest to the highest, the default first. *)
Definition place_check : bool :=
  forallb (fun wf =>
    forallb (fun hm =>
      forallb (fun df =>
        chain (map (fun b => (F64.of_Z b * wf * hm * df)%f64)
                 [1500; 1800; 2000; 2200; 2500]))
        day_factors) hour_multipliers) weekend_factors.

(** At night every rounded upper end is below 1500. *)
Definition night_check : bool :=
  forallb (fun b =>
    forallb (fun wf =>
      forallb (fun df =>
        (F64.round2 (f1_1 * (F64.of_Z b * wf * f0_3 * df))
         <? F64.of_Z 1500)%f64) day_factors) weekend_factors) bases.

(** In the evening rush of a working day every rounded lower end of a
    listed place is at least 2500. *)
Definition evening_check : bool :=
  forallb (fun b =>
    forallb (fun df =>
      (F64.of_Z 2500
       <=? F64.round2 (f0_9 * (F64.of_Z b * f1_0 * f2_0 * df)))%f64)
      day_factors) known_bases.

(** ** Checks over the average *)

(** The integer of hundredths of a number, zero for the others. *)
Definition hundredths_of (x : float) : Z :=
  match x with
  | S754_finite _ m e => F64.hundredths m e
  | _ => 0
  end.

(** The upper ends of the envelope are below [2^40] hundredths. *)
Definition decimal_check : bool :=
  forallb (fun r => hundredths_of (r * f1_1)%f64 <? 2 ^ 40) raw_values.

(** A positive normal number whose exponent is far from both ends of the
    exponent range. *)
Definition moderate (x : float) : bool :=
  match x with
  | S754_finite false m e =>
      (two52 <=? Zpos m) && (Zpos m <? two53) && (-500 <=? e) && (e <=? 500)
  | _ => false
  end.

(** The partial sums [acc], [acc + c], [acc + c + c], ... with [k]
    additions are moderate numbers. *)
Fixpoint sums_ok (acc c : float) (k : nat) : bool :=
  moderate acc
  && match k with
     | O => true
     | S k' => sums_ok (acc + c)%f64 c k'
     end.

(** For every number of hours from 1 to 24, the sum of as many copies of
    [c] is built from moderate numbers, the number of hours is a moderate
    number, and the rounded average of the copies is [c], with less than
    [2^40] hundredths. *)
Definition average_check (c : float) : bool :=
  forallb (fun k =>
    let n := F64.of_Z (Z.of_nat (S k)) in
    let total := fold_left F64.add (repeat c k) c in
    sums_ok c c k && moderate n
    && (F64.round2 (total / n) <=? c)%f64
    && (c <=? F64.round2 (total / n))%f64
    && (hundredths_of (total / n)%f64 <? 2 ^ 40))
    (seq 0 24).

(** * Properties *)

(** ** Containers *)

Lemma list_mem_In (x : string) (l : list string) :
  list_mem x l = true <-> In x l.
Proof.
  unfold list_mem. rewrite existsb_exists. split.
  - intros [y [Hy Heq]]. apply String.eqb_eq in Heq. now subst.
  - intros H. exists x. split; [assumption | apply String.eqb_refl].
Qed.

Lemma list_mem_not_In (x : string) (l : list string) :
  list_mem x l = false <-> ~ In x l.
Proof.
  rewrite <- list_mem_In. destruct (list_mem x l); intuition congruence.
Qed.

Lemma dict_lookup_In {V : Type} (d : dict V) (k : string) :
  dict_lookup d k <> None <-> In k (dict_keys d).
Proof.
  induction d as [| [k' v] d IH]; simpl.
  - intuition congruence.
  - destruct (String.eqb k k') eqn:E.
    + apply String.eqb_eq in E. subst. intuition congruence.
    + apply String.eqb_neq in E. rewrite IH. intuition congruence.
Qed.

Lemma dict_mem_In {V : Type} (d : dict V) (k : string) :
  dict_mem k d = true <-> In k (dict_keys d).
Proof.
  rewrite <- dict_lookup_In. unfold dict_mem.
  destruct (dict_lookup d k); intuition congruence.
Qed.

Lemma dict_mem_not_In {V : Type} (d : dict V) (k : string) :
  dict_mem k d = false <-> ~ In k (dict_keys d).
Proof.
  rewrite <- dict_mem_In. destruct (dict_mem k d); intuition congruence.
Qed.

Lemma py_range_length (a b : Z) :
  List.length (py_range a b) = Z.to_nat (b - a).
Proof. unfold py_range. now rewrite length_map, length_seq. Qed.


Lemma py_range_In (a b h : Z) : In h (py_range a b) <-> a <= h < b.
Proof.
  unfold py_range. rewrite in_map_iff. split.
  - intros [i [<- Hi]]. apply in_seq in Hi. lia.
  - intros H. exists (Z.to_nat (h - a)). split; [lia |].
    apply in_seq. lia.
Qed.

(** ** The loop of the handler *)

Lemma for_each_predict_hour (place day : string) (l : list Z) (w : World) :
  for_each (predict_hour place day) l w
  = (Ok (run_hours place day l (random_values w) (random_pos w)),
     after_hours place day l w).
Proof.
  revert w. induction l as [| h l IH]; intros w.
  - destruct w. unfold after_hours. simpl. now rewrite app_nil_r.
  - cbn [for_each]. unfold bind at 1. unfold predict_hour at 1.
    unfold predict_traffic_value, bind, log_call, random_random, ret.
    rewrite IH. cbn. unfold after_hours, hourly. cbn.
    rewrite <- app_assoc, Nat.add_succ_r. reflexivity.
Qed.

Lemma run_hours_length place day l draws pos :
  List.length (run_hours place day l draws pos) = List.length l.
Proof.
  revert pos. induction l; intros pos; simpl; [reflexivity | now rewrite IHl].
Qed.

Lemma run_hours_map_hour place day l draws pos :
  map hour (run_hours place day l draws pos) = l.
Proof.
  revert pos. induction l; intros pos; simpl; [reflexivity | now rewrite IHl].
Qed.

Lemma run_hours_In place day l draws pos p :
  In p (run_hours place day l draws pos) ->
  exists h u, In h l /\ p = hourly place day h u.
Proof.
  revert pos. induction l as [| h l IH]; intros pos; simpl; [tauto |].
  intros [<- | H].
  - exists h, (draws pos). auto.
  - destruct (IH _ H) as (h' & u & Hin & ->). exists h', u. auto.
Qed.

Lemma max_loop_In {A : Type} (key : A -> float) (l : list A) (best : A) :
  max_loop key best l = best \/ In (max_loop key best l) l.
Proof.
  revert best. induction l as [| x l IH]; intros best; simpl; [now left |].
  destruct (IH (if (key x >? key best)%f64 then x else best)) as [H | H].
  - rewrite H. destruct (key x >? key best)%f64; auto.
  - auto.
Qed.

Lemma py_max_In {A : Type} (key : A -> float) (l : list A) (p : A) :
  py_max key l = Some p -> In p l.
Proof.
  destruct l as [| x l]; simpl; [discriminate |].
  intros [= <-]. destruct (max_loop_In key l x) as [-> | H]; auto.
Qed.

(** ** The handler, case by case *)

Lemma hours_of_length (request : TrafficPredictionRequest) :
  start_hour request <= end_hour request ->
  List.length (hours_of request)
  = S (Z.to_nat (end_hour request - start_hour request)).
Proof. intros H. unfold hours_of. rewrite py_range_length. lia. Qed.

Lemma predict_traffic_range_bad_place request w :
  ~ known_place (place request) ->
  predict_traffic_range request w
  = (Raise (HTTPException 400 invalid_location_detail), w).
Proof.
  intros H. apply dict_mem_not_In in H. unfold predict_traffic_range.
  now rewrite H.
Qed.

Lemma predict_traffic_range_bad_day request w :
  known_place (place request) -> ~ known_day (day request) ->
  predict_traffic_range request w
  = (Raise (HTTPException 400 invalid_day_detail), w).
Proof.
  intros Hp Hd. apply dict_mem_In in Hp. apply list_mem_not_In in Hd.
  unfold predict_traffic_range. now rewrite Hp, Hd.
Qed.

Lemma predict_traffic_range_bad_range request w :
  known_place (place request) -> known_day (day request) ->
  end_hour request < start_hour request ->
  predict_traffic_range request w
  = (Raise (HTTPException 400 invalid_range_detail), w).
Proof.
  intros Hp Hd Hr. apply dict_mem_In in Hp. apply list_mem_In in Hd.
  apply Z.ltb_lt in Hr. unfold predict_traffic_range.
  now rewrite Hp, Hd, Hr.
Qed.

Lemma predict_traffic_range_valid request w :
  known_place (place request) -> known_day (day request) ->
  start_hour request <= end_hour request ->
  exists location peak,
    dict_lookup TRAFFIC_LOCATIONS (normalize_place (place request))
    = Some location
    /\ py_max traffic_value
         (run_hours (normalize_place (place request)) (day request)
            (hours_of request) (random_values w) (random_pos w))
       = Some peak
    /\ predict_traffic_range request w
       = (Ok (success_response request location
                (run_hours (normalize_place (place request)) (day request)
                   (hours_of request) (random_values w) (random_pos w))
                peak),
          after_success request w peak).
Proof.
  intros Hp Hd Hr.
  assert (Hl := Hp). apply dict_lookup_In in Hl.
  destruct (dict_lookup TRAFFIC_LOCATIONS (normalize_place (place request)))
    as [location |] eqn:El; [clear Hl | congruence].
  apply dict_mem_In in Hp. apply list_mem_In in Hd.
  assert (Hr' : (end_hour request <? start_hour request) = false)
    by (apply Z.ltb_ge; assumption).
  pose proof (hours_of_length request Hr) as Hlen.
  pose proof (run_hours_length (normalize_place (place request))
                (day request) (hours_of request) (random_values w)
                (random_pos w)) as Hlen'.
  destruct (run_hours (normalize_place (place request)) (day request)
              (hours_of request) (random_values w) (random_pos w))
    as [| p ps] eqn:Er.
  { simpl in Hlen'. rewrite Hlen in Hlen'. discriminate. }
  exists location, (max_loop traffic_value p ps). split; [reflexivity |].
  split; [reflexivity |].
  unfold predict_traffic_range. rewrite Hp, Hd, Hr', El. cbn [negb].
  unfold bind at 1. fold (hours_of request).
  rewrite for_each_predict_hour, Er. reflexivity.
Qed.

Lemma known_place_dec s : {known_place s} + {~ known_place s}.
Proof. apply in_dec, string_dec. Qed.

Lemma known_day_dec s : {known_day s} + {~ known_day s}.
Proof. apply in_dec, string_dec. Qed.

(** ** C8: the days endpoint *)

(** C8, as stated: [GET /days] returns the seven weekday names as a list.
    It does not: the handler returns a dict, not a list. *)
Lemma get_days_is_not_a_list :
  get_days
  <> PyList (map PyStr ["Monday"; "Tuesday"; "Wednesday"; "Thursday";
                        "Friday"; "Saturday"; "Sunday"]%string).
Proof. unfold get_days. discriminate. Qed.

(** C8, amended: [GET /days] returns a dict with the single key [days],
    whose value is the list of the seven weekday names, Monday first. *)
Theorem get_days_wraps_the_list :
  get_days
  = PyDict [("days"%string,
             PyList [PyStr "Monday"; PyStr "Tuesday"; PyStr "Wednesday";
                     PyStr "Thursday"; PyStr "Friday"; PyStr "Saturday";
                     PyStr "Sunday"])].
Proof. reflexivity. Qed.

(** ** Comparisons of binary64 numbers *)

Ltac compare_cases :=
  match goal with
  | |- context [Pos.compare_cont Eq ?p ?q] =>
      change (Pos.compare_cont Eq p q) with (p ?= q)%positive;
      destruct (Pos.compare_spec p q)
  end.

Lemma SFcompare_ord (x y : float) :
  F64.is_nan x = false -> F64.is_nan y = false ->
  exists c, SFcompare x y = Some c
            /\ (c = Lt <-> lex_lt (ord x) (ord y))
            /\ (c = Gt <-> lex_lt (ord y) (ord x)).
Proof.
  intros Hx Hy.
  destruct x as [[|] | [|] | | [|] mx ex], y as [[|] | [|] | | [|] my ey];
    try discriminate; cbv beta iota delta [SFcompare ord lex_lt];
    try (eexists; split; [reflexivity |];
         split; split; intros; try discriminate; try reflexivity; lia).
  all: destruct (Z.compare_spec ex ey);
    try (eexists; split; [reflexivity |];
         split; split; intros; try discriminate; try reflexivity; lia).
  all: compare_cases;
    (eexists; split; [reflexivity |]; cbn [CompOpp];
     split; split; intros; try discriminate; try reflexivity; lia).
Qed.

Lemma ltb_iff (x y : float) :
  (x <? y)%f64 = true
  <-> F64.is_nan x = false /\ F64.is_nan y = false
      /\ lex_lt (ord x) (ord y).
Proof.
  unfold F64.ltb, SFltb. split.
  - intros H.
    assert (Hx : F64.is_nan x = false) by (destruct x; [easy .. | discriminate | easy]).
    assert (Hy : F64.is_nan y = false)
      by (destruct x, y; try easy; discriminate).
    destruct (SFcompare_ord x y Hx Hy) as (c & Hc & Hlt & _).
    rewrite Hc in H. destruct c; try discriminate. tauto.
  - intros (Hx & Hy & H).
    destruct (SFcompare_ord x y Hx Hy) as (c & Hc & Hlt & _).
    apply Hlt in H. now rewrite Hc, H.
Qed.

Lemma leb_iff (x y : float) :
  (x <=? y)%f64 = true
  <-> F64.is_nan x = false /\ F64.is_nan y = false
      /\ lex_le (ord x) (ord y).
Proof.
  unfold F64.leb, SFleb. split.
  - intros H.
    assert (Hx : F64.is_nan x = false) by (destruct x; [easy .. | discriminate | easy]).
    assert (Hy : F64.is_nan y = false)
      by (destruct x, y; try easy; discriminate).
    destruct (SFcompare_ord x y Hx Hy) as (c & Hc & Hlt & Hgt).
    rewrite Hc in H. repeat split; try assumption.
    assert (N : ~ lex_lt (ord y) (ord x))
      by (intros E; apply Hgt in E; subst c; discriminate).
    clear Hlt Hgt.
    destruct (ord x) as [[a1 a2] a3], (ord y) as [[b1 b2] b3].
    unfold lex_lt, lex_le in *. lia.
  - intros (Hx & Hy & H).
    destruct (SFcompare_ord x y Hx Hy) as (c & Hc & Hlt & Hgt).
    rewrite Hc. destruct c; try reflexivity.
    assert (H' : lex_lt (ord y) (ord x)) by now apply Hgt.
    clear Hlt Hgt.
    destruct (ord x) as [[a1 a2] a3], (ord y) as [[b1 b2] b3].
    unfold lex_lt, lex_le in *. lia.
Qed.

Lemma leb_ltb_false (x y : float) :
  (x <=? y)%f64 = true -> (y <? x)%f64 = false.
Proof.
  intros H. apply leb_iff in H. destruct H as (Hx & Hy & H).
  destruct (y <? x)%f64 eqn:E; [| reflexivity].
  apply ltb_iff in E. destruct E as (_ & _ & E).
  destruct (ord x) as [[a1 a2] a3], (ord y) as [[b1 b2] b3].
  unfold lex_lt, lex_le in *. lia.
Qed.

Lemma ltb_false_leb (x y : float) :
  F64.is_nan x = false -> F64.is_nan y = false ->
  (y <? x)%f64 = false -> (x <=? y)%f64 = true.
Proof.
  intros Hx Hy H. apply leb_iff. repeat split; try assumption.
  assert (H' : ~ lex_lt (ord y) (ord x)).
  { intros E. assert ((y <? x)%f64 = true) by (apply ltb_iff; auto).
    congruence. }
  destruct (ord x) as [[a1 a2] a3], (ord y) as [[b1 b2] b3].
  unfold lex_lt, lex_le in *. lia.
Qed.

Lemma ltb_leb (x y : float) : (x <? y)%f64 = true -> (x <=? y)%f64 = true.
Proof.
  rewrite ltb_iff, leb_iff. intros (Hx & Hy & H). repeat split; trivial.
  destruct (ord x) as [[a1 a2] a3], (ord y) as [[b1 b2] b3].
  unfold lex_lt, lex_le in *. lia.
Qed.

Lemma leb_trans (x y z : float) :
  (x <=? y)%f64 = true -> (y <=? z)%f64 = true -> (x <=? z)%f64 = true.
Proof.
  rewrite !leb_iff. intros (Hx & Hy & H) (_ & Hz & H'). repeat split; trivial.
  destruct (ord x) as [[a1 a2] a3], (ord y) as [[b1 b2] b3],
    (ord z) as [[c1 c2] c3].
  unfold lex_le in *. lia.
Qed.

Lemma leb_ltb_trans (x y z : float) :
  (x <=? y)%f64 = true -> (y <? z)%f64 = true -> (x <? z)%f64 = true.
Proof.
  rewrite leb_iff, !ltb_iff. intros (Hx & Hy & H) (_ & Hz & H').
  repeat split; trivial.
  destruct (ord x) as [[a1 a2] a3], (ord y) as [[b1 b2] b3],
    (ord z) as [[c1 c2] c3].
  unfold lex_le, lex_lt in *. lia.
Qed.

Lemma ltb_leb_trans (x y z : float) :
  (x <? y)%f64 = true -> (y <=? z)%f64 = true -> (x <? z)%f64 = true.
Proof.
  rewrite leb_iff, !ltb_iff. intros (Hx & Hy & H) (_ & Hz & H').
  repeat split; trivial.
  destruct (ord x) as [[a1 a2] a3], (ord y) as [[b1 b2] b3],
    (ord z) as [[c1 c2] c3].
  unfold lex_le, lex_lt in *. lia.
Qed.

(** The constants the classifier compares with. *)
Lemma of_Z_1500 : F64.of_Z 1500 = S754_finite false 6597069766656000 (-42).
Proof. vm_compute. reflexivity. Qed.

Lemma of_Z_2500 : F64.of_Z 2500 = S754_finite false 5497558138880000 (-41).
Proof. vm_compute. reflexivity. Qed.

Lemma leb_1500_2500 : (F64.of_Z 1500 <=? F64.of_Z 2500)%f64 = true.
Proof. vm_compute. reflexivity. Qed.

(** ** C2: the classifier *)

Lemma get_traffic_level_cases (v : float) :
  get_traffic_level v = normal_info
  \/ get_traffic_level v = moderate_info
  \/ get_traffic_level v = high_info.
Proof.
  unfold get_traffic_level.
  destruct (v <? F64.of_Z 1500)%f64; [now left |].
  destruct (v <? F64.of_Z 2500)%f64; auto.
Qed.

(** C2: the classifier is total, and its result is fixed by the two
    thresholds: below 1500 it is Normal (severity 1), from 1500 and below
    2500 it is Moderate (severity 2), from 2500 on it is High (severity 3);
    1499.99 is Normal, 1500.00 and 2499.99 are Moderate, 2500.00 is High. *)
Theorem get_traffic_level_thresholds (v : float) :
  (exists info, get_traffic_level v = info
                /\ In info [normal_info; moderate_info; high_info])
  /\ ((v <? F64.of_Z 1500)%f64 = true -> get_traffic_level v = normal_info)
  /\ ((F64.of_Z 1500 <=? v)%f64 = true -> (v <? F64.of_Z 2500)%f64 = true ->
      get_traffic_level v = moderate_info)
  /\ ((F64.of_Z 2500 <=? v)%f64 = true -> get_traffic_level v = high_info)
  /\ get_traffic_level (F64.of_ratio false 149999 100) = normal_info
  /\ get_traffic_level (F64.of_ratio false 150000 100) = moderate_info
  /\ get_traffic_level (F64.of_ratio false 249999 100) = moderate_info
  /\ get_traffic_level (F64.of_ratio false 250000 100) = high_info.
Proof.
  split; [| split; [| split; [| split; [| split; [| split; [| split]]]]]].
  5-8: vm_compute; reflexivity.
  - exists (get_traffic_level v). split; [reflexivity |].
    destruct (get_traffic_level_cases v) as [-> | [-> | ->]];
      cbn [In]; auto.
  - intros H. unfold get_traffic_level. now rewrite H.
  - intros H1 H2. apply leb_ltb_false in H1.
    unfold get_traffic_level. now rewrite H1, H2.
  - intros H. pose proof (leb_trans _ _ _ leb_1500_2500 H) as H'.
    apply leb_ltb_false in H, H'. unfold get_traffic_level.
    now rewrite H, H'.
Qed.

Lemma get_traffic_level_thresholds_witness :
  get_traffic_level (F64.of_Z 1200) = normal_info
  /\ get_traffic_level (F64.of_Z 2000) = moderate_info
  /\ get_traffic_level (F64.of_Z 4455) = high_info.
Proof.
  split; [| split].
  - destruct (get_traffic_level_thresholds (F64.of_Z 1200))
      as (_ & H & _).
    apply H. vm_compute. reflexivity.
  - destruct (get_traffic_level_thresholds (F64.of_Z 2000))
      as (_ & _ & H & _).
    apply H; vm_compute; reflexivity.
  - destruct (get_traffic_level_thresholds (F64.of_Z 4455))
      as (_ & _ & _ & H & _).
    apply H. vm_compute. reflexivity.
Defined.

(** ** C4: the client errors of the operation *)

Lemma post_predict_traffic_in_range (body : TrafficPredictionRequest)
  (w : World) :
  0 <= start_hour body <= 23 -> 0 <= end_hour body <= 23 ->
  post_predict_traffic body w = predict_traffic_range body w.
Proof.
  intros Hs He. unfold post_predict_traffic, bind, validate_request.
  destruct (Z.leb_spec 0 (start_hour body)); [| lia].
  destruct (Z.leb_spec (start_hour body) 23); [| lia].
  destruct (Z.leb_spec 0 (end_hour body)); [| lia].
  destruct (Z.leb_spec (end_hour body) 23); [| lia].
  reflexivity.
Qed.

Lemma post_predict_traffic_out_of_range (body : TrafficPredictionRequest)
  (w : World) :
  ~ valid_hours body ->
  exists field,
    post_predict_traffic body w = (Raise (RequestValidationError field), w).
Proof.
  intros H. unfold post_predict_traffic, bind, validate_request.
  destruct ((0 <=? start_hour body) && (start_hour body <=? 23)) eqn:Es;
    cbn [negb]; [| eexists; reflexivity].
  destruct ((0 <=? end_hour body) && (end_hour body <=? 23)) eqn:Ee;
    cbn [negb]; [| eexists; reflexivity].
  exfalso. apply H.
  apply andb_prop in Es, Ee. destruct Es as [Es1 Es2], Ee as [Ee1 Ee2].
  apply Z.leb_le in Es1, Es2, Ee1, Ee2. unfold valid_hours. lia.
Qed.

Lemma valid_hours_dec (body : TrafficPredictionRequest) :
  {valid_hours body} + {~ valid_hours body}.
Proof.
  unfold valid_hours.
  destruct (Z_le_dec 0 (start_hour body)), (Z_le_dec (start_hour body) 23),
    (Z_le_dec 0 (end_hour body)), (Z_le_dec (end_hour body) 23);
    solve [left; lia | right; lia].
Qed.

Lemma predict_traffic_range_raises
  (request : TrafficPredictionRequest) (w : World) :
  ((exists e, fst (predict_traffic_range request w) = Raise e)
   <-> (~ known_place (place request) \/ ~ known_day (day request)
        \/ end_hour request < start_hour request))
  /\ (~ known_place (place request) ->
      predict_traffic_range request w
      = (Raise (HTTPException 400 invalid_location_detail), w))
  /\ (known_place (place request) -> ~ known_day (day request) ->
      predict_traffic_range request w
      = (Raise (HTTPException 400 invalid_day_detail), w))
  /\ (known_place (place request) -> known_day (day request) ->
      end_hour request < start_hour request ->
      predict_traffic_range request w
      = (Raise (HTTPException 400 invalid_range_detail), w))
  /\ (forall e, fst (predict_traffic_range request w) = Raise e ->
      (exists detail, e = HTTPException 400 detail)
      /\ snd (predict_traffic_range request w) = w).
Proof.
  split; [| split; [| split; [| split]]].
  - destruct (known_place_dec (place request)) as [Hp | Hp].
    2: { rewrite (predict_traffic_range_bad_place request w Hp).
         cbn [fst]. split; eauto. }
    destruct (known_day_dec (day request)) as [Hd | Hd].
    2: { rewrite (predict_traffic_range_bad_day request w Hp Hd).
         cbn [fst]. split; eauto. }
    destruct (Z_lt_ge_dec (end_hour request) (start_hour request))
      as [Hr | Hr].
    { rewrite (predict_traffic_range_bad_range request w Hp Hd Hr).
      cbn [fst]. split; eauto. }
    destruct (predict_traffic_range_valid request w Hp Hd)
      as (location & peak & _ & _ & E); [lia |].
    rewrite E. cbn [fst]. split.
    + intros [e He]. discriminate.
    + intros [H | [H | H]]; [tauto | tauto | lia].
  - apply predict_traffic_range_bad_place.
  - apply predict_traffic_range_bad_day.
  - apply predict_traffic_range_bad_range.
  - intros e He.
    destruct (known_place_dec (place request)) as [Hp | Hp].
    2: { rewrite (predict_traffic_range_bad_place request w Hp) in *.
         cbn [fst snd] in *. injection He as <-. eauto. }
    destruct (known_day_dec (day request)) as [Hd | Hd].
    2: { rewrite (predict_traffic_range_bad_day request w Hp Hd) in *.
         cbn [fst snd] in *. injection He as <-. eauto. }
    destruct (Z_lt_ge_dec (end_hour request) (start_hour request))
      as [Hr | Hr].
    { rewrite (predict_traffic_range_bad_range request w Hp Hd Hr) in *.
      cbn [fst snd] in *. injection He as <-. eauto. }
    destruct (predict_traffic_range_valid request w Hp Hd)
      as (location & peak & _ & _ & E); [lia |].
    rewrite E in He. discriminate.
Qed.

(** C4, as stated: the operation fails with a client error exactly in the
    three cases of the place, the day and the range.  It does not: a body
    whose place and day are known and whose end hour 24 is not below its
    start hour 0 is rejected by the request model. *)
Lemma validation_error_is_a_fourth_case :
  known_place (place late_request) /\ known_day (day late_request)
  /\ (end_hour late_request <? start_hour late_request) = false
  /\ fst (post_predict_traffic late_request sample_world)
     = Raise (RequestValidationError "end_hour").
Proof.
  split; [unfold known_place; vm_compute; auto |].
  split; [unfold known_day; vm_compute; auto |].
  split; vm_compute; reflexivity.
Qed.

(** C4, amended: [POST /predict-traffic] fails exactly when an hour of the
    body is outside 0..23, or the normalized place is not a known location,
    or the day is not a day of the week, or the end hour is below the start
    hour.  In the first case the request model rejects the body with a
    validation error before the handler runs; in the three others, the
    hours being within 0..23, the handler raises an [HTTPException] with
    status 400 whose detail names the location and lists the supported
    locations, names the day and lists the supported days, or names the end
    and start hours.  Whenever the operation fails, the world, hence the
    stored predictions, is left as it was.  The handler itself raises
    exactly in the three cases of the place, the day and the range, always
    with status 400 and the world left as it was. *)
Theorem predict_traffic_range_errors
  (body : TrafficPredictionRequest) (w : World) :
  ((exists e, fst (post_predict_traffic body w) = Raise e)
   <-> (~ valid_hours body \/ ~ known_place (place body)
        \/ ~ known_day (day body) \/ end_hour body < start_hour body))
  /\ (~ valid_hours body ->
      exists field,
        fst (post_predict_traffic body w)
        = Raise (RequestValidationError field))
  /\ (valid_hours body -> ~ known_place (place body) ->
      fst (post_predict_traffic body w)
      = Raise (HTTPException 400
          "Invalid location. Supported locations: ['silk_board', 'kr_puram', 'whitefield', 'hebbal']"))
  /\ (valid_hours body -> known_place (place body) ->
      ~ known_day (day body) ->
      fst (post_predict_traffic body w)
      = Raise (HTTPException 400
          "Invalid day. Supported days: ['Monday', 'Tuesday', 'Wednesday', 'Thursday', 'Friday', 'Saturday', 'Sunday']"))
  /\ (valid_hours body -> known_place (place body) ->
      known_day (day body) -> end_hour body < start_hour body ->
      fst (post_predict_traffic body w)
      = Raise (HTTPException 400
          "End hour must be greater than or equal to start hour"))
  /\ (forall e, fst (post_predict_traffic body w) = Raise e ->
      snd (post_predict_traffic body w) = w
      /\ traffic_predictions (snd (post_predict_traffic body w))
         = traffic_predictions w)
  /\ ((exists e, fst (predict_traffic_range body w) = Raise e)
      <-> (~ known_place (place body) \/ ~ known_day (day body)
           \/ end_hour body < start_hour body))
  /\ (forall e, fst (predict_traffic_range body w) = Raise e ->
      (exists detail, e = HTTPException 400 detail)
      /\ snd (predict_traffic_range body w) = w).
Proof.
  destruct (predict_traffic_range_raises body w)
    as (Hiff & Hplace & Hday & Hrange & Hraise).
  destruct (valid_hours_dec body) as [Hv | Hv].
  - destruct Hv as [Hs He].
    rewrite (post_predict_traffic_in_range body w Hs He).
    split; [| split; [| split; [| split; [| split; [| split; [| split]]]]]].
    + rewrite Hiff. unfold valid_hours. tauto.
    + unfold valid_hours. tauto.
    + intros _ Hp. now rewrite (Hplace Hp).
    + intros _ Hp Hd. now rewrite (Hday Hp Hd).
    + intros _ Hp Hd Hr. now rewrite (Hrange Hp Hd Hr).
    + intros e H. destruct (Hraise e H) as [_ ->]. auto.
    + exact Hiff.
    + exact Hraise.
  - destruct (post_predict_traffic_out_of_range body w Hv) as [field E].
    rewrite E. cbn [fst snd].
    split; [| split; [| split; [| split; [| split; [| split; [| split]]]]]].
    + split; eauto.
    + eauto.
    + tauto.
    + tauto.
    + tauto.
    + auto.
    + exact Hiff.
    + exact Hraise.
Qed.

Lemma predict_traffic_range_errors_witness :
  fst (post_predict_traffic invalid_location_request sample_world)
  = Raise (HTTPException 400
      "Invalid location. Supported locations: ['silk_board', 'kr_puram', 'whitefield', 'hebbal']")
  /\ traffic_predictions
       (snd (post_predict_traffic invalid_location_request sample_world))
     = [].
Proof.
  destruct (predict_traffic_range_errors invalid_location_request
              sample_world) as (_ & _ & H & _ & _ & H' & _).
  assert (Hv : valid_hours invalid_location_request)
    by (unfold valid_hours; cbn; lia).
  assert (Hp : ~ known_place (place invalid_location_request)).
  { unfold known_place. vm_compute. intuition discriminate. }
  split.
  - exact (H Hv Hp).
  - exact (proj2 (H' _ (H Hv Hp))).
Defined.

(** ** C5: the insight *)

Lemma hourly_severity place day h u :
  hp_severity (hourly place day h u)
  = severity (get_traffic_level (traffic_value (hourly place day h u))).
Proof. reflexivity. Qed.

Lemma severity_cases (v : float) :
  severity (get_traffic_level v) = 1 \/ severity (get_traffic_level v) = 2
  \/ severity (get_traffic_level v) = 3.
Proof.
  destruct (get_traffic_level_cases v) as [-> | [-> | ->]]; cbn; auto.
Qed.

(** C5: the insight of a response is [build_insight] of the peak prediction
    alone, selected by the severity of the peak: severity 3 names the peak
    hour and advises alternative routes or a delay of 1-2 hours, severity 2
    names the peak hour and advises buffer time, severity 1 is one fixed
    sentence that mentions no hour. *)
Theorem insight_from_peak
  (request : TrafficPredictionRequest) (w w' : World)
  (resp : TrafficPredictionResponse) :
  predict_traffic_range request w = (Ok resp, w') ->
  exists peak,
    py_max traffic_value (predictions resp) = Some peak
    /\ peak_hour resp = hour peak
    /\ peak_traffic resp = traffic_value peak
    /\ insight resp = build_insight peak
    /\ hp_severity peak = severity (get_traffic_level (peak_traffic resp))
    /\ ((hp_severity peak = 3
         /\ insight resp
            = ("Peak congestion expected at " ++ str_of_Z (peak_hour resp)
               ++ ":00. Consider alternative routes or delay travel by 1-2 hours.")%string)
        \/ (hp_severity peak = 2
            /\ insight resp
               = ("Moderate traffic expected. " ++ str_of_Z (peak_hour resp)
                  ++ ":00 shows highest activity. Plan buffer time.")%string)
        \/ (hp_severity peak = 1
            /\ insight resp
               = "Traffic conditions are favorable. Smooth commute expected throughout the selected time range."%string)).
Proof.
  intros H.
  destruct (known_place_dec (place request)) as [Hp | Hp].
  2: { rewrite (predict_traffic_range_bad_place request w Hp) in H.
       discriminate. }
  destruct (known_day_dec (day request)) as [Hd | Hd].
  2: { rewrite (predict_traffic_range_bad_day request w Hp Hd) in H.
       discriminate. }
  destruct (Z_lt_ge_dec (end_hour request) (start_hour request))
    as [Hr | Hr].
  { rewrite (predict_traffic_range_bad_range request w Hp Hd Hr) in H.
    discriminate. }
  destruct (predict_traffic_range_valid request w Hp Hd)
    as (location & peak & _ & Hmax & E); [lia |].
  rewrite E in H. injection H as <- <-. cbn.
  exists peak. repeat (split; [reflexivity || assumption |]).
  destruct (run_hours_In _ _ _ _ _ _ (py_max_In _ _ _ Hmax))
    as (h & u & _ & ->).
  split; [apply hourly_severity |].
  rewrite hourly_severity. unfold build_insight. rewrite hourly_severity.
  destruct (severity_cases (traffic_value (hourly (normalize_place
              (place request)) (day request) h u))) as [-> | [-> | ->]];
    cbn; auto.
Qed.

Lemma insight_from_peak_witness :
  peak_hour sample_response = 8
  /\ insight sample_response
     = "Peak congestion expected at 8:00. Consider alternative routes or delay travel by 1-2 hours."%string.
Proof.
  assert (E : predict_traffic_range sample_request sample_world
              = (Ok sample_response,
                 snd (predict_traffic_range sample_request sample_world)))
    by (vm_compute; reflexivity).
  destruct (insight_from_peak _ _ _ _ E)
    as (peak & Hmax & Hh & _ & _ & _ & Hcases).
  split; [vm_compute; reflexivity |].
  destruct Hcases as [[_ ->] | [[Hs _] | [Hs _]]].
  - vm_compute. reflexivity.
  - exfalso. vm_compute in Hmax. injection Hmax as <-. discriminate.
  - exfalso. vm_compute in Hmax. injection Hmax as <-. discriminate.
Defined.

(** ** C9: the place is normalized before it is looked up *)

Lemma lower_ascii_space (c : ascii) :
  Ascii.eqb (lower_ascii c) " " = Ascii.eqb c " ".
Proof. destruct c as [[] [] [] [] [] [] [] []]; reflexivity. Qed.

Lemma ascii_lower_point (c : ascii) :
  (N_of_ascii c <? 0x80)%N = true ->
  (N_of_ascii c =? 0x3a3)%N = false
  /\ to_lower_full (N_of_ascii c) = [N_of_ascii (lower_ascii c)]
  /\ (N_of_ascii (lower_ascii c) <? 0x80)%N = true.
Proof.
  destruct c as [[] [] [] [] [] [] [] []]; intros H;
    solve [discriminate H
          | split; [| split]; vm_compute; reflexivity].
Qed.

Lemma lower_points_ascii (s : string) (before : list N) :
  is_ascii s = true ->
  encode (lower_points before (decode s)) = map_string lower_ascii s.
Proof.
  revert before. induction s as [| c s IH]; intros before H;
    [reflexivity |].
  cbn [is_ascii] in H. apply andb_prop in H. destruct H as [Hc Hs].
  destruct (ascii_lower_point c Hc) as (E1 & E2 & E3).
  cbn [decode]. rewrite Hc. cbn [lower_points]. rewrite E1, E2.
  cbn [app]. unfold encode. cbn [flat_map]. unfold encode_point at 1.
  rewrite E3. cbn [app string_of_bytes map_string].
  rewrite ascii_N_embedding. f_equal. apply (IH _ Hs).
Qed.

Lemma lower_ascii_string (s : string) :
  is_ascii s = true -> lower s = map_string lower_ascii s.
Proof. apply lower_points_ascii. Qed.

Lemma normalize_place_chars (s : string) :
  is_ascii s = true -> normalize_place s = map_string normalize_char s.
Proof.
  intros H. unfold normalize_place. rewrite (lower_ascii_string s H).
  unfold replace_space. clear H.
  induction s as [| c s IH]; cbn [map_string]; [reflexivity |].
  rewrite IH. f_equal. unfold normalize_char.
  now rewrite lower_ascii_space.
Qed.

Lemma predict_traffic_range_normalized (r1 r2 : TrafficPredictionRequest)
  (w : World) :
  normalize_place (place r1) = normalize_place (place r2) ->
  day r1 = day r2 -> start_hour r1 = start_hour r2 ->
  end_hour r1 = end_hour r2 ->
  predict_traffic_range r1 w = predict_traffic_range r2 w.
Proof.
  intros Hp Hd Hs He. unfold predict_traffic_range.
  rewrite Hp, Hd, Hs, He. reflexivity.
Qed.

Lemma predict_traffic_range_Ok request w resp w' :
  predict_traffic_range request w = (Ok resp, w') ->
  known_place (place request) /\ known_day (day request)
  /\ start_hour request <= end_hour request
  /\ exists location peak,
       dict_lookup TRAFFIC_LOCATIONS (normalize_place (place request))
       = Some location
       /\ py_max traffic_value
            (run_hours (normalize_place (place request)) (day request)
               (hours_of request) (random_values w) (random_pos w))
          = Some peak
       /\ resp = success_response request location
                   (run_hours (normalize_place (place request))
                      (day request) (hours_of request) (random_values w)
                      (random_pos w)) peak
       /\ w' = after_success request w peak.
Proof.
  intros H.
  destruct (known_place_dec (place request)) as [Hp | Hp].
  2: { rewrite (predict_traffic_range_bad_place request w Hp) in H.
       discriminate. }
  destruct (known_day_dec (day request)) as [Hd | Hd].
  2: { rewrite (predict_traffic_range_bad_day request w Hp Hd) in H.
       discriminate. }
  destruct (Z_lt_ge_dec (end_hour request) (start_hour request))
    as [Hr | Hr].
  { rewrite (predict_traffic_range_bad_range request w Hp Hd Hr) in H.
    discriminate. }
  destruct (predict_traffic_range_valid request w Hp Hd)
    as (location & peak & Hl & Hmax & E); [lia |].
  rewrite E in H. injection H as <- <-.
  repeat (split; [assumption || lia |]).
  exists location, peak. auto.
Qed.

Lemma predict_traffic_range_Raise request w e w' :
  predict_traffic_range request w = (Raise e, w') -> w' = w.
Proof.
  intros H.
  destruct (known_place_dec (place request)) as [Hp | Hp].
  2: { rewrite (predict_traffic_range_bad_place request w Hp) in H.
       congruence. }
  destruct (known_day_dec (day request)) as [Hd | Hd].
  2: { rewrite (predict_traffic_range_bad_day request w Hp Hd) in H.
       congruence. }
  destruct (Z_lt_ge_dec (end_hour request) (start_hour request))
    as [Hr | Hr].
  { rewrite (predict_traffic_range_bad_range request w Hp Hd Hr) in H.
    congruence. }
  destruct (predict_traffic_range_valid request w Hp Hd)
    as (location & peak & Hl & Hmax & E); [lia |].
  rewrite E in H. discriminate.
Qed.

(** C9: the handler works on the place lowercased, as [str.lower] does it,
    and with every space replaced by an underscore: on a place of ASCII
    characters the letters A-Z become a-z, and outside ASCII the Kelvin
    sign becomes the letter k while a capital I with a dot gets a
    lowercase that is not ASCII; so "Silk Board" is accepted as silk_board,
    two requests whose places have the same normalized form get the same
    outcome, and the place of the response is the normalized one. *)
Theorem place_is_normalized :
  (forall s, normalize_place s = replace_space (lower s))
  /\ (forall s, is_ascii s = true ->
       normalize_place s
       = map_string (fun c => if Ascii.eqb c " " then "_"%char
                              else lower_ascii c) s)
  /\ normalize_place "Silk Board" = "silk_board"%string
  /\ normalize_place (kelvin_sign ++ "R Puram") = "kr_puram"%string
  /\ normalize_place (capital_i_with_dot ++ " A")
     = string_of_bytes [0x69; 0xcc; 0x87; 0x5f; 0x61]%N
  /\ (forall d s e w,
        known_day d -> s <= e ->
        exists resp w',
          predict_traffic_range
            {| place := "Silk Board"; day := d;
               start_hour := s; end_hour := e |} w = (Ok resp, w')
          /\ resp_place resp = "silk_board"%string)
  /\ (forall r1 r2 w,
        normalize_place (place r1) = normalize_place (place r2) ->
        day r1 = day r2 -> start_hour r1 = start_hour r2 ->
        end_hour r1 = end_hour r2 ->
        predict_traffic_range r1 w = predict_traffic_range r2 w)
  /\ (forall request w resp w',
        predict_traffic_range request w = (Ok resp, w') ->
        resp_place resp = normalize_place (place request)).
Proof.
  split; [reflexivity |].
  split; [exact normalize_place_chars |].
  split; [vm_compute; reflexivity |].
  split; [vm_compute; reflexivity |].
  split; [vm_compute; reflexivity |].
  split; [| split].
  - intros d s e w Hd Hr.
    destruct (predict_traffic_range_valid
                {| place := "Silk Board"; day := d;
                   start_hour := s; end_hour := e |} w)
      as (location & peak & _ & _ & E); try assumption.
    { unfold known_place. vm_compute. auto. }
    rewrite E. eexists _, _. split; [reflexivity |].
    vm_compute. reflexivity.
  - exact predict_traffic_range_normalized.
  - intros request w resp w' H.
    apply predict_traffic_range_Ok in H.
    destruct H as (_ & _ & _ & location & peak & _ & _ & -> & _).
    reflexivity.
Qed.

Lemma place_is_normalized_witness :
  resp_place sample_response = "silk_board"%string
  /\ predict_traffic_range sample_request sample_world
     = predict_traffic_range
         {| place := "SILK_BOARD"; day := "Monday";
            start_hour := 8; end_hour := 11 |} sample_world
  /\ normalize_place "Silk Board"
     = map_string normalize_char "Silk Board".
Proof.
  destruct place_is_normalized as (_ & Hchars & _ & _ & _ & _ & Hsame & Hecho).
  split; [| split].
  - apply (Hecho sample_request sample_world sample_response
             (snd (predict_traffic_range sample_request sample_world))).
    vm_compute. reflexivity.
  - apply Hsame; vm_compute; reflexivity.
  - apply (Hchars "Silk Board"%string). vm_compute. reflexivity.
Defined.

(** ** C10: the hours that reach the generator *)

Lemma after_success_calls request w peak :
  generator_calls (after_success request w peak)
  = generator_calls w
    ++ map (fun h => (normalize_place (place request), day request, h))
         (hours_of request).
Proof. reflexivity. Qed.

(** C10: a body whose start or end hour is outside 0..23 is rejected when
    the request model is built, before the handler runs and with the world
    untouched; and whatever the body, every call of the generator that the
    endpoint makes has its hour within 0..23. *)
Theorem request_model_bounds_hours
  (body : TrafficPredictionRequest) (w : World) :
  (~ (0 <= start_hour body <= 23 /\ 0 <= end_hour body <= 23) ->
   exists field,
     post_predict_traffic body w = (Raise (RequestValidationError field), w))
  /\ (exists calls,
        generator_calls (snd (post_predict_traffic body w))
        = generator_calls w ++ calls
        /\ forall p d h, In (p, d, h) calls -> 0 <= h <= 23).
Proof.
  unfold post_predict_traffic, bind, validate_request.
  destruct ((0 <=? start_hour body) && (start_hour body <=? 23)) eqn:Es;
    cbn [negb].
  2: { split.
       - intros _. eexists. reflexivity.
       - exists []. cbn. rewrite app_nil_r. split; [reflexivity | tauto]. }
  destruct ((0 <=? end_hour body) && (end_hour body <=? 23)) eqn:Ee;
    cbn [negb].
  2: { split.
       - intros _. eexists. reflexivity.
       - exists []. cbn. rewrite app_nil_r. split; [reflexivity | tauto]. }
  apply andb_prop in Es, Ee. destruct Es as [Es1 Es2], Ee as [Ee1 Ee2].
  apply Z.leb_le in Es1, Es2, Ee1, Ee2.
  split; [intros H; exfalso; lia |].
  unfold ret.
  destruct (predict_traffic_range body w) as [[resp | e] w'] eqn:E.
  - apply predict_traffic_range_Ok in E.
    destruct E as (_ & _ & Hr & location & peak & _ & _ & _ & ->).
    cbn [snd]. rewrite after_success_calls. eexists. split; [reflexivity |].
    intros p d h Hin. apply in_map_iff in Hin.
    destruct Hin as (h' & [= _ _ ->] & Hin).
    apply py_range_In in Hin. lia.
  - apply predict_traffic_range_Raise in E. cbn [snd]. subst w'.
    exists []. rewrite app_nil_r. split; [reflexivity |].
    cbn. tauto.
Qed.

Lemma request_model_bounds_hours_witness :
  exists field,
    post_predict_traffic
      {| place := "silk_board"; day := "Monday";
         start_hour := 8; end_hour := 24 |} sample_world
    = (Raise (RequestValidationError field), sample_world).
Proof.
  apply (request_model_bounds_hours
           {| place := "silk_board"; day := "Monday";
              start_hour := 8; end_hour := 24 |} sample_world).
  cbn. lia.
Defined.

(** ** C1: the formula of the generator *)

Lemma mul_comm (x y : float) : (x * y)%f64 = (y * x)%f64.
Proof.
  unfold F64.mul, SFmul.
  destruct x as [sx | sx | | sx mx ex], y as [sy | sy | | sy my ey];
    try reflexivity; rewrite (xorb_comm sx sy); try reflexivity.
  now rewrite (Pos.mul_comm mx my), (Z.add_comm ex ey).
Qed.

Lemma band_among (lo hi h : Z) (hours : list Z) :
  (forall x, In x hours <-> lo <= x <= hi) ->
  (lo <=? h) && (h <=? hi) = hour_among h hours.
Proof.
  intros H. unfold hour_among.
  destruct (existsb (Z.eqb h) hours) eqn:E.
  - apply existsb_exists in E. destruct E as (x & Hx & Heq).
    apply Z.eqb_eq in Heq. subst x. apply H in Hx.
    apply andb_true_intro. split; apply Z.leb_le; lia.
  - apply andb_false_iff.
    destruct (Z.leb_spec lo h); [| now left].
    destruct (Z.leb_spec h hi); [| now right].
    assert (Hin : In h hours) by (apply H; lia).
    assert (existsb (Z.eqb h) hours = true)
      by (apply existsb_exists; exists h; split; [assumption | apply Z.eqb_refl]).
    congruence.
Qed.

Lemma hour_multiplier_spec (hour : Z) :
  hour_multiplier hour = spec_hour_multiplier hour.
Proof.
  unfold hour_multiplier, spec_hour_multiplier.
  rewrite (band_among 8 10 hour [8; 9; 10]),
    (band_among 17 20 hour [17; 18; 19; 20]),
    (band_among 12 14 hour [12; 13; 14]),
    (band_among 0 5 hour [0; 1; 2; 3; 4; 5]),
    (band_among 22 23 hour [22; 23]);
    [reflexivity | intros x; cbn [In]; lia ..].
Qed.

Lemma base_traffic_spec (place : string) :
  dict_get base_traffic place 1500 = spec_base place.
Proof.
  unfold dict_get, base_traffic, spec_base. cbn [dict_lookup].
  repeat match goal with
         | |- context [String.eqb place ?s] => destruct (String.eqb place s)
         end; reflexivity.
Qed.

Lemma weekend_factor_spec (day : string) :
  weekend_factor day = spec_weekend_multiplier day.
Proof.
  unfold weekend_factor, spec_weekend_multiplier, list_mem.
  cbn [existsb]. now rewrite orb_false_r.
Qed.

Lemma raw_traffic_spec (place day : string) (hour : Z) :
  raw_traffic place day hour = spec_raw place day hour.
Proof.
  unfold raw_traffic, spec_raw.
  now rewrite hour_multiplier_spec, base_traffic_spec, weekend_factor_spec.
Qed.

(** C1: for every place, day and hour, a call of the generator returns
    [round(raw * (0.9 + 0.2 * u), 2)] for the draw [u] it takes from the
    random generator, with [raw] the product of the base of the place
    (2500, 2200, 1800, 2000, and 1500 for any other place), the weekend
    multiplier (0.6 on Saturday and Sunday, else 1.0), the hour multiplier
    (1.8 for 8-10, 2.0 for 17-20, 1.3 for 12-14, 0.3 for 0-5, 0.5 for
    22-23, else 1.0) and the day multiplier (1.15 on Friday, 1.10 on
    Monday, else 1.0). *)
Theorem generator_formula (place day : string) (hour : Z) (w : World) :
  fst (predict_traffic_value place day hour w)
  = Ok (spec_generate place day hour (random_values w (random_pos w))).
Proof.
  unfold predict_traffic_value, bind, log_call, random_random, ret.
  cbn [fst random_values random_pos].
  unfold traffic_with_draw, spec_generate, jitter.
  now rewrite raw_traffic_spec, (mul_comm f0_2).
Qed.

(** ** C7: weekends are below weekdays *)

Lemma base_In (place : string) : In (dict_get base_traffic place 1500) bases.
Proof.
  rewrite base_traffic_spec. unfold spec_base, bases.
  repeat match goal with
         | |- context [String.eqb place ?s] => destruct (String.eqb place s)
         end; cbn [In]; auto 6.
Qed.

Lemma hour_multiplier_In (h : Z) : In (hour_multiplier h) hour_multipliers.
Proof.
  unfold hour_multiplier, hour_multipliers.
  repeat match goal with
         | |- context [if ?c then _ else _] => destruct c
         end; cbn [In]; auto 7.
Qed.

Lemma day_factor_In (day : string) : In (day_factor day) day_factors.
Proof.
  unfold day_factor, day_factors.
  repeat match goal with
         | |- context [if ?c then _ else _] => destruct c
         end; cbn [In]; auto.
Qed.

Lemma weekend_day (day : string) :
  In day ["Saturday"; "Sunday"]%string ->
  weekend_factor day = f0_6 /\ day_factor day = f1_0.
Proof. intros [<- | [<- | []]]; split; reflexivity. Qed.

Lemma weekday_day (day : string) :
  ~ In day ["Saturday"; "Sunday"]%string -> weekend_factor day = f1_0.
Proof.
  intros H. apply list_mem_not_In in H. unfold weekend_factor.
  now rewrite H.
Qed.

Lemma weekend_check_true : weekend_check = true.
Proof. vm_compute. reflexivity. Qed.

(** C7: at every place and hour, the product before the random variation
    is lower on a Saturday or Sunday than on any other day: strictly lower,
    hence lower or equal. *)
Theorem weekend_below_weekday (place : string) (hour : Z)
  (weekend weekday : string) :
  In weekend ["Saturday"; "Sunday"]%string ->
  ~ In weekday ["Saturday"; "Sunday"]%string ->
  (raw_traffic place weekend hour <? raw_traffic place weekday hour)%f64
  = true
  /\ (raw_traffic place weekend hour <=? raw_traffic place weekday hour)%f64
     = true.
Proof.
  intros Hwe Hwd.
  assert (H : (raw_traffic place weekend hour
               <? raw_traffic place weekday hour)%f64 = true).
  { unfold raw_traffic.
    destruct (weekend_day weekend Hwe) as [-> ->].
    rewrite (weekday_day weekday Hwd).
    pose proof weekend_check_true as C. unfold weekend_check in C.
    rewrite forallb_forall in C. specialize (C _ (base_In place)).
    rewrite forallb_forall in C.
    specialize (C _ (hour_multiplier_In hour)).
    rewrite forallb_forall in C.
    exact (C _ (day_factor_In weekday)). }
  split; [exact H | now apply ltb_leb].
Qed.

Lemma weekend_below_weekday_witness :
  (raw_traffic "silk_board" "Saturday" 9
   <? raw_traffic "silk_board" "Friday" 9)%f64 = true.
Proof.
  apply (weekend_below_weekday "silk_board" 9 "Saturday" "Friday").
  - cbn. auto.
  - cbn. intuition discriminate.
Defined.

(** ** Signs: the operations on numbers that are not negative *)

Lemma iter_pos_invariant {A : Type} (P : A -> Prop) (f : A -> A) :
  (forall x, P x -> P (f x)) ->
  forall n x, P x -> P (iter_pos f n x).
Proof.
  intros Hf. induction n as [n IH | n IH |]; intros x Hx; cbn [iter_pos]; auto.
Qed.

Lemma shr_1_nonneg mrs : 0 <= shr_m mrs -> 0 <= shr_m (shr_1 mrs).
Proof.
  destruct mrs as [m r s]. cbn [shr_m]. intros H.
  destruct m as [| [p | p |] | p]; cbn; lia.
Qed.

Lemma shr_nonneg mrs e n :
  0 <= shr_m mrs -> 0 <= shr_m (fst (shr mrs e n)).
Proof.
  intros H. unfold shr. destruct n; cbn [fst]; try assumption.
  apply iter_pos_invariant; [exact shr_1_nonneg | assumption].
Qed.

Lemma shr_record_of_loc_m m l : shr_m (shr_record_of_loc m l) = m.
Proof. destruct l as [| []]; reflexivity. Qed.

Lemma round_nearest_even_nonneg m l :
  0 <= m -> 0 <= round_nearest_even m l.
Proof.
  intros H. unfold round_nearest_even.
  destruct l as [| []]; try destruct (Z.even m); lia.
Qed.

Lemma binary_round_aux_nonneg (m e : Z) (l : location) :
  0 <= m -> rounded_nonneg (binary_round_aux F64.prec F64.emax false m e l).
Proof.
  intros H. unfold binary_round_aux, shr_fexp.
  pose proof (shr_nonneg (shr_record_of_loc m l) e
                (fexp F64.prec F64.emax (Zdigits2 m + e) - e)) as H1.
  rewrite shr_record_of_loc_m in H1. specialize (H1 H).
  destruct (shr (shr_record_of_loc m l) e
              (fexp F64.prec F64.emax (Zdigits2 m + e) - e)) as [mrs' e'].
  cbn [fst] in H1.
  set (q := round_nearest_even (shr_m mrs') (loc_of_shr_record mrs')).
  assert (Hq : 0 <= q) by (apply round_nearest_even_nonneg; assumption).
  pose proof (shr_nonneg (shr_record_of_loc q loc_Exact) e'
                (fexp F64.prec F64.emax (Zdigits2 q + e') - e')) as H2.
  rewrite shr_record_of_loc_m in H2. specialize (H2 Hq).
  destruct (shr (shr_record_of_loc q loc_Exact) e'
              (fexp F64.prec F64.emax (Zdigits2 q + e') - e'))
    as [mrs'' e''].
  cbn [fst] in H2. unfold rounded_nonneg.
  destruct (shr_m mrs'') as [| p | p]; [auto | | lia].
  destruct (e'' <=? F64.emax - F64.prec); eauto.
Qed.

Lemma rounded_nonneg_nonneg x : rounded_nonneg x -> nonneg x = true.
Proof. intros [-> | [-> | (m & e & ->)]]; reflexivity. Qed.

Lemma mul_nonneg (s : bool) (m : positive) (e : Z) (y : float) :
  s = false -> nonneg y = true ->
  nonneg (S754_finite s m e * y)%f64 = true.
Proof.
  intros -> Hy. unfold F64.mul, SFmul.
  destruct y as [sy | [|] | | [|] my ey]; try discriminate; try reflexivity.
  apply rounded_nonneg_nonneg. apply binary_round_aux_nonneg. lia.
Qed.

Lemma shl_align_pos mx ex ex' : 0 < Zpos (fst (shl_align mx ex ex')).
Proof. lia. Qed.

Lemma add_nonneg (m : positive) (e : Z) (y : float) :
  nonneg y = true -> nonneg (S754_finite false m e + y)%f64 = true.
Proof.
  intros Hy. unfold F64.add, SFadd.
  destruct y as [sy | [|] | | [|] my ey]; try discriminate; try reflexivity.
  cbn [cond_Zopp]. unfold binary_normalize.
  set (a := fst (shl_align m e (Z.min e ey))).
  set (b := fst (shl_align my ey (Z.min e ey))).
  change (Zpos a + Zpos b) with (Zpos (a + b)). cbv iota.
  unfold binary_round.
  destruct (shl_align (a + b) (Z.min e ey) _) as [mz ez].
  apply rounded_nonneg_nonneg. apply binary_round_aux_nonneg. lia.
Qed.

Lemma of_ratio_nonneg (n d : positive) :
  rounded_nonneg (F64.of_ratio false n d).
Proof.
  unfold F64.of_ratio, SFdiv_core_binary.
  set (e' := Z.min _ _). set (m' := match _ with Zpos _ => _ | _ => _ end).
  assert (Hm : 0 <= m').
  { subst m'. destruct (0 - 0 - e'); try lia. apply Z.shiftl_nonneg. lia. }
  pose proof (Z_div_mod m' (Zpos d) eq_refl) as H.
  destruct (Z.div_eucl m' (Zpos d)) as [q r].
  apply binary_round_aux_nonneg. nia.
Qed.

Lemma round2_nonneg (x : float) :
  nonneg x = true -> nonneg (F64.round2 x) = true.
Proof.
  destruct x as [sx | [|] | | [|] m e]; try discriminate; try reflexivity.
  intros _. unfold F64.round2.
  destruct (F64.hundredths m e); try reflexivity.
  apply rounded_nonneg_nonneg, of_ratio_nonneg.
Qed.

(** ** Binary digits and rounding to nearest, on integers *)

Lemma two52_pow : two52 = 2 ^ 52.
Proof. reflexivity. Qed.

Lemma two53_pow : two53 = 2 ^ 53.
Proof. reflexivity. Qed.

Lemma fexp64_eq (k : Z) : fexp F64.prec F64.emax k = fexp64 k.
Proof. reflexivity. Qed.

Lemma pow2_pos (k : Z) : 0 <= k -> 0 < 2 ^ k.
Proof. intros H. apply Z.pow_pos_nonneg; lia. Qed.

Lemma pow2_succ (k : Z) : 0 <= k -> 2 ^ (k + 1) = 2 * 2 ^ k.
Proof. intros H. rewrite Z.pow_add_r by lia. lia. Qed.

Lemma pow2_le (a b : Z) : 0 <= a <= b -> 2 ^ a <= 2 ^ b.
Proof. intros H. apply Z.pow_le_mono_r; lia. Qed.

Lemma pow2_lt_inv (a b : Z) : 0 <= a -> 0 <= b -> 2 ^ a < 2 ^ b -> a < b.
Proof. intros Ha Hb H. apply (Z.pow_lt_mono_r_iff 2); lia. Qed.

Lemma digits2_pos_size (p : positive) : digits2_pos p = Pos.size p.
Proof. induction p; cbn; congruence. Qed.

Lemma digits_bounds (m : Z) :
  0 < m -> 0 < digits m /\ 2 ^ (digits m - 1) <= m < 2 ^ digits m.
Proof.
  destruct m as [| p | p]; try lia. intros _. unfold digits, Zdigits2.
  rewrite digits2_pos_size. split; [lia |].
  pose proof (Pos.size_gt p) as Hgt. pose proof (Pos.size_le p) as Hle.
  pose proof (Pos2Z.inj_pow 2 (Pos.size p)) as E.
  pose proof (pow2_succ (Zpos (Pos.size p) - 1)) as E'.
  replace (Zpos (Pos.size p) - 1 + 1) with (Zpos (Pos.size p)) in E' by lia.
  lia.
Qed.

Lemma digits_unique (m k : Z) :
  2 ^ (k - 1) <= m < 2 ^ k -> 0 < m -> digits m = k.
Proof.
  intros H Hm. destruct (digits_bounds m Hm) as (Hd & Hlo & Hhi).
  assert (0 < k).
  { destruct (Z_lt_le_dec 0 k); [assumption |].
    destruct (Z.eq_dec k 0) as [-> | Hk].
    - cbn in H. lia.
    - rewrite (Z.pow_neg_r 2 k) in H by lia. lia. }
  assert (digits m - 1 < k).
  { apply pow2_lt_inv; lia. }
  assert (k - 1 < digits m).
  { apply pow2_lt_inv; lia. }
  lia.
Qed.

Lemma digits_mul_pow (m k : Z) :
  0 < m -> 0 <= k -> digits (m * 2 ^ k) = digits m + k.
Proof.
  intros Hm Hk. destruct (digits_bounds m Hm) as (Hd & Hlo & Hhi).
  pose proof (pow2_pos k Hk) as Hp.
  apply digits_unique; [| nia].
  replace (digits m + k - 1) with (digits m - 1 + k) by lia.
  rewrite !Z.pow_add_r by lia. nia.
Qed.

Lemma digits_le (m1 m2 : Z) : 0 < m1 <= m2 -> digits m1 <= digits m2.
Proof.
  intros H.
  destruct (digits_bounds m1) as (Hd1 & Hlo1 & Hhi1); [lia |].
  destruct (digits_bounds m2) as (Hd2 & Hlo2 & Hhi2); [lia |].
  assert (digits m1 - 1 < digits m2) by (apply pow2_lt_inv; lia).
  lia.
Qed.

Lemma rhe_bounds (n d : Z) :
  0 < d -> n / d <= F64.round_half_even n d <= n / d + 1.
Proof.
  intros Hd. unfold F64.round_half_even.
  destruct (2 * (n mod d) ?= d); try destruct (Z.even (n / d)); lia.
Qed.

Lemma rhe_exact (q d : Z) : 0 < d -> F64.round_half_even (q * d) d = q.
Proof.
  intros Hd. unfold F64.round_half_even.
  rewrite Z.mod_mul, Z.div_mul by lia. cbn.
  destruct d; first [lia | reflexivity].
Qed.

Lemma rhe_scale (n d c : Z) :
  0 < d -> 0 < c ->
  F64.round_half_even (n * c) (d * c) = F64.round_half_even n d.
Proof.
  intros Hd Hc. unfold F64.round_half_even.
  rewrite Z.div_mul_cancel_r, Z.mul_mod_distr_r by lia.
  destruct (Z.compare_spec (2 * (n mod d * c)) (d * c));
    destruct (Z.compare_spec (2 * (n mod d)) d);
    try reflexivity; nia.
Qed.

Lemma rhe_mono (n1 n2 d : Z) :
  0 < d -> n1 <= n2 ->
  F64.round_half_even n1 d <= F64.round_half_even n2 d.
Proof.
  intros Hd H.
  pose proof (Z.div_le_mono n1 n2 d Hd H) as Hq.
  destruct (Z.eq_dec (n1 / d) (n2 / d)) as [E | E].
  - unfold F64.round_half_even. rewrite <- E.
    pose proof (Z.div_mod n1 d) as D1. pose proof (Z.div_mod n2 d) as D2.
    assert (Hr : n1 mod d <= n2 mod d) by nia.
    destruct (Z.compare_spec (2 * (n1 mod d)) d);
      destruct (Z.compare_spec (2 * (n2 mod d)) d);
      try destruct (Z.even (n1 / d)); lia.
  - pose proof (rhe_bounds n1 d Hd). pose proof (rhe_bounds n2 d Hd). lia.
Qed.

Lemma rhe_ge (n d k : Z) :
  0 < d -> k * d <= n -> k <= F64.round_half_even n d.
Proof.
  intros Hd H. rewrite <- (rhe_exact k d Hd). now apply rhe_mono.
Qed.

Lemma rhe_le (n d k : Z) :
  0 < d -> n <= k * d -> F64.round_half_even n d <= k.
Proof.
  intros Hd H. rewrite <- (rhe_exact k d Hd). now apply rhe_mono.
Qed.

(** ** What [binary_round_aux] computes on an exact positive input *)

Lemma iter_pos_nat {A : Type} (f : A -> A) (p : positive) (x : A) :
  iter_pos f p x = Nat.iter (Pos.to_nat p) f x.
Proof.
  revert x. induction p as [p IH | p IH |]; intros x; cbn [iter_pos].
  - rewrite !IH, Pos2Nat.inj_xI, Nat.iter_succ_r.
    replace (2 * Pos.to_nat p)%nat with (Pos.to_nat p + Pos.to_nat p)%nat
      by lia.
    now rewrite Nat.iter_add.
  - rewrite !IH, Pos2Nat.inj_xO.
    replace (2 * Pos.to_nat p)%nat with (Pos.to_nat p + Pos.to_nat p)%nat
      by lia.
    now rewrite Nat.iter_add.
  - reflexivity.
Qed.

Lemma shr_1_spec (M : Z) (r s : bool) :
  0 <= M ->
  shr_1 (Build_shr_record M r s)
  = Build_shr_record (M / 2) (Z.odd M) (r || s).
Proof.
  intros H. destruct M as [| p | p]; [reflexivity | | lia].
  destruct p as [p | p |]; cbn [shr_1 Z.odd].
  - replace (Z.pos p~1 / 2) with (Z.pos p); [reflexivity |].
    rewrite Pos2Z.inj_xI. apply (Z.div_unique _ _ _ 1); lia.
  - replace (Z.pos p~0 / 2) with (Z.pos p); [reflexivity |].
    rewrite Pos2Z.inj_xO. apply (Z.div_unique _ _ _ 0); lia.
  - reflexivity.
Qed.

Lemma div_mod_double (m P : Z) :
  0 <= m -> 0 < P ->
  m / (2 * P) = m / P / 2
  /\ m mod (2 * P) = m mod P + P * (m / P mod 2).
Proof.
  intros Hm HP.
  pose proof (Z.div_mod m P) as D. pose proof (Z.mod_pos_bound m P HP) as B.
  pose proof (Z.div_mod (m / P) 2) as D2.
  pose proof (Z.mod_pos_bound (m / P) 2) as B2.
  assert (E : m = 2 * P * (m / P / 2) + (m mod P + P * (m / P mod 2)))
    by nia.
  assert (R : 0 <= m mod P + P * (m / P mod 2) < 2 * P) by nia.
  split; symmetry.
  - eapply Z.div_unique; [left; exact R | exact E].
  - eapply Z.mod_unique; [left; exact R | exact E].
Qed.

Lemma shr_1_frac (N D : Z) (mrs : shr_record) :
  0 <= N -> 0 < D -> shr_frac N D mrs -> shr_frac N (2 * D) (shr_1 mrs).
Proof.
  intros HN HD [HM Hloc]. destruct mrs as [M r s].
  cbn [shr_m shr_r shr_s] in *.
  assert (HM0 : 0 <= M) by (subst M; apply Z.div_pos; lia).
  rewrite shr_1_spec by assumption. unfold shr_frac.
  cbn [shr_m shr_r shr_s].
  destruct (div_mod_double N D HN HD) as [Ed Er].
  rewrite Ed, Er, <- HM. split; [reflexivity |].
  pose proof (Z.mod_pos_bound N D HD) as B.
  rewrite (Zmod_odd M).
  destruct (Z.odd M), r, s; cbn [orb]; lia.
Qed.

Lemma shr_frac_shift (N D : Z) (mrs0 : shr_record) (e n : Z) :
  0 <= N -> 0 < D -> 0 <= n -> shr_frac N D mrs0 ->
  exists mrs, shr mrs0 e n = (mrs, e + n) /\ shr_frac N (D * 2 ^ n) mrs.
Proof.
  intros HN HD Hn H0. destruct n as [| p | p]; [| | lia].
  - exists mrs0. cbn [shr]. rewrite Z.add_0_r, Z.pow_0_r, Z.mul_1_r. auto.
  - eexists. cbn [shr]. split; [reflexivity |].
    rewrite iter_pos_nat, <- (positive_nat_Z p).
    induction (Pos.to_nat p) as [| k IH].
    + cbn [Nat.iter Z.of_nat]. now rewrite Z.pow_0_r, Z.mul_1_r.
    + cbn [Nat.iter]. rewrite Nat2Z.inj_succ, <- Z.add_1_r, pow2_succ by lia.
      replace (D * (2 * 2 ^ Z.of_nat k)) with (2 * (D * 2 ^ Z.of_nat k))
        by lia.
      apply shr_1_frac; [assumption | | exact IH].
      pose proof (pow2_pos (Z.of_nat k)). nia.
Qed.

Lemma round_of_shr_frac (N D : Z) (mrs : shr_record) :
  0 < D -> shr_frac N D mrs ->
  round_nearest_even (shr_m mrs) (loc_of_shr_record mrs)
  = F64.round_half_even N D.
Proof.
  intros HD [HM Hloc].
  destruct mrs as [M r s]. cbn [shr_m shr_r shr_s] in *. subst M.
  unfold F64.round_half_even, round_nearest_even, loc_of_shr_record.
  destruct r, s; destruct (Z.compare_spec (2 * (N mod D)) D);
    try lia; reflexivity.
Qed.

Lemma shift_of_ge (m e : Z) : -1074 <= e + shift_of m e.
Proof. unfold shift_of, fexp64. lia. Qed.

Lemma rounded_mantissa_bounds (m e : Z) :
  0 < m -> 0 <= shift_of m e ->
  0 <= F64.round_half_even m (2 ^ shift_of m e) <= two53.
Proof.
  intros Hm Hn. set (n := shift_of m e) in *.
  pose proof (pow2_pos n Hn) as HP.
  destruct (digits_bounds m Hm) as (Hd & Hlo & Hhi).
  split.
  - apply rhe_ge; lia.
  - apply rhe_le; [lia |].
    assert (Hdn : digits m <= 53 + n)
      by (subst n; unfold shift_of, fexp64 in *; lia).
    pose proof (pow2_le (digits m) (53 + n)) as Hle.
    rewrite Z.pow_add_r in Hle by lia. rewrite two53_pow. lia.
Qed.

Lemma no_second_shift (q g : Z) :
  0 < q < two53 -> -1074 <= g -> fexp64 (digits q + g) - g <= 0.
Proof.
  intros Hq Hg. destruct (digits_bounds q) as (Hd & Hlo & Hhi); [lia |].
  assert (digits q - 1 < 53)
    by (apply pow2_lt_inv; try lia; rewrite <- two53_pow; lia).
  unfold fexp64. lia.
Qed.

Lemma shr_nonpos (mrs : shr_record) (e n : Z) :
  n <= 0 -> shr mrs e n = (mrs, e).
Proof. intros H. destruct n; try reflexivity; lia. Qed.

(** [binary_round_aux] on a positive fraction [N / D] given by its quotient
    and the location of its remainder. *)
Lemma binary_round_aux_frac (s : bool) (N D q e : Z) (l : location) :
  0 <= N -> 0 < D -> 0 < q -> shr_frac N D (shr_record_of_loc q l) ->
  0 <= shift_of q e ->
  binary_round_aux F64.prec F64.emax s q e l
  = pack s (carry (F64.round_half_even N (D * 2 ^ shift_of q e))
              (e + shift_of q e))
  /\ 0 <= F64.round_half_even N (D * 2 ^ shift_of q e) <= two53.
Proof.
  intros HN HD Hq H0 Hn. unfold binary_round_aux, shr_fexp.
  rewrite fexp64_eq. fold (digits q). fold (shift_of q e).
  destruct (shr_frac_shift N D _ e (shift_of q e) HN HD Hn H0)
    as (mrs & E & Hinv).
  pose proof (pow2_pos _ Hn) as HP.
  assert (HDP : 0 < D * 2 ^ shift_of q e) by nia.
  rewrite E, (round_of_shr_frac N _ mrs HDP Hinv).
  pose proof (shift_of_ge q e) as Hg.
  assert (HqN : q = N / D).
  { destruct H0 as [H0 _]. now rewrite shr_record_of_loc_m in H0. }
  assert (HM : 0 <= F64.round_half_even N (D * 2 ^ shift_of q e) <= two53).
  { split; [apply rhe_ge; lia |].
    apply rhe_le; [assumption |].
    destruct (digits_bounds q Hq) as (Hd & Hlo & Hhi).
    assert (Hdn : digits q <= 53 + shift_of q e)
      by (unfold shift_of, fexp64 in *; lia).
    pose proof (pow2_le (digits q) (53 + shift_of q e)) as Hle.
    rewrite Z.pow_add_r in Hle by lia. rewrite two53_pow.
    pose proof (Z.div_mod N D) as DM.
    pose proof (Z.mod_pos_bound N D HD) as B. nia. }
  split; [| exact HM]. unfold carry.
  set (M := F64.round_half_even N (D * 2 ^ shift_of q e)) in *.
  set (g := e + shift_of q e) in *.
  rewrite fexp64_eq. fold (digits M).
  destruct (Z.eqb_spec M two53) as [Eq | Eq].
  - rewrite Eq.
    replace (fexp64 (digits two53 + g) - g) with 1
      by (change (digits two53) with 54; unfold fexp64; lia).
    cbn [shr iter_pos shr_record_of_loc]. unfold pack. cbn [fst snd].
    change (shr_m (shr_1 (Build_shr_record two53 false false)))
      with two52.
    reflexivity.
  - destruct (Z.eq_dec M 0) as [E0 | E0].
    + rewrite E0. change (digits 0) with 0.
      rewrite shr_nonpos by (unfold fexp64; lia).
      reflexivity.
    + rewrite shr_nonpos by (apply no_second_shift; lia).
      unfold pack. cbn [fst snd shr_m shr_record_of_loc].
      destruct M; try lia; reflexivity.
Qed.

Lemma binary_round_aux_exact (s : bool) (m e : Z) :
  0 < m -> 0 <= shift_of m e ->
  binary_round_aux F64.prec F64.emax s m e loc_Exact = pack s (rnd_pair m e).
Proof.
  intros Hm Hn.
  destruct (binary_round_aux_frac s m 1 m e loc_Exact) as [E _];
    try lia.
  - unfold shr_frac. cbn [shr_record_of_loc shr_m shr_r shr_s].
    now rewrite Z.div_1_r, Z.mod_1_r.
  - rewrite E, Z.mul_1_l. reflexivity.
Qed.

(** ** Canonical results and monotonicity of the rounding *)

Lemma dle_at (k m1 e1 m2 e2 : Z) :
  k <= e1 -> k <= e2 ->
  (dle m1 e1 m2 e2 <-> m1 * 2 ^ (e1 - k) <= m2 * 2 ^ (e2 - k)).
Proof.
  intros H1 H2. unfold dle. set (j := Z.min e1 e2).
  assert (Hj : k <= j) by (subst j; lia).
  assert (Hj1 : j <= e1) by (subst j; lia).
  assert (Hj2 : j <= e2) by (subst j; lia).
  replace (e1 - k) with (e1 - j + (j - k)) by lia.
  replace (e2 - k) with (e2 - j + (j - k)) by lia.
  rewrite !Z.pow_add_r by lia.
  pose proof (pow2_pos (j - k)) as HP. nia.
Qed.

Lemma rounded_normal (m e : Z) :
  0 < m -> 0 <= shift_of m e -> e + shift_of m e <> -1074 ->
  two52 <= F64.round_half_even m (2 ^ shift_of m e).
Proof.
  intros Hm Hn Hg. pose proof (pow2_pos _ Hn) as HP.
  destruct (digits_bounds m Hm) as (Hd & Hlo & Hhi).
  apply rhe_ge; [assumption |].
  assert (E : digits m - 1 = 52 + shift_of m e)
    by (unfold shift_of, fexp64 in *; lia).
  rewrite E, Z.pow_add_r in Hlo by lia. rewrite two52_pow. lia.
Qed.

Lemma rnd_pair_canon (m e : Z) :
  0 < m -> 0 <= shift_of m e ->
  fst (rnd_pair m e) = 0 \/ canon (fst (rnd_pair m e)) (snd (rnd_pair m e)).
Proof.
  intros Hm Hn. pose proof (rounded_mantissa_bounds m e Hm Hn) as Hq.
  pose proof (shift_of_ge m e) as Hg.
  pose proof (rounded_normal m e Hm Hn) as Hnorm.
  unfold rnd_pair, carry.
  set (q := F64.round_half_even m (2 ^ shift_of m e)) in *.
  destruct (Z.eqb_spec q two53) as [Eq | Eq]; cbn [fst snd].
  - right. unfold canon, two52, two53. lia.
  - destruct (Z.eq_dec q 0); [now left | right].
    unfold canon. lia.
Qed.

Lemma rhe_align (m e g k : Z) :
  k <= e -> e <= g ->
  F64.round_half_even m (2 ^ (g - e))
  = F64.round_half_even (m * 2 ^ (e - k)) (2 ^ (g - k)).
Proof.
  intros H1 H2. replace (g - k) with (g - e + (e - k)) by lia.
  rewrite Z.pow_add_r by lia.
  symmetry. apply rhe_scale; apply pow2_pos; lia.
Qed.

Lemma dle_digits (m1 e1 m2 e2 : Z) :
  0 < m1 -> 0 < m2 -> dle m1 e1 m2 e2 ->
  digits m1 + e1 <= digits m2 + e2.
Proof.
  intros H1 H2 H. unfold dle in H. set (k := Z.min e1 e2) in *.
  assert (Hk1 : 0 <= e1 - k) by (subst k; lia).
  assert (Hk2 : 0 <= e2 - k) by (subst k; lia).
  pose proof (pow2_pos _ Hk1). pose proof (pow2_pos _ Hk2).
  pose proof (digits_le (m1 * 2 ^ (e1 - k)) (m2 * 2 ^ (e2 - k))) as D.
  rewrite !digits_mul_pow in D by lia.
  assert (0 < m1 * 2 ^ (e1 - k)) by nia. lia.
Qed.

Lemma rnd_pair_mono (m1 e1 m2 e2 : Z) :
  0 < m1 -> 0 < m2 -> 0 <= shift_of m1 e1 -> 0 <= shift_of m2 e2 ->
  dle m1 e1 m2 e2 -> pair_le (rnd_pair m1 e1) (rnd_pair m2 e2).
Proof.
  intros Hm1 Hm2 Hn1 Hn2 H.
  pose proof (dle_digits _ _ _ _ Hm1 Hm2 H) as Hd.
  pose proof (rounded_mantissa_bounds m1 e1 Hm1 Hn1) as Hq1.
  pose proof (rounded_mantissa_bounds m2 e2 Hm2 Hn2) as Hq2.
  pose proof (rounded_normal m2 e2 Hm2 Hn2) as Hnorm2.
  pose proof (shift_of_ge m1 e1) as Hg1.
  assert (Hg : e1 + shift_of m1 e1 <= e2 + shift_of m2 e2)
    by (unfold shift_of, fexp64 in *; lia).
  assert (Hq : e1 + shift_of m1 e1 = e2 + shift_of m2 e2 ->
               F64.round_half_even m1 (2 ^ shift_of m1 e1)
               <= F64.round_half_even m2 (2 ^ shift_of m2 e2)).
  { intros E. set (g := e1 + shift_of m1 e1) in *.
    replace (shift_of m1 e1) with (g - e1) by lia.
    replace (shift_of m2 e2) with (g - e2) by lia.
    rewrite (rhe_align m1 e1 g (Z.min e1 e2)),
      (rhe_align m2 e2 g (Z.min e1 e2)) by lia.
    apply rhe_mono; [apply pow2_pos; lia | exact H]. }
  unfold rnd_pair, carry, pair_le.
  set (q1 := F64.round_half_even m1 (2 ^ shift_of m1 e1)) in *.
  set (q2 := F64.round_half_even m2 (2 ^ shift_of m2 e2)) in *.
  unfold two52, two53 in *.
  destruct (Z.eqb_spec q1 9007199254740992);
    destruct (Z.eqb_spec q2 9007199254740992); cbn [fst snd]; lia.
Qed.

(** ** From rounded pairs back to binary64 numbers *)

Lemma valid_canonical_pos (m : positive) (e : Z) :
  valid_binary F64.prec F64.emax (S754_finite false m e) = true ->
  canonical_pos (S754_finite false m e).
Proof.
  unfold valid_binary, bounded, canonical_mantissa. intros H.
  apply andb_prop in H. destruct H as [Hc He].
  apply Z.eqb_eq in Hc. apply Z.leb_le in He.
  rewrite fexp64_eq in Hc. change (F64.emax - F64.prec) with 971 in He.
  change (Zpos (digits2_pos m)) with (digits (Zpos m)) in Hc.
  exists m, e. split; [reflexivity |]. split; [| assumption].
  destruct (digits_bounds (Zpos m)) as (Hd & Hlo & Hhi); [lia |].
  unfold fexp64 in Hc. unfold canon.
  assert (Hd53 : digits (Zpos m) <= 53) by lia.
  pose proof (pow2_le (digits (Zpos m)) 53) as Hle.
  rewrite two53_pow. split; [lia |]. split; [lia |].
  destruct (Z.eq_dec e (-1074)); [now right | left].
  assert (E : digits (Zpos m) - 1 = 52) by lia.
  rewrite E in Hlo. rewrite two52_pow. lia.
Qed.

Lemma pack_le (p1 p2 : Z * Z) :
  0 <= fst p2 -> pair_le p1 p2 ->
  (pack false p1 <=? pack false p2)%f64 = true.
Proof.
  destruct p1 as [q1 E1], p2 as [q2 E2]. unfold pair_le, pack.
  cbn [fst snd]. intros H2 H. apply leb_iff.
  destruct q1 as [| q1 | q1]; try lia; destruct q2 as [| q2 | q2]; try lia;
    repeat match goal with
           | |- context [?a <=? ?b] => destruct (Z.leb_spec a b)
           end;
    cbn [F64.is_nan ord lex_le]; repeat split; lia.
Qed.

Lemma pack_class (p : Z * Z) :
  fst p = 0 \/ canon (fst p) (snd p) ->
  pack false p = S754_zero false \/ pack false p = S754_infinity false
  \/ canonical_pos (pack false p).
Proof.
  destruct p as [q E]. unfold pack. cbn [fst snd].
  intros [-> | H]; [now left |].
  destruct q as [| q | q]; try (unfold canon in H; lia).
  destruct (Z.leb_spec E 971); [| auto].
  right; right. exists q, E. auto.
Qed.

Lemma canon_lex_dle (q1 E1 q2 E2 : Z) :
  canon q1 E1 -> canon q2 E2 ->
  E1 < E2 \/ (E1 = E2 /\ q1 <= q2) -> dle q1 E1 q2 E2.
Proof.
  unfold canon, two52, two53. intros H1 H2 H.
  apply (dle_at E1); [lia | lia |].
  rewrite Z.sub_diag, Z.pow_0_r.
  destruct H as [H | [-> H]].
  - pose proof (pow2_le 1 (E2 - E1)) as Hp. rewrite Z.pow_1_r in Hp. nia.
  - rewrite Z.sub_diag, Z.pow_0_r. lia.
Qed.

Lemma leb_canonical_dle (x y : float) :
  canonical_pos x -> canonical_pos y -> (x <=? y)%f64 = true ->
  exists mx ex my ey,
    x = S754_finite false mx ex /\ y = S754_finite false my ey
    /\ dle (Zpos mx) ex (Zpos my) ey.
Proof.
  intros (mx & ex & -> & Hx & _) (my & ey & -> & Hy & _) H.
  exists mx, ex, my, ey. split; [reflexivity |]. split; [reflexivity |].
  apply leb_iff in H. destruct H as (_ & _ & H). cbn [ord lex_le] in H.
  apply canon_lex_dle; try assumption. lia.
Qed.

(** ** Multiplication and addition of positive numbers *)

Lemma mul_exact (ma mx : positive) (ea ex : Z) :
  two52 <= Zpos ma ->
  (S754_finite false ma ea * S754_finite false mx ex)%f64
  = pack false (rnd_pair (Zpos ma * Zpos mx) (ea + ex))
  /\ 0 <= shift_of (Zpos ma * Zpos mx) (ea + ex).
Proof.
  intros Ha.
  assert (Hn : 0 <= shift_of (Zpos ma * Zpos mx) (ea + ex)).
  { pose proof (digits_le two52 (Zpos ma * Zpos mx)) as D.
    change (digits two52) with 53 in D.
    unfold shift_of, fexp64. unfold two52 in *. nia. }
  split; [| exact Hn].
  unfold F64.mul, SFmul. cbn [xorb]. rewrite Pos2Z.inj_mul.
  apply binary_round_aux_exact; [lia | exact Hn].
Qed.

Lemma dle_mul (a m1 e1 m2 e2 ea : Z) :
  0 < a -> dle m1 e1 m2 e2 -> dle (a * m1) (ea + e1) (a * m2) (ea + e2).
Proof.
  intros Ha H. unfold dle in *. rewrite Z.add_min_distr_l.
  replace (ea + e1 - (ea + Z.min e1 e2)) with (e1 - Z.min e1 e2) by lia.
  replace (ea + e2 - (ea + Z.min e1 e2)) with (e2 - Z.min e1 e2) by lia.
  nia.
Qed.

Lemma rnd_pair_fst_nonneg (m e : Z) :
  0 < m -> 0 <= shift_of m e -> 0 <= fst (rnd_pair m e).
Proof.
  intros Hm Hn. destruct (rnd_pair_canon m e Hm Hn) as [-> | H]; [lia |].
  unfold canon in H. lia.
Qed.

Lemma mul_mono (a x y : float) :
  normal_pos a -> canonical_pos x -> canonical_pos y ->
  (x <=? y)%f64 = true -> (a * x <=? a * y)%f64 = true.
Proof.
  intros (ma & ea & -> & Ha) Hx Hy H.
  destruct (leb_canonical_dle x y Hx Hy H)
    as (mx & ex & my & ey & -> & -> & Hd).
  destruct (mul_exact ma mx ea ex Ha) as [-> Hnx].
  destruct (mul_exact ma my ea ey Ha) as [-> Hny].
  apply pack_le.
  - apply rnd_pair_fst_nonneg; [lia | assumption].
  - apply rnd_pair_mono; try assumption; try lia.
    apply dle_mul; [lia | assumption].
Qed.

Lemma mul_class (a x : float) :
  normal_pos a -> canonical_pos x ->
  (a * x)%f64 = S754_zero false \/ (a * x)%f64 = S754_infinity false
  \/ canonical_pos (a * x)%f64.
Proof.
  intros (ma & ea & -> & Ha) (mx & ex & -> & _).
  destruct (mul_exact ma mx ea ex Ha) as [-> Hn].
  apply pack_class, rnd_pair_canon; [lia | assumption].
Qed.

Lemma iter_xO (m d : positive) : Zpos (Pos.iter xO m d) = Zpos m * 2 ^ Zpos d.
Proof.
  induction d as [| d IH] using Pos.peano_ind.
  - cbn [Pos.iter]. rewrite Z.pow_1_r. lia.
  - rewrite Pos.iter_succ, Pos2Z.inj_xO, IH, Pos2Z.inj_succ.
    rewrite <- Z.add_1_r, pow2_succ by lia. lia.
Qed.

Lemma shl_align_spec (m : positive) (e e' : Z) :
  e' <= e ->
  Zpos (fst (shl_align m e e')) = Zpos m * 2 ^ (e - e')
  /\ snd (shl_align m e e') = e'.
Proof.
  intros H. unfold shl_align.
  destruct (e' - e) as [| d | d] eqn:E; try lia; cbn [fst snd].
  - replace (e - e') with 0 by lia. rewrite Z.pow_0_r. lia.
  - rewrite iter_xO. replace (e - e') with (Zpos d) by lia. auto.
Qed.

Lemma shl_align_id (m : positive) (e e' : Z) :
  e <= e' -> shl_align m e e' = (m, e).
Proof.
  intros H. unfold shl_align. destruct (e' - e) eqn:E; try reflexivity; lia.
Qed.

Lemma binary_round_exact (m : positive) (e : Z) :
  exists mz ez,
    binary_round F64.prec F64.emax false m e = pack false (rnd_pair mz ez)
    /\ 0 < mz /\ 0 <= shift_of mz ez /\ ez <= e
    /\ mz = Zpos m * 2 ^ (e - ez).
Proof.
  unfold binary_round. rewrite fexp64_eq.
  change (Zpos (digits2_pos m)) with (digits (Zpos m)).
  set (g := fexp64 (digits (Zpos m) + e)).
  destruct (Z_lt_le_dec g e) as [Hg | Hg].
  - destruct (shl_align_spec m e g) as [Hm He]; [lia |].
    destruct (shl_align m e g) as [mz ez]. cbn [fst snd] in Hm, He.
    subst ez. exists (Zpos mz), g.
    assert (Hn : shift_of (Zpos mz) g = 0).
    { unfold shift_of. rewrite Hm, digits_mul_pow by lia.
      replace (digits (Zpos m) + (e - g) + g) with (digits (Zpos m) + e)
        by lia. fold g. lia. }
    split; [apply binary_round_aux_exact; lia |].
    repeat split; lia.
  - rewrite shl_align_id by assumption.
    exists (Zpos m), e.
    assert (Hn : 0 <= shift_of (Zpos m) e) by (unfold shift_of; fold g; lia).
    split; [apply binary_round_aux_exact; lia |].
    rewrite Z.sub_diag, Z.pow_0_r. repeat split; lia.
Qed.

Lemma add_exact (ma my : positive) (ea ey : Z) :
  exists mz ez,
    (S754_finite false ma ea + S754_finite false my ey)%f64
    = pack false (rnd_pair mz ez)
    /\ 0 < mz /\ 0 <= shift_of mz ez /\ ez <= ea /\ ez <= ey
    /\ mz = Zpos ma * 2 ^ (ea - ez) + Zpos my * 2 ^ (ey - ez).
Proof.
  unfold F64.add, SFadd. cbn [cond_Zopp].
  set (ez0 := Z.min ea ey).
  destruct (shl_align_spec ma ea ez0) as [Ha _]; [subst ez0; lia |].
  destruct (shl_align_spec my ey ez0) as [Hy _]; [subst ez0; lia |].
  set (a' := fst (shl_align ma ea ez0)) in *.
  set (y' := fst (shl_align my ey ez0)) in *.
  change (Zpos a' + Zpos y') with (Zpos (a' + y')).
  cbn [binary_normalize].
  destruct (binary_round_exact (a' + y') ez0)
    as (mz & ez & -> & Hmz & Hn & Hez & Hv).
  exists mz, ez. split; [reflexivity |].
  repeat (split; [assumption || (subst ez0; lia) |]).
  rewrite Hv, Pos2Z.inj_add, Ha, Hy.
  replace (ea - ez) with (ea - ez0 + (ez0 - ez)) by lia.
  replace (ey - ez) with (ey - ez0 + (ez0 - ez)) by lia.
  rewrite !Z.pow_add_r by (subst ez0; lia). lia.
Qed.

Lemma canon_shift (m e : Z) : canon m e -> shift_of m e = 0.
Proof.
  unfold canon. intros (Hm & He & H).
  destruct (digits_bounds m) as (Hd & Hlo & Hhi); [lia |].
  assert (Hd53 : digits m - 1 < 53)
    by (apply pow2_lt_inv; try lia; rewrite <- two53_pow; lia).
  unfold shift_of, fexp64. destruct H as [H | ->]; [| lia].
  assert (52 < digits m)
    by (apply pow2_lt_inv; try lia; rewrite <- two52_pow; lia).
  lia.
Qed.

Lemma canon_rnd_pair (m e : Z) : canon m e -> rnd_pair m e = (m, e).
Proof.
  intros H. unfold rnd_pair, carry. rewrite (canon_shift m e H).
  rewrite Z.pow_0_r.
  assert (E : F64.round_half_even m 1 = m).
  { pose proof (rhe_exact m 1) as E. rewrite Z.mul_1_r in E. apply E. lia. }
  rewrite !E. unfold canon in H.
  destruct (Z.eqb_spec m two53); [lia |]. now rewrite Z.add_0_r.
Qed.

Lemma canonical_pos_pack (x : float) :
  canonical_pos x ->
  exists m e, x = S754_finite false m e /\ canon (Zpos m) e
              /\ x = pack false (rnd_pair (Zpos m) e).
Proof.
  intros (m & e & -> & Hc & He). exists m, e.
  split; [reflexivity |]. split; [assumption |].
  rewrite (canon_rnd_pair _ _ Hc). unfold pack. cbn [fst snd].
  destruct (Z.leb_spec e 971); [reflexivity | lia].
Qed.

Lemma add_ge_l (a y : float) :
  canonical_pos a -> canonical_pos y -> (a <=? a + y)%f64 = true.
Proof.
  intros Ha (my & ey & -> & _).
  destruct (canonical_pos_pack a Ha) as (ma & ea & -> & Hc & E).
  destruct (add_exact ma my ea ey) as (mz & ez & -> & Hmz & Hn & H1 & H2 & Hv).
  rewrite E. apply pack_le.
  - apply rnd_pair_fst_nonneg; assumption.
  - apply rnd_pair_mono; try assumption; try lia.
    + rewrite (canon_shift _ _ Hc). lia.
    + apply (dle_at ez); [assumption | lia |].
      rewrite Z.sub_diag, Z.pow_0_r, Hv.
      pose proof (pow2_pos (ey - ez)). nia.
Qed.

Lemma add_mono (a x y : float) :
  canonical_pos a -> canonical_pos x -> canonical_pos y ->
  (x <=? y)%f64 = true -> (a + x <=? a + y)%f64 = true.
Proof.
  intros (ma & ea & -> & _) Hx Hy H.
  destruct (leb_canonical_dle x y Hx Hy H)
    as (mx & ex & my & ey & -> & -> & Hd).
  destruct (add_exact ma mx ea ex)
    as (m1 & e1 & -> & Hm1 & Hn1 & Ha1 & Hx1 & Hv1).
  destruct (add_exact ma my ea ey)
    as (m2 & e2 & -> & Hm2 & Hn2 & Ha2 & Hy2 & Hv2).
  apply pack_le.
  - apply rnd_pair_fst_nonneg; assumption.
  - apply rnd_pair_mono; try assumption.
    set (k := Z.min e1 e2).
    apply (dle_at k); [subst k; lia | subst k; lia |].
    apply (dle_at k) in Hd; [| subst k; lia | subst k; lia].
    rewrite Hv1, Hv2, !Z.mul_add_distr_r, <- !Z.mul_assoc, <- !Z.pow_add_r
      by (subst k; lia).
    replace (ea - e1 + (e1 - k)) with (ea - k) by lia.
    replace (ex - e1 + (e1 - k)) with (ex - k) by lia.
    replace (ea - e2 + (e2 - k)) with (ea - k) by lia.
    replace (ey - e2 + (e2 - k)) with (ey - k) by lia.
    lia.
Qed.

Lemma add_class (a y : float) :
  canonical_pos a -> canonical_pos y ->
  (a + y)%f64 = S754_zero false \/ (a + y)%f64 = S754_infinity false
  \/ canonical_pos (a + y)%f64.
Proof.
  intros (ma & ea & -> & _) (my & ey & -> & _).
  destruct (add_exact ma my ea ey) as (mz & ez & -> & Hmz & Hn & _).
  apply pack_class, rnd_pair_canon; assumption.
Qed.

(** ** The variation and the product before it *)

Lemma is_normal_pos_spec (x : float) :
  is_normal_pos x = true -> normal_pos x /\ canonical_pos x.
Proof.
  destruct x as [| | | [|] m e]; try discriminate. cbn [is_normal_pos].
  intros H. repeat (apply andb_prop in H; destruct H as [H ?]).
  apply Z.leb_le in H. apply Z.ltb_lt in H2.
  apply Z.leb_le in H0, H1.
  split; exists m, e; (split; [reflexivity |]); [assumption |].
  unfold canon. lia.
Qed.

Lemma unit_draw_cases (u : float) :
  unit_draw u ->
  (exists s, u = S754_zero s)
  \/ (canonical_pos u /\ (u <=? f1_0)%f64 = true).
Proof.
  intros (Hv & H0 & H1).
  destruct u as [s | [|] | | [|] m e]; try discriminate.
  - left. now exists s.
  - right. split; [now apply valid_canonical_pos | now apply ltb_leb].
Qed.

Lemma unit_draw_nonneg (u : float) : unit_draw u -> nonneg u = true.
Proof.
  intros H. destruct (unit_draw_cases u H) as [[s ->] | [(m & e & -> & _) _]];
    reflexivity.
Qed.

Lemma f0_2_normal : is_normal_pos f0_2 = true.
Proof. vm_compute. reflexivity. Qed.

Lemma f0_9_normal : is_normal_pos f0_9 = true.
Proof. vm_compute. reflexivity. Qed.

Lemma f1_0_normal : is_normal_pos f1_0 = true.
Proof. vm_compute. reflexivity. Qed.

Lemma f1_1_normal : is_normal_pos f1_1 = true.
Proof. vm_compute. reflexivity. Qed.

Lemma jitter_zero (s : bool) : jitter (S754_zero s) = f0_9.
Proof. destruct s; vm_compute; reflexivity. Qed.

Lemma jitter_bounds (u : float) :
  unit_draw u ->
  canonical_pos (jitter u)
  /\ (f0_9 <=? jitter u)%f64 = true /\ (jitter u <=? f1_1)%f64 = true.
Proof.
  intros Hu.
  destruct (is_normal_pos_spec _ f0_2_normal) as [N02 C02].
  destruct (is_normal_pos_spec _ f0_9_normal) as [N09 C09].
  destruct (is_normal_pos_spec _ f1_0_normal) as [N10 C10].
  destruct (is_normal_pos_spec _ f1_1_normal) as [N11 C11].
  destruct (unit_draw_cases u Hu) as [[s ->] | [Cu Hu1]].
  { rewrite jitter_zero. split; [assumption |].
    split; vm_compute; reflexivity. }
  unfold jitter. rewrite (mul_comm u f0_2).
  pose proof (mul_mono f0_2 u f1_0 N02 Cu C10 Hu1) as Hy.
  replace (f0_2 * f1_0)%f64 with f0_2 in Hy by (vm_compute; reflexivity).
  destruct (mul_class f0_2 u N02 Cu) as [E | [E | Cy]].
  - rewrite E. replace (f0_9 + S754_zero false)%f64 with f0_9
      by (vm_compute; reflexivity).
    split; [assumption |]. split; vm_compute; reflexivity.
  - rewrite E in Hy. vm_compute in Hy. discriminate.
  - pose proof (add_ge_l f0_9 _ C09 Cy) as Hlo.
    pose proof (add_mono f0_9 _ f0_2 C09 Cy C02 Hy) as Hhi.
    replace (f0_9 + f0_2)%f64 with f1_1 in Hhi by (vm_compute; reflexivity).
    split; [| split; assumption].
    destruct (add_class f0_9 _ C09 Cy) as [E | [E | Cj]];
      [| | assumption].
    + rewrite E in Hlo. vm_compute in Hlo. discriminate.
    + rewrite E in Hhi. vm_compute in Hhi. discriminate.
Qed.

Lemma weekend_factor_In (day : string) :
  In (weekend_factor day) weekend_factors.
Proof.
  unfold weekend_factor, weekend_factors.
  destruct (list_mem day _); cbn [In]; auto.
Qed.

Lemma raw_traffic_In (place day : string) (hour : Z) :
  In (raw_traffic place day hour) raw_values.
Proof.
  unfold raw_traffic, raw_values.
  apply in_flat_map. exists (dict_get base_traffic place 1500).
  split; [apply base_In |].
  apply in_flat_map. exists (weekend_factor day).
  split; [apply weekend_factor_In |].
  apply in_flat_map. exists (hour_multiplier hour).
  split; [apply hour_multiplier_In |].
  apply in_map_iff. exists (day_factor day).
  split; [reflexivity | apply day_factor_In].
Qed.

Lemma raw_values_normal : forallb is_normal_pos raw_values = true.
Proof. vm_compute. reflexivity. Qed.

Lemma raw_traffic_normal (place day : string) (hour : Z) :
  normal_pos (raw_traffic place day hour)
  /\ canonical_pos (raw_traffic place day hour).
Proof.
  apply is_normal_pos_spec.
  pose proof raw_values_normal as H. rewrite forallb_forall in H.
  apply H, raw_traffic_In.
Qed.

Lemma traffic_nonneg (place day : string) (hour : Z) (u : float) :
  nonneg u = true -> nonneg (traffic_with_draw place day hour u) = true.
Proof.
  intros Hu. unfold traffic_with_draw. apply round2_nonneg.
  destruct (raw_traffic_normal place day hour) as [(m & e & -> & _) _].
  apply mul_nonneg; [reflexivity |]. unfold jitter.
  assert (E : f0_9 = S754_finite false 8106479329266893 (-53))
    by (vm_compute; reflexivity).
  rewrite E. apply add_nonneg. rewrite mul_comm.
  assert (E2 : f0_2 = S754_finite false 7205759403792794 (-55))
    by (vm_compute; reflexivity).
  rewrite E2. now apply mul_nonneg.
Qed.

Lemma nonneg_leb_zero (x : float) :
  nonneg x = true -> (F64.of_Z 0 <=? x)%f64 = true.
Proof. destruct x as [| [|] | | [|] m e]; try discriminate; reflexivity. Qed.

Lemma nonneg_not_nan (x : float) : nonneg x = true -> F64.is_nan x = false.
Proof. destruct x as [| [|] | | [|] m e]; try discriminate; reflexivity. Qed.

Lemma jittered_envelope (place day : string) (hour : Z) (u : float) :
  unit_draw u ->
  (f0_9 * raw_traffic place day hour
   <=? raw_traffic place day hour * jitter u)%f64 = true
  /\ (raw_traffic place day hour * jitter u
      <=? f1_1 * raw_traffic place day hour)%f64 = true.
Proof.
  intros Hu. destruct (jitter_bounds u Hu) as (Cj & Hlo & Hhi).
  destruct (raw_traffic_normal place day hour) as [Nr Cr].
  destruct (is_normal_pos_spec _ f0_9_normal) as [_ C09].
  destruct (is_normal_pos_spec _ f1_1_normal) as [_ C11].
  rewrite (mul_comm f0_9), (mul_comm f1_1).
  split; apply mul_mono; assumption.
Qed.

(** ** Decimal strings with two digits, read back *)

Lemma carry_le (M1 G1 M2 G2 : Z) :
  0 <= M1 <= two53 -> 0 <= M2 <= two53 -> -1074 <= G1 <= G2 ->
  (G1 = G2 -> M1 <= M2) -> (G2 <> -1074 -> two52 <= M2) ->
  pair_le (carry M1 G1) (carry M2 G2).
Proof.
  unfold carry, pair_le, two52, two53. intros H1 H2 HG Heq Hn.
  destruct (Z.eqb_spec M1 9007199254740992);
    destruct (Z.eqb_spec M2 9007199254740992); cbn [fst snd]; lia.
Qed.

Lemma new_location_100 (q r : Z) :
  0 <= r < 100 ->
  shr_frac (q * 100 + r) 100 (shr_record_of_loc q (new_location 100 r)).
Proof.
  intros Hr. unfold shr_frac. rewrite shr_record_of_loc_m.
  assert (Ed : (q * 100 + r) / 100 = q)
    by (symmetry; apply (Z.div_unique _ _ _ r); lia).
  assert (Em : (q * 100 + r) mod 100 = r)
    by (symmetry; apply (Z.mod_unique _ _ q); lia).
  rewrite Ed, Em. split; [reflexivity |].
  change (new_location 100 r) with (new_location_even 100 r).
  unfold new_location_even.
  destruct (Z.eqb_spec r 0);
    [cbn [shr_record_of_loc shr_r shr_s]; assumption |].
  destruct (Z.compare_spec (2 * r) 100);
    cbn [shr_record_of_loc shr_r shr_s]; lia.
Qed.

Lemma div_core_100 (n : positive) (s : Z) :
  s = - Z.min (fexp64 (digits (Zpos n) - 7)) 0 ->
  SFdiv_core_binary F64.prec F64.emax (Zpos n) 0 100 0
  = (Zpos n * 2 ^ s / 100, - s, new_location 100 ((Zpos n * 2 ^ s) mod 100)).
Proof.
  intros Hs. unfold SFdiv_core_binary. rewrite fexp64_eq.
  change (Zdigits2 100) with 7. fold (digits (Zpos n)).
  rewrite !Z.add_0_r. change (0 - 0) with 0.
  replace (Z.min (fexp64 (digits (Zpos n) - 7)) 0) with (- s) by lia.
  replace (0 - - s) with s by lia.
  assert (Hs0 : 0 <= s) by lia.
  assert (Em : match s with
               | 0 => Zpos n
               | Zpos _ => Z.shiftl (Zpos n) s
               | Zneg _ => 0
               end = Zpos n * 2 ^ s).
  { destruct s as [| p | p]; [| | lia].
    - rewrite Z.pow_0_r. lia.
    - apply Z.shiftl_mul_pow2. lia. }
  rewrite Em. unfold Z.div, Z.modulo.
  destruct (Z.div_eucl (Zpos n * 2 ^ s) 100) as [q r]. reflexivity.
Qed.

Lemma of_ratio_100 (n : positive) :
  exists s dq,
    0 <= s /\ 53 <= dq
    /\ 100 * 2 ^ (dq - 1) <= Zpos n * 2 ^ s < 100 * 2 ^ dq
    /\ F64.of_ratio false n 100
       = pack false
           (carry (F64.round_half_even (Zpos n * 2 ^ s)
                     (100 * 2 ^ (dq - 53))) (dq - 53 - s))
    /\ -1074 < dq - 53 - s
    /\ two52 <= F64.round_half_even (Zpos n * 2 ^ s) (100 * 2 ^ (dq - 53))
       <= two53.
Proof.
  set (s := - Z.min (fexp64 (digits (Zpos n) - 7)) 0).
  destruct (digits_bounds (Zpos n)) as (Hd & Hlo & Hhi); [lia |].
  assert (Hs : 0 <= s /\ 60 - digits (Zpos n) <= s <= 59)
    by (subst s; unfold fexp64; lia).
  set (N := Zpos n * 2 ^ s).
  assert (HN : 2 ^ 59 <= N).
  { subst N. pose proof (pow2_le 59 (digits (Zpos n) - 1 + s)) as H.
    rewrite Z.pow_add_r in H by lia.
    pose proof (pow2_pos s). nia. }
  pose proof (Z.div_mod N 100) as DM.
  pose proof (Z.mod_pos_bound N 100) as B.
  set (q := N / 100) in *. set (r := N mod 100) in *.
  assert (Hq : two52 <= q).
  { unfold two52. change (2 ^ 59) with 576460752303423488 in HN. lia. }
  destruct (digits_bounds q) as (Hdq & Hqlo & Hqhi); [unfold two52 in *; lia |].
  assert (Hdq53 : 53 <= digits q).
  { pose proof (digits_le two52 q) as H. change (digits two52) with 53 in H.
    unfold two52 in *. lia. }
  assert (Hsh : shift_of q (- s) = digits q - 53)
    by (unfold shift_of, fexp64; lia).
  exists s, (digits q).
  split; [lia |]. split; [assumption |].
  split; [fold N; lia |].
  unfold F64.of_ratio. rewrite (div_core_100 n s eq_refl).
  fold N q r.
  destruct (binary_round_aux_frac false N 100 q (- s)
              (new_location 100 r)) as [E HM].
  - lia.
  - lia.
  - unfold two52 in *. lia.
  - replace N with (q * 100 + r) by lia. apply new_location_100. lia.
  - lia.
  - rewrite Hsh in E, HM.
    replace (- s + (digits q - 53)) with (digits q - 53 - s) in E by lia.
    split; [exact E |]. split; [lia |]. split; [| lia].
    apply rhe_ge.
    + pose proof (pow2_pos (digits q - 53)). lia.
    + replace (digits q - 1) with (52 + (digits q - 53)) in Hqlo by lia.
      rewrite Z.pow_add_r in Hqlo by lia. rewrite two52_pow. nia.
Qed.

Lemma of_ratio_100_mono (n1 n2 : positive) :
  (n1 <= n2)%positive ->
  (F64.of_ratio false n1 100 <=? F64.of_ratio false n2 100)%f64 = true.
Proof.
  intros Hn.
  destruct (of_ratio_100 n1) as (s1 & d1 & Hs1 & Hd1 & Hb1 & -> & HG1 & HM1).
  destruct (of_ratio_100 n2) as (s2 & d2 & Hs2 & Hd2 & Hb2 & -> & HG2 & HM2).
  pose proof (pow2_pos s1 Hs1) as P1. pose proof (pow2_pos s2 Hs2) as P2.
  assert (Hd : d1 - s1 <= d2 - s2).
  { assert (H : 2 ^ (d1 - 1 + s2) < 2 ^ (d2 + s1)).
    { rewrite !Z.pow_add_r by lia.
      pose proof (pow2_pos (d1 - 1)). pose proof (pow2_pos d2).
      assert (Zpos n1 * 2 ^ s1 * 2 ^ s2 <= Zpos n2 * 2 ^ s2 * 2 ^ s1) by nia.
      nia. }
    apply pow2_lt_inv in H; lia. }
  apply pack_le.
  - unfold carry.
    match goal with
    | |- context [?a =? two53] => destruct (Z.eqb_spec a two53)
    end; cbn [fst]; unfold two52 in *; lia.
  - apply carry_le;
      [unfold two52 in *; lia | unfold two52 in *; lia | lia | | lia].
    intros E.
    assert (Ed : d2 - 53 = d1 - 53 + (s2 - s1)) by lia.
    pose proof (pow2_pos (d1 - 53)) as Q1.
    pose proof (pow2_pos (d2 - 53)) as Q2.
    rewrite <- (rhe_scale (Zpos n1 * 2 ^ s1) (100 * 2 ^ (d1 - 53)) (2 ^ s2))
      by lia.
    rewrite <- (rhe_scale (Zpos n2 * 2 ^ s2) (100 * 2 ^ (d2 - 53)) (2 ^ s1))
      by lia.
    replace (100 * 2 ^ (d2 - 53) * 2 ^ s1)
      with (100 * 2 ^ (d1 - 53) * 2 ^ s2).
    + apply rhe_mono; nia.
    + rewrite <- !Z.mul_assoc, <- !Z.pow_add_r by lia.
      do 2 f_equal. lia.
Qed.

(** ** [round(x, 2)] is monotone *)

Lemma hundredths_at (m : positive) (e k : Z) :
  k <= e -> k <= 0 ->
  F64.hundredths m e
  = F64.round_half_even (Zpos m * 100 * 2 ^ (e - k)) (2 ^ (- k)).
Proof.
  intros H1 H2. pose proof (pow2_pos (- k)) as HP.
  unfold F64.hundredths. destruct e as [| p | p].
  - rewrite Z.pow_0_r, Z.mul_1_r. change (0 - k) with (- k).
    rewrite rhe_exact by lia. reflexivity.
  - replace (Zpos p - k) with (Zpos p + - k) by lia.
    rewrite Z.pow_add_r, Z.mul_assoc by lia.
    rewrite rhe_exact by lia. reflexivity.
  - replace (2 ^ (- k)) with (2 ^ Zpos p * 2 ^ (Zneg p - k))
      by (rewrite <- Z.pow_add_r by lia; f_equal; lia).
    apply eq_sym, rhe_scale; apply pow2_pos; lia.
Qed.

Lemma hundredths_nonneg (m : positive) (e : Z) : 0 <= F64.hundredths m e.
Proof.
  rewrite (hundredths_at m e (Z.min e 0)) by lia.
  pose proof (pow2_pos (- Z.min e 0)). pose proof (pow2_pos (e - Z.min e 0)).
  apply rhe_ge; nia.
Qed.

Lemma hundredths_mono (m1 m2 : positive) (e1 e2 : Z) :
  dle (Zpos m1) e1 (Zpos m2) e2 ->
  F64.hundredths m1 e1 <= F64.hundredths m2 e2.
Proof.
  intros H. set (k := Z.min (Z.min e1 e2) 0).
  apply (dle_at k) in H; [| subst k; lia | subst k; lia].
  rewrite (hundredths_at m1 e1 k), (hundredths_at m2 e2 k)
    by (subst k; lia).
  apply rhe_mono; [apply pow2_pos; subst k; lia | lia].
Qed.

Lemma round2_mono (x y : float) :
  canonical_pos x -> canonical_pos y -> (x <=? y)%f64 = true ->
  (F64.round2 x <=? F64.round2 y)%f64 = true.
Proof.
  intros Hx Hy H.
  destruct (leb_canonical_dle x y Hx Hy H)
    as (mx & ex & my & ey & -> & -> & Hd).
  pose proof (hundredths_mono _ _ _ _ Hd) as Hh.
  pose proof (hundredths_nonneg mx ex) as H1.
  unfold F64.round2.
  destruct (F64.hundredths mx ex) as [| p1 | p1]; [| | lia].
  - change (S754_zero false) with (F64.of_Z 0) at 1.
    apply nonneg_leb_zero.
    destruct (F64.hundredths my ey); try reflexivity.
    apply rounded_nonneg_nonneg, of_ratio_nonneg.
  - destruct (F64.hundredths my ey) as [| p2 | p2]; try lia.
    apply of_ratio_100_mono. lia.
Qed.

Lemma canonical_pos_above_zero (x : float) :
  canonical_pos x -> (x <=? S754_zero false)%f64 = false.
Proof. intros (m & e & -> & _). reflexivity. Qed.

Lemma canonical_pos_below_inf (x : float) :
  canonical_pos x -> (S754_infinity false <=? x)%f64 = false.
Proof. intros (m & e & -> & _). reflexivity. Qed.

Lemma envelope_check_true : envelope_check = true.
Proof. vm_compute. reflexivity. Qed.

Lemma rounded_envelope (place day : string) (hour : Z) (u : float) :
  unit_draw u ->
  (F64.round2 (f0_9 * raw_traffic place day hour)
   <=? traffic_with_draw place day hour u)%f64 = true
  /\ (traffic_with_draw place day hour u
      <=? F64.round2 (f1_1 * raw_traffic place day hour))%f64 = true.
Proof.
  intros Hu.
  destruct (jittered_envelope place day hour u Hu) as [Hlo Hhi].
  destruct (jitter_bounds u Hu) as (Cj & _ & _).
  destruct (raw_traffic_normal place day hour) as [Nr Cr].
  pose proof envelope_check_true as C. unfold envelope_check in C.
  rewrite forallb_forall in C.
  specialize (C _ (raw_traffic_In place day hour)).
  apply andb_prop in C. destruct C as [C1 C2].
  apply is_normal_pos_spec in C1, C2.
  destruct C1 as [_ C1], C2 as [_ C2].
  rewrite (mul_comm f0_9), (mul_comm f1_1) in *.
  unfold traffic_with_draw.
  assert (Ct : canonical_pos (raw_traffic place day hour * jitter u)%f64).
  { destruct (mul_class _ _ Nr Cj) as [E | [E | Ct]]; [| | assumption].
    - rewrite E, canonical_pos_above_zero in Hlo by assumption.
      discriminate.
    - rewrite E, canonical_pos_below_inf in Hhi by assumption.
      discriminate. }
  split; apply round2_mono; assumption.
Qed.

(** ** C3: the range report *)

Lemma max_loop_split {A : Type} (key : A -> float) (l pre mid : list A)
  (best : A) :
  (forall x, In x (pre ++ best :: mid ++ l) -> F64.is_nan (key x) = false) ->
  (forall x, In x pre -> (key x <? key best)%f64 = true) ->
  (forall x, In x mid -> (key x <=? key best)%f64 = true) ->
  exists pre' post',
    pre ++ best :: mid ++ l = pre' ++ max_loop key best l :: post'
    /\ (forall x, In x pre' ->
        (key x <? key (max_loop key best l))%f64 = true)
    /\ (forall x, In x post' ->
        (key x <=? key (max_loop key best l))%f64 = true).
Proof.
  revert pre mid best.
  induction l as [| x l IH]; intros pre mid best Hnan Hpre Hmid.
  - exists pre, mid. rewrite app_nil_r. auto.
  - cbn [max_loop]. unfold F64.gtb.
    destruct (key best <? key x)%f64 eqn:E.
    + destruct (IH (pre ++ best :: mid) [] x) as (pre' & post' & Hl & H).
      * intros y Hy. apply Hnan. rewrite <- app_assoc in Hy. exact Hy.
      * intros y Hy. apply in_app_or in Hy. destruct Hy as [Hy | [<- | Hy]].
        -- eapply leb_ltb_trans; [apply ltb_leb, Hpre, Hy | exact E].
        -- exact E.
        -- eapply leb_ltb_trans; [apply Hmid, Hy | exact E].
      * intros y [].
      * exists pre', post'. split; [| exact H].
        rewrite <- Hl, <- app_assoc. reflexivity.
    + destruct (IH pre (mid ++ [x]) best) as (pre' & post' & Hl & H).
      * intros y Hy. apply Hnan. rewrite <- app_assoc in Hy. exact Hy.
      * exact Hpre.
      * intros y Hy. apply in_app_or in Hy. destruct Hy as [Hy | [<- | []]].
        -- apply Hmid, Hy.
        -- apply ltb_false_leb; [| | exact E]; apply Hnan;
             apply in_or_app; right.
           ++ right. apply in_or_app. right. now left.
           ++ now left.
      * exists pre', post'. split; [| exact H].
        rewrite <- Hl, <- app_assoc. reflexivity.
Qed.

Lemma py_max_first {A : Type} (key : A -> float) (l : list A) (p : A) :
  (forall x, In x l -> F64.is_nan (key x) = false) ->
  py_max key l = Some p ->
  exists pre post,
    l = pre ++ p :: post
    /\ (forall x, In x pre -> (key x <? key p)%f64 = true)
    /\ (forall x, In x post -> (key x <=? key p)%f64 = true).
Proof.
  intros Hnan H. destruct l as [| x l]; [discriminate |].
  injection H as <-.
  destruct (max_loop_split key l [] [] x) as (pre & post & Hl & H).
  - exact Hnan.
  - intros y [].
  - intros y [].
  - exists pre, post. split; [exact Hl | exact H].
Qed.

Lemma run_hours_nonneg place day l draws pos p :
  (forall i, unit_draw (draws i)) ->
  In p (run_hours place day l draws pos) ->
  nonneg (traffic_value p) = true.
Proof.
  intros Hd. revert pos. induction l as [| h l IH]; intros pos; cbn [run_hours].
  - intros [].
  - intros [<- | H]; [| eapply IH; exact H].
    cbn [hourly traffic_value]. apply traffic_nonneg, unit_draw_nonneg, Hd.
Qed.




(** ** C6: the envelope *)

(** C6, as stated, fails: at Silk Board on a Monday at 12, with the draw
    [2^-20], the generator returns 3217.5, which is below [0.9 * raw]
    (3217.5000000000005). *)
Lemma envelope_fails_after_rounding :
  unit_draw draw_2_pow_minus_20
  /\ In "silk_board"%string (dict_keys TRAFFIC_LOCATIONS)
  /\ In "Monday"%string DAYS_OF_WEEK
  /\ fst (predict_traffic_value "silk_board" "Monday" 12
            (world_with_draw draw_2_pow_minus_20))
     = Ok (F64.of_ratio false 32175 10)
  /\ (f0_9 * raw_traffic "silk_board" "Monday" 12
      <=? F64.of_ratio false 32175 10)%f64 = false.
Proof.
  split; [repeat split |].
  split; [cbn; auto |]. split; [cbn; auto |].
  split; vm_compute; reflexivity.
Qed.

(** C6, amended: for every place, day and hour, and every draw in
    [[0.0, 1.0)], the generator returns a value that is not below zero and
    that lies within the envelope rounded like the value itself,
    [[round(0.9 * raw, 2), round(1.1 * raw, 2)]]; it is [round(t, 2)] of
    the varied product [t = raw * (0.9 + u * 0.2)], and [t] lies within
    [[0.9 * raw, 1.1 * raw]]. *)
Theorem generator_within_rounded_envelope
  (place day : string) (hour : Z) (w : World) :
  unit_draw (random_values w (random_pos w)) ->
  exists v t,
    fst (predict_traffic_value place day hour w) = Ok v
    /\ t = (raw_traffic place day hour
            * (f0_9 + random_values w (random_pos w) * f0_2))%f64
    /\ v = F64.round2 t
    /\ (F64.of_Z 0 <=? v)%f64 = true
    /\ (F64.round2 (f0_9 * raw_traffic place day hour) <=? v)%f64 = true
    /\ (v <=? F64.round2 (f1_1 * raw_traffic place day hour))%f64 = true
    /\ (f0_9 * raw_traffic place day hour <=? t)%f64 = true
    /\ (t <=? f1_1 * raw_traffic place day hour)%f64 = true.
Proof.
  intros Hu. eexists _, _. split; [reflexivity |]. split; [reflexivity |].
  split; [reflexivity |].
  split.
  { apply nonneg_leb_zero.
    apply (traffic_nonneg place day hour), unit_draw_nonneg, Hu. }
  destruct (rounded_envelope place day hour _ Hu) as [Hlo Hhi].
  destruct (jittered_envelope place day hour _ Hu) as [Hlo' Hhi'].
  repeat (split; [assumption |]). assumption.
Qed.

Lemma generator_within_rounded_envelope_witness :
  exists v,
    fst (predict_traffic_value "silk_board" "Monday" 12
           (world_with_draw draw_2_pow_minus_20)) = Ok v
    /\ (F64.round2 (f0_9 * raw_traffic "silk_board" "Monday" 12) <=? v)%f64
       = true
    /\ (v <=? F64.round2 (f1_1 * raw_traffic "silk_board" "Monday" 12))%f64
       = true.
Proof.
  destruct (generator_within_rounded_envelope "silk_board" "Monday" 12
              (world_with_draw draw_2_pow_minus_20))
    as (v & t & Hv & _ & _ & _ & Hlo & Hhi & _).
  - repeat split.
  - exists v. auto.
Defined.

(** * Further properties of the code *)

(** ** More on the handler: locations, stored documents, draws *)





(** X2: a successful request appends exactly one document to the stored
    predictions and leaves the earlier ones as they were; the document
    carries the place, day, peak hour and peak value of the response, the
    hours of the request, the next uuid and the next clock reading. *)
Theorem success_stores_one_document
  (request : TrafficPredictionRequest) (w w' : World)
  (resp : TrafficPredictionResponse) :
  predict_traffic_range request w = (Ok resp, w') ->
  exists doc,
    traffic_predictions w' = traffic_predictions w ++ [doc]
    /\ doc_id doc = uuid_values w (uuid_pos w)
    /\ doc_timestamp doc = now_values w (now_pos w)
    /\ doc_place doc = resp_place resp
    /\ doc_day doc = day request /\ resp_day resp = day request
    /\ doc_start_hour doc = start_hour request
    /\ doc_end_hour doc = end_hour request
    /\ doc_peak_hour doc = peak_hour resp
    /\ doc_peak_traffic doc = peak_traffic resp
    /\ doc_start_hour doc <= doc_peak_hour doc <= doc_end_hour doc.
Proof.
  intros H. apply predict_traffic_range_Ok in H.
  destruct H as (_ & _ & Hr & location & peak & _ & Hmax & -> & ->).
  exists (audit_doc request w peak). cbn.
  repeat (split; [reflexivity |]).
  apply py_max_In in Hmax.
  assert (Hin : In (hour peak) (hours_of request)).
  { rewrite <- (run_hours_map_hour (normalize_place (place request))
                  (day request) (hours_of request) (random_values w)
                  (random_pos w)).
    now apply in_map. }
  unfold hours_of in Hin. apply py_range_In in Hin. lia.
Qed.

Lemma success_stores_one_document_witness :
  exists doc,
    traffic_predictions
      (snd (predict_traffic_range sample_request sample_world)) = [doc]
    /\ doc_place doc = "silk_board"%string /\ doc_peak_hour doc = 8.
Proof.
  destruct (success_stores_one_document sample_request sample_world
              (snd (predict_traffic_range sample_request sample_world))
              sample_response)
    as (doc & Hs & _ & _ & Hp & _ & _ & _ & _ & Hh & _).
  - vm_compute. reflexivity.
  - exists doc. split; [exact Hs |].
    split; [rewrite Hp | rewrite Hh]; vm_compute; reflexivity.
Defined.

Lemma run_hours_nth_error place day l draws pos k :
  nth_error (run_hours place day l draws pos) k
  = option_map (fun h => hourly place day h (draws (k + pos)%nat))
      (nth_error l k).
Proof.
  revert pos k. induction l as [| h l IH]; intros pos k.
  - destruct k; reflexivity.
  - destruct k as [| k]; cbn [run_hours nth_error]; [reflexivity |].
    rewrite IH. now rewrite Nat.add_succ_r.
Qed.

Lemma py_range_nth_error (a b : Z) (k : nat) :
  (k < Z.to_nat (b - a))%nat ->
  nth_error (py_range a b) k = Some (a + Z.of_nat k).
Proof.
  intros Hk. unfold py_range. rewrite nth_error_map.
  rewrite nth_error_nth' with (d := 0%nat) by now rewrite length_seq.
  now rewrite seq_nth.
Qed.

(** X3: a successful request takes exactly one draw per hour, in the order
    of the hours: the prediction number [k] is for hour [start_hour + k]
    and its value is computed from the draw number [k] after the cursor;
    afterwards the cursor has moved by the number of predictions, and one
    uuid and one clock reading have been used. *)
Theorem each_hour_takes_the_next_draw
  (request : TrafficPredictionRequest) (w w' : World)
  (resp : TrafficPredictionResponse) :
  predict_traffic_range request w = (Ok resp, w') ->
  (forall k, (k < List.length (predictions resp))%nat ->
     exists p,
       nth_error (predictions resp) k = Some p
       /\ hour p = start_hour request + Z.of_nat k
       /\ traffic_value p
          = traffic_with_draw (normalize_place (place request))
              (day request) (start_hour request + Z.of_nat k)
              (random_values w (k + random_pos w)%nat))
  /\ random_pos w' = (List.length (predictions resp) + random_pos w)%nat
  /\ Z.of_nat (List.length (predictions resp))
     = end_hour request - start_hour request + 1
  /\ uuid_pos w' = S (uuid_pos w) /\ now_pos w' = S (now_pos w)
  /\ random_values w' = random_values w.
Proof.
  intros H. apply predict_traffic_range_Ok in H.
  destruct H as (_ & _ & Hr & location & peak & _ & _ & -> & ->).
  cbn [predictions success_response after_success random_pos uuid_pos
       now_pos random_values].
  rewrite run_hours_length.
  assert (Hlen : List.length (hours_of request)
                 = Z.to_nat (end_hour request + 1 - start_hour request))
    by apply py_range_length.
  split; [| repeat split; lia].
  intros k Hk. rewrite run_hours_nth_error.
  unfold hours_of. rewrite py_range_nth_error by (unfold hours_of in *; lia).
  eexists. split; [reflexivity |]. split; reflexivity.
Qed.

Lemma each_hour_takes_the_next_draw_witness :
  random_pos (snd (predict_traffic_range sample_request sample_world)) = 4%nat.
Proof.
  destruct (each_hour_takes_the_next_draw sample_request sample_world
              (snd (predict_traffic_range sample_request sample_world))
              sample_response) as (_ & H & _).
  - vm_compute. reflexivity.
  - rewrite H. vm_compute. reflexivity.
Defined.

(** ** More on the classifier *)

Lemma severity_leb (v1 v2 : float) :
  (v1 <=? v2)%f64 = true ->
  severity (get_traffic_level v1) <= severity (get_traffic_level v2).
Proof.
  intros H. unfold get_traffic_level.
  destruct (v2 <? F64.of_Z 1500)%f64 eqn:E2.
  - rewrite (leb_ltb_trans _ _ _ H E2). cbn [severity]; lia.
  - destruct (v2 <? F64.of_Z 2500)%f64 eqn:E2'.
    + pose proof (leb_ltb_trans _ _ _ H E2') as E1.
      destruct (v1 <? F64.of_Z 1500)%f64; [cbn [severity]; lia |].
      rewrite E1. cbn [severity]; lia.
    + destruct (v1 <? F64.of_Z 1500)%f64; [cbn [severity]; lia |].
      destruct (v1 <? F64.of_Z 2500)%f64; cbn [severity]; lia.
Qed.

(** X4: the classifier is monotone: a value that is not below another one
    never gets a lower severity. *)
Theorem severity_is_monotone (v1 v2 : float) :
  (v1 <=? v2)%f64 = true ->
  severity (get_traffic_level v1) <= severity (get_traffic_level v2).
Proof.
  intros H. exact (severity_leb v1 v2 H).
Qed.

Lemma severity_is_monotone_witness :
  severity (get_traffic_level (F64.of_Z 1499))
  <= severity (get_traffic_level (F64.of_Z 2500)).
Proof.
  apply (severity_is_monotone (F64.of_Z 1499) (F64.of_Z 2500)).
  vm_compute. reflexivity.
Defined.

Lemma response_prediction request w resp w' p :
  predict_traffic_range request w = (Ok resp, w') ->
  In p (predictions resp) ->
  exists h u, start_hour request <= h <= end_hour request
              /\ p = hourly (normalize_place (place request)) (day request)
                       h u.
Proof.
  intros H Hin. apply predict_traffic_range_Ok in H.
  destruct H as (_ & _ & _ & location & peak & _ & _ & -> & _).
  cbn [predictions success_response] in Hin.
  apply run_hours_In in Hin. destruct Hin as (h & u & Hh & ->).
  exists h, u. split; [| reflexivity].
  unfold hours_of in Hh. apply py_range_In in Hh. lia.
Qed.

Lemma response_prediction_nonneg request w resp w' p :
  predict_traffic_range request w = (Ok resp, w') ->
  (forall i, unit_draw (random_values w i)) ->
  In p (predictions resp) -> nonneg (traffic_value p) = true.
Proof.
  intros H Hu Hin. apply predict_traffic_range_Ok in H.
  destruct H as (_ & _ & _ & location & peak & _ & _ & -> & _).
  cbn [predictions success_response] in Hin.
  eapply run_hours_nonneg; [exact Hu | exact Hin].
Qed.

(** X5: while the draws are in [[0.0, 1.0)], the level, color and severity
    of every prediction of a response agree with its value: Normal, green
    and 1 below 1500; Moderate, amber and 2 from 1500 and below 2500; High,
    red and 3 from 2500 on. *)
Theorem prediction_levels_match_values
  (request : TrafficPredictionRequest) (w w' : World)
  (resp : TrafficPredictionResponse) (p : HourlyPrediction) :
  predict_traffic_range request w = (Ok resp, w') ->
  (forall i, unit_draw (random_values w i)) ->
  In p (predictions resp) ->
  ((traffic_value p <? F64.of_Z 1500)%f64 = true
   /\ traffic_level p = "Normal"%string /\ hp_color p = "#10B981"%string
   /\ hp_severity p = 1)
  \/ ((F64.of_Z 1500 <=? traffic_value p)%f64 = true
      /\ (traffic_value p <? F64.of_Z 2500)%f64 = true
      /\ traffic_level p = "Moderate"%string
      /\ hp_color p = "#F59E0B"%string /\ hp_severity p = 2)
  \/ ((F64.of_Z 2500 <=? traffic_value p)%f64 = true
      /\ traffic_level p = "High"%string /\ hp_color p = "#EF4444"%string
      /\ hp_severity p = 3).
Proof.
  intros H Hu Hin.
  pose proof (response_prediction_nonneg _ _ _ _ _ H Hu Hin) as Hn.
  apply nonneg_not_nan in Hn.
  destruct (response_prediction _ _ _ _ _ H Hin) as (h & u & _ & ->).
  cbn [hourly traffic_value traffic_level hp_color hp_severity] in *.
  set (v := traffic_with_draw _ _ h u) in *.
  unfold get_traffic_level.
  assert (N1 : F64.is_nan (F64.of_Z 1500) = false)
    by (vm_compute; reflexivity).
  assert (N2 : F64.is_nan (F64.of_Z 2500) = false)
    by (vm_compute; reflexivity).
  destruct (v <? F64.of_Z 1500)%f64 eqn:E1; [left; cbn [level color severity]; auto |].
  apply ltb_false_leb in E1; try assumption.
  destruct (v <? F64.of_Z 2500)%f64 eqn:E2; [right; left; cbn [level color severity]; auto |].
  apply ltb_false_leb in E2; try assumption.
  right; right. cbn [level color severity]. auto.
Qed.

Lemma sample_draws_unit : forall i, unit_draw (random_values sample_world i).
Proof. intros i. repeat split. Qed.

Lemma prediction_levels_match_values_witness :
  Forall (fun p => hp_severity p = 1 \/ hp_severity p = 2
                   \/ hp_severity p = 3)
    (predictions sample_response).
Proof.
  apply Forall_forall. intros p Hin.
  assert (E : predict_traffic_range sample_request sample_world
              = (Ok sample_response,
                 snd (predict_traffic_range sample_request sample_world)))
    by (vm_compute; reflexivity).
  destruct (prediction_levels_match_values _ _ _ _ p E sample_draws_unit Hin)
    as [(_ & _ & _ & H) | [(_ & _ & _ & _ & H) | (_ & _ & _ & H)]];
    rewrite H; [left | right; left | right; right]; reflexivity.
Defined.

Lemma py_max_is_max {A : Type} (key : A -> float) (l : list A) (p x : A) :
  (forall y, In y l -> F64.is_nan (key y) = false) ->
  py_max key l = Some p -> In x l -> (key x <=? key p)%f64 = true.
Proof.
  intros Hnan Hmax Hin.
  destruct (py_max_first key l p Hnan Hmax) as (pre & post & -> & Hpre & Hpost).
  apply in_app_or in Hin. destruct Hin as [Hin | [<- | Hin]].
  - apply ltb_leb, Hpre, Hin.
  - apply ltb_false_leb.
    + apply Hnan, in_or_app. right. now left.
    + apply Hnan, in_or_app. right. now left.
    + destruct (key p <? key p)%f64 eqn:E; [| reflexivity].
      apply ltb_iff in E. destruct E as (_ & _ & E).
      destruct (ord (key p)) as [[a b] c]. unfold lex_lt in E. lia.
  - apply Hpost, Hin.
Qed.

(** X6: while the draws are in [[0.0, 1.0)], the peak of a response has the
    highest severity of the range: no prediction has a severity above the
    one of the peak, which is the one the insight is selected by. *)
Theorem peak_has_the_highest_severity
  (request : TrafficPredictionRequest) (w w' : World)
  (resp : TrafficPredictionResponse) (p : HourlyPrediction) :
  predict_traffic_range request w = (Ok resp, w') ->
  (forall i, unit_draw (random_values w i)) ->
  In p (predictions resp) ->
  hp_severity p <= severity (get_traffic_level (peak_traffic resp))
  /\ (traffic_value p <=? peak_traffic resp)%f64 = true
  /\ insight resp
     = build_insight
         {| hour := peak_hour resp;
            traffic_value := peak_traffic resp;
            traffic_level := level (get_traffic_level (peak_traffic resp));
            hp_color := color (get_traffic_level (peak_traffic resp));
            hp_severity :=
              severity (get_traffic_level (peak_traffic resp)) |}.
Proof.
  intros H Hu Hin.
  assert (Hnan : forall y, In y (predictions resp) ->
                           F64.is_nan (traffic_value y) = false).
  { intros y Hy. apply nonneg_not_nan.
    exact (response_prediction_nonneg _ _ _ _ _ H Hu Hy). }
  destruct (response_prediction _ _ _ _ _ H Hin) as (h & u & _ & Ep).
  assert (H' := H). apply predict_traffic_range_Ok in H'.
  destruct H' as (_ & _ & _ & location & peak & _ & Hmax & Er & _).
  rewrite Er in Hnan, Hin |- *.
  cbn [predictions peak_traffic peak_hour insight success_response] in *.
  pose proof (py_max_is_max _ _ _ _ Hnan Hmax Hin) as Hle.
  assert (Hpk := py_max_In _ _ _ Hmax).
  apply run_hours_In in Hpk. destruct Hpk as (hp & up & _ & Epk).
  split; [| split].
  - rewrite Ep in Hle |- *. cbn [hourly hp_severity traffic_value] in *.
    now apply severity_leb.
  - exact Hle.
  - rewrite Epk. reflexivity.
Qed.

Lemma peak_has_the_highest_severity_witness :
  Forall (fun p => hp_severity p <= 3) (predictions sample_response).
Proof.
  apply Forall_forall. intros p Hin.
  assert (E : predict_traffic_range sample_request sample_world
              = (Ok sample_response,
                 snd (predict_traffic_range sample_request sample_world)))
    by (vm_compute; reflexivity).
  destruct (peak_has_the_highest_severity _ _ _ _ p E sample_draws_unit Hin)
    as (H & _).
  replace 3 with (severity (get_traffic_level (peak_traffic sample_response)))
    by (vm_compute; reflexivity).
  exact H.
Defined.

(** ** What reaches the generator *)

Lemma post_predict_traffic_calls (body : TrafficPredictionRequest)
  (w : World) :
  exists calls,
    generator_calls (snd (post_predict_traffic body w))
    = generator_calls w ++ calls
    /\ forall p d h, In (p, d, h) calls ->
         p = normalize_place (place body) /\ d = day body
         /\ known_place (place body) /\ known_day (day body)
         /\ start_hour body <= h <= end_hour body.
Proof.
  unfold post_predict_traffic, bind, validate_request.
  destruct (negb _).
  { exists []. cbn. rewrite app_nil_r. split; [reflexivity | tauto]. }
  destruct (negb _).
  { exists []. cbn. rewrite app_nil_r. split; [reflexivity | tauto]. }
  unfold ret.
  destruct (predict_traffic_range body w) as [[resp | e] w'] eqn:E.
  - apply predict_traffic_range_Ok in E.
    destruct E as (Hp & Hd & Hr & location & peak & _ & _ & _ & ->).
    cbn [snd]. rewrite after_success_calls. eexists. split; [reflexivity |].
    intros p d h Hin. apply in_map_iff in Hin.
    destruct Hin as (h' & [= <- <- ->] & Hin).
    apply py_range_In in Hin. repeat split; auto; lia.
  - apply predict_traffic_range_Raise in E. cbn [snd]. subst w'.
    exists []. rewrite app_nil_r. split; [reflexivity |]. cbn. tauto.
Qed.

(** X7: the defaults of the generator are never used through the
    endpoint: in every call of the generator that [POST /predict-traffic]
    makes, the place is a key of the generator's own table of bases (so
    the default base 1500 is not taken) and the day is one of the seven
    day names. *)
Theorem generator_defaults_are_unreachable
  (body : TrafficPredictionRequest) (w : World) :
  exists calls,
    generator_calls (snd (post_predict_traffic body w))
    = generator_calls w ++ calls
    /\ forall p d h, In (p, d, h) calls ->
         (exists base, dict_lookup base_traffic p = Some base
                       /\ dict_get base_traffic p 1500 = base)
         /\ In d DAYS_OF_WEEK.
Proof.
  destruct (post_predict_traffic_calls body w) as (calls & E & H).
  exists calls. split; [exact E |].
  intros p d h Hin. destruct (H p d h Hin) as (-> & -> & Hp & Hd & _).
  split; [| exact Hd].
  unfold known_place in Hp.
  change (dict_keys TRAFFIC_LOCATIONS) with (dict_keys base_traffic) in Hp.
  apply dict_lookup_In in Hp. unfold dict_get.
  destruct (dict_lookup base_traffic (normalize_place (place body)))
    as [base |]; [| congruence].
  exists base. auto.
Qed.

(** ** The place of a response is in normal form *)

Lemma key_is_normalized (k : string) :
  In k (dict_keys TRAFFIC_LOCATIONS) -> normalize_place k = k.
Proof.
  unfold dict_keys, TRAFFIC_LOCATIONS. cbn [map fst In].
  intros [<- | [<- | [<- | [<- | []]]]]; vm_compute; reflexivity.
Qed.

(** X8: the place that a successful response carries is in normal form:
    normalizing it again changes nothing; so a request that sends back the
    place and the day of the response, with the same hours, gets in the
    same world the same response and the same new world. *)
Theorem echoed_place_is_accepted
  (request : TrafficPredictionRequest) (w w' : World)
  (resp : TrafficPredictionResponse) :
  predict_traffic_range request w = (Ok resp, w') ->
  normalize_place (resp_place resp) = resp_place resp
  /\ predict_traffic_range
       {| place := resp_place resp; day := resp_day resp;
          start_hour := start_hour request;
          end_hour := end_hour request |} w = (Ok resp, w').
Proof.
  intros H. assert (H' := H). apply predict_traffic_range_Ok in H'.
  destruct H' as (Hp & _ & _ & location & peak & _ & _ & Er & _).
  assert (Ep : resp_place resp = normalize_place (place request))
    by (rewrite Er; reflexivity).
  assert (Ed : resp_day resp = day request) by (rewrite Er; reflexivity).
  pose proof (key_is_normalized _ Hp) as Hk.
  rewrite Ep, Ed. split; [exact Hk |].
  rewrite <- H. apply predict_traffic_range_normalized; cbn; auto.
Qed.

Lemma echoed_place_is_accepted_witness :
  predict_traffic_range
    {| place := "silk_board"; day := "Monday";
       start_hour := 8; end_hour := 11 |} sample_world
  = (Ok sample_response,
     snd (predict_traffic_range sample_request sample_world)).
Proof.
  assert (E : predict_traffic_range sample_request sample_world
              = (Ok sample_response,
                 snd (predict_traffic_range sample_request sample_world)))
    by (vm_compute; reflexivity).
  exact (proj2 (echoed_place_is_accepted _ _ _ _ E)).
Defined.

(** ** The range of the values *)

Lemma known_base_In (place : string) :
  dict_lookup base_traffic place <> None ->
  In (dict_get base_traffic place 1500) known_bases.
Proof.
  unfold dict_get, base_traffic, known_bases. cbn [dict_lookup].
  repeat match goal with
         | |- context [String.eqb place ?s] => destruct (String.eqb place s)
         end; cbn [In]; auto 6; congruence.
Qed.

Lemma known_raw_traffic_In (place day : string) (hour : Z) :
  dict_lookup base_traffic place <> None ->
  In (raw_traffic place day hour) known_raw_values.
Proof.
  intros Hp. unfold raw_traffic, known_raw_values.
  apply in_flat_map. exists (dict_get base_traffic place 1500).
  split; [now apply known_base_In |].
  apply in_flat_map. exists (weekend_factor day).
  split; [apply weekend_factor_In |].
  apply in_flat_map. exists (hour_multiplier hour).
  split; [apply hour_multiplier_In |].
  apply in_map_iff. exists (day_factor day).
  split; [reflexivity | apply day_factor_In].
Qed.

Lemma range_check_all : range_check 243 6325 raw_values = true.
Proof. vm_compute. reflexivity. Qed.

Lemma range_check_known : range_check 291 6325 known_raw_values = true.
Proof. vm_compute. reflexivity. Qed.

Lemma range_check_spec (lo hi : Z) (raws : list float)
  (place day : string) (hour : Z) (u : float) :
  range_check lo hi raws = true ->
  In (raw_traffic place day hour) raws -> unit_draw u ->
  (F64.of_Z lo <=? traffic_with_draw place day hour u)%f64 = true
  /\ (traffic_with_draw place day hour u <=? F64.of_Z hi)%f64 = true.
Proof.
  intros C Hin Hu. unfold range_check in C. rewrite forallb_forall in C.
  specialize (C _ Hin). apply andb_prop in C. destruct C as [C1 C2].
  destruct (rounded_envelope place day hour u Hu) as [Hlo Hhi].
  split; eapply leb_trans; eassumption.
Qed.

(** X9: for a draw in [[0.0, 1.0)], the value the generator returns is a
    finite number between 243 and 6325, whatever the place, day and hour,
    and at least 291 when the place is one of the generator's table. *)
Theorem generator_value_range
  (place day : string) (hour : Z) (w : World) :
  unit_draw (random_values w (random_pos w)) ->
  exists v,
    fst (predict_traffic_value place day hour w) = Ok v
    /\ (F64.of_Z 243 <=? v)%f64 = true /\ (v <=? F64.of_Z 6325)%f64 = true
    /\ (dict_lookup base_traffic place <> None ->
        (F64.of_Z 291 <=? v)%f64 = true).
Proof.
  intros Hu. eexists. split; [reflexivity |].
  destruct (range_check_spec _ _ _ place day hour _ range_check_all
              (raw_traffic_In place day hour) Hu) as [Hlo Hhi].
  split; [exact Hlo |]. split; [exact Hhi |].
  intros Hp.
  exact (proj1 (range_check_spec _ _ _ place day hour _ range_check_known
                  (known_raw_traffic_In place day hour Hp) Hu)).
Qed.

Lemma generator_value_range_witness :
  exists v,
    fst (predict_traffic_value "whitefield" "Sunday" 3 sample_world) = Ok v
    /\ (F64.of_Z 291 <=? v)%f64 = true.
Proof.
  destruct (generator_value_range "whitefield" "Sunday" 3 sample_world)
    as (v & E & _ & _ & H).
  - exact (sample_draws_unit 0%nat).
  - exists v. split; [exact E |]. apply H. vm_compute. discriminate.
Defined.

(** ** Rankings of the product before the variation *)

Lemma day_check_true : day_check = true.
Proof. vm_compute. reflexivity. Qed.

Lemma ordinary_day (day : string) :
  ~ In day ["Friday"; "Monday"; "Saturday"; "Sunday"]%string ->
  weekend_factor day = f1_0 /\ day_factor day = f1_0.
Proof.
  intros H. split.
  - apply weekday_day. intros [E | [E | []]]; apply H; rewrite <- E;
      cbn [In]; auto.
  - unfold day_factor.
    destruct (String.eqb_spec day "Friday") as [E | _];
      [exfalso; apply H; rewrite E; cbn [In]; auto |].
    destruct (String.eqb_spec day "Monday") as [E | _];
      [exfalso; apply H; rewrite E; cbn [In]; auto | reflexivity].
Qed.

(** X10: at every place and hour the product before the variation is
    strictly higher on a Monday than on any day that is neither a Friday,
    a Monday nor a weekend day, and strictly higher on a Friday than on a
    Monday. *)
Theorem friday_above_monday_above_ordinary_days
  (place day : string) (hour : Z) :
  ~ In day ["Friday"; "Monday"; "Saturday"; "Sunday"]%string ->
  (raw_traffic place day hour <? raw_traffic place "Monday" hour)%f64 = true
  /\ (raw_traffic place "Monday" hour
      <? raw_traffic place "Friday" hour)%f64 = true.
Proof.
  intros Hd. unfold raw_traffic.
  destruct (ordinary_day day Hd) as [-> ->].
  change (weekend_factor "Monday") with f1_0.
  change (weekend_factor "Friday") with f1_0.
  change (day_factor "Monday") with f1_1.
  change (day_factor "Friday") with f1_15.
  pose proof day_check_true as C. unfold day_check in C.
  rewrite forallb_forall in C. specialize (C _ (base_In place)).
  rewrite forallb_forall in C. specialize (C _ (hour_multiplier_In hour)).
  apply andb_prop in C. exact C.
Qed.

Lemma friday_above_monday_above_ordinary_days_witness :
  (raw_traffic "hebbal" "Wednesday" 9
   <? raw_traffic "hebbal" "Monday" 9)%f64 = true.
Proof.
  apply (friday_above_monday_above_ordinary_days "hebbal" "Wednesday" 9).
  cbn [In]. intuition discriminate.
Defined.

Lemma hour_check_true : hour_check = true.
Proof. vm_compute. reflexivity. Qed.

Lemma place_check_true : place_check = true.
Proof. vm_compute. reflexivity. Qed.

Lemma hour_multiplier_band (h : Z) :
  (0 <= h <= 5 -> hour_multiplier h = f0_3)
  /\ (22 <= h <= 23 -> hour_multiplier h = f0_5)
  /\ (In h [6; 7; 11; 15; 16; 21] -> hour_multiplier h = f1_0)
  /\ (12 <= h <= 14 -> hour_multiplier h = f1_3)
  /\ (8 <= h <= 10 -> hour_multiplier h = f1_8)
  /\ (17 <= h <= 20 -> hour_multiplier h = f2_0)
  /\ (h < 0 \/ 23 < h -> hour_multiplier h = f1_0).
Proof.
  unfold hour_multiplier. cbn [In].
  repeat split; intros H;
    repeat match goal with
           | |- context [?a <=? ?b] => destruct (Z.leb_spec a b)
           end; cbn [andb]; try reflexivity; lia.
Qed.

(** X11: at every place and on every day the product before the
    variation rises strictly from band to band: the night hours 0-5, the
    late hours 22-23, the hours 6, 7, 11, 15, 16 and 21, the lunch hours
    12-14, the morning rush 8-10, the evening rush 17-20. *)
Theorem hour_bands_are_ranked
  (place day : string) (night late off lunch morning evening : Z) :
  0 <= night <= 5 -> 22 <= late <= 23 -> In off [6; 7; 11; 15; 16; 21] ->
  12 <= lunch <= 14 -> 8 <= morning <= 10 -> 17 <= evening <= 20 ->
  (raw_traffic place day night <? raw_traffic place day late)%f64 = true
  /\ (raw_traffic place day late <? raw_traffic place day off)%f64 = true
  /\ (raw_traffic place day off <? raw_traffic place day lunch)%f64 = true
  /\ (raw_traffic place day lunch <? raw_traffic place day morning)%f64
     = true
  /\ (raw_traffic place day morning <? raw_traffic place day evening)%f64
     = true.
Proof.
  intros Hn Hl Ho Hlu Hm He. unfold raw_traffic.
  rewrite (proj1 (hour_multiplier_band night) Hn).
  rewrite (proj1 (proj2 (hour_multiplier_band late)) Hl).
  rewrite (proj1 (proj2 (proj2 (hour_multiplier_band off))) Ho).
  rewrite (proj1 (proj2 (proj2 (proj2 (hour_multiplier_band lunch)))) Hlu).
  rewrite (proj1 (proj2 (proj2 (proj2 (proj2
             (hour_multiplier_band morning))))) Hm).
  rewrite (proj1 (proj2 (proj2 (proj2 (proj2 (proj2
             (hour_multiplier_band evening)))))) He).
  pose proof hour_check_true as C. unfold hour_check in C.
  rewrite forallb_forall in C. specialize (C _ (base_In place)).
  rewrite forallb_forall in C. specialize (C _ (weekend_factor_In day)).
  rewrite forallb_forall in C. specialize (C _ (day_factor_In day)).
  cbn [chain map hour_bands] in C.
  repeat (apply andb_prop in C; destruct C as [? C]). auto.
Qed.

Lemma hour_bands_are_ranked_witness :
  (raw_traffic "kr_puram" "Tuesday" 9
   <? raw_traffic "kr_puram" "Tuesday" 18)%f64 = true.
Proof.
  apply (hour_bands_are_ranked "kr_puram" "Tuesday" 0 22 6 12 9 18);
    cbn [In]; auto; lia.
Defined.

Lemma base_of_key (k : string) (b : Z) :
  In (k, b) base_traffic -> dict_get base_traffic k 1500 = b.
Proof.
  unfold base_traffic. cbn [In].
  intros [[= <- <-] | [[= <- <-] | [[= <- <-] | [[= <- <-] | []]]]];
    reflexivity.
Qed.

Lemma base_of_other (place : string) :
  dict_lookup base_traffic place = None ->
  dict_get base_traffic place 1500 = 1500.
Proof. intros H. unfold dict_get. now rewrite H. Qed.

(** X12: on every day and at every hour the product before the variation
    is ranked by place: Silk Board is strictly above KR Puram, which is
    above Hebbal, which is above Whitefield, which is above every place
    that is not in the generator's table. *)
Theorem places_are_ranked (other day : string) (hour : Z) :
  dict_lookup base_traffic other = None ->
  (raw_traffic other day hour <? raw_traffic "whitefield" day hour)%f64
  = true
  /\ (raw_traffic "whitefield" day hour
      <? raw_traffic "hebbal" day hour)%f64 = true
  /\ (raw_traffic "hebbal" day hour
      <? raw_traffic "kr_puram" day hour)%f64 = true
  /\ (raw_traffic "kr_puram" day hour
      <? raw_traffic "silk_board" day hour)%f64 = true.
Proof.
  intros Ho. unfold raw_traffic. rewrite (base_of_other other Ho).
  rewrite (base_of_key "whitefield" 1800), (base_of_key "hebbal" 2000),
    (base_of_key "kr_puram" 2200), (base_of_key "silk_board" 2500)
    by (unfold base_traffic; cbn [In]; auto 6).
  pose proof place_check_true as C. unfold place_check in C.
  rewrite forallb_forall in C. specialize (C _ (weekend_factor_In day)).
  rewrite forallb_forall in C. specialize (C _ (hour_multiplier_In hour)).
  rewrite forallb_forall in C. specialize (C _ (day_factor_In day)).
  cbn [chain map] in C.
  repeat (apply andb_prop in C; destruct C as [? C]). auto.
Qed.

Lemma places_are_ranked_witness :
  (raw_traffic "mg_road" "Friday" 18
   <? raw_traffic "whitefield" "Friday" 18)%f64 = true.
Proof.
  apply (places_are_ranked "mg_road" "Friday" 18). reflexivity.
Defined.

(** ** Hours whose tier does not depend on the draws *)

Lemma night_check_true : night_check = true.
Proof. vm_compute. reflexivity. Qed.

Lemma evening_check_true : evening_check = true.
Proof. vm_compute. reflexivity. Qed.

Lemma night_value_normal (place day : string) (h : Z) (u : float) :
  0 <= h <= 5 -> unit_draw u ->
  get_traffic_level (traffic_with_draw place day h u) = normal_info.
Proof.
  intros Hh Hu.
  destruct (rounded_envelope place day h u Hu) as [_ Hhi].
  unfold raw_traffic in Hhi.
  rewrite (proj1 (hour_multiplier_band h) Hh) in Hhi.
  pose proof night_check_true as C. unfold night_check in C.
  rewrite forallb_forall in C. specialize (C _ (base_In place)).
  rewrite forallb_forall in C. specialize (C _ (weekend_factor_In day)).
  rewrite forallb_forall in C. specialize (C _ (day_factor_In day)).
  pose proof (leb_ltb_trans _ _ _ Hhi C) as Hlt.
  unfold get_traffic_level. now rewrite Hlt.
Qed.

Lemma evening_value_high (place day : string) (h : Z) (u : float) :
  dict_lookup base_traffic place <> None ->
  ~ In day ["Saturday"; "Sunday"]%string ->
  17 <= h <= 20 -> unit_draw u ->
  get_traffic_level (traffic_with_draw place day h u) = high_info.
Proof.
  intros Hp Hd Hh Hu.
  destruct (rounded_envelope place day h u Hu) as [Hlo _].
  unfold raw_traffic in Hlo.
  rewrite (proj1 (proj2 (proj2 (proj2 (proj2 (proj2
             (hour_multiplier_band h)))))) Hh) in Hlo.
  rewrite (weekday_day day Hd) in Hlo.
  pose proof evening_check_true as C. unfold evening_check in C.
  rewrite forallb_forall in C. specialize (C _ (known_base_In place Hp)).
  rewrite forallb_forall in C. specialize (C _ (day_factor_In day)).
  pose proof (leb_trans _ _ _ C Hlo) as Hle.
  pose proof (leb_trans _ _ _ leb_1500_2500 Hle) as Hle'.
  apply leb_ltb_false in Hle, Hle'.
  unfold get_traffic_level. now rewrite Hle', Hle.
Qed.

Lemma all_hours_same_level request w resp w' (info : LevelInfo) :
  predict_traffic_range request w = (Ok resp, w') ->
  (forall h u, start_hour request <= h <= end_hour request ->
               unit_draw u ->
               get_traffic_level
                 (traffic_with_draw (normalize_place (place request))
                    (day request) h u) = info) ->
  (forall i, unit_draw (random_values w i)) ->
  (forall p, In p (predictions resp) ->
             traffic_level p = level info /\ hp_color p = color info
             /\ hp_severity p = severity info)
  /\ insight resp
     = build_insight {| hour := peak_hour resp;
                        traffic_value := peak_traffic resp;
                        traffic_level := level info;
                        hp_color := color info;
                        hp_severity := severity info |}.
Proof.
  intros H Hinfo Hu. apply predict_traffic_range_Ok in H.
  destruct H as (_ & _ & _ & location & peak & _ & Hmax & -> & _).
  cbn [predictions peak_hour peak_traffic insight success_response].
  assert (Hall : forall p,
            In p (run_hours (normalize_place (place request)) (day request)
                    (hours_of request) (random_values w) (random_pos w)) ->
            traffic_level p = level info /\ hp_color p = color info
            /\ hp_severity p = severity info).
  { generalize (random_pos w). unfold hours_of.
    assert (Hr : forall h, In h (py_range (start_hour request)
                                   (end_hour request + 1)) ->
                           start_hour request <= h <= end_hour request)
      by (intros h Hh; apply py_range_In in Hh; lia).
    induction (py_range (start_hour request) (end_hour request + 1))
      as [| h l IH]; intros pos p; cbn [run_hours].
    - intros [].
    - intros [<- | Hin].
      + cbn [hourly traffic_level hp_color hp_severity].
        rewrite Hinfo; auto. apply Hr. now left.
      + apply (IH (fun h' Hh' => Hr h' (or_intror Hh')) (S pos) p Hin). }
  split; [exact Hall |].
  destruct (Hall peak (py_max_In _ _ _ Hmax)) as (_ & _ & Hs).
  unfold build_insight. cbn [hp_severity hour]. now rewrite Hs.
Qed.

(** X13: a request within the night hours 0-5, served while the draws are
    in [[0.0, 1.0)], gets only Normal predictions of severity 1 and the
    insight sentence of favorable conditions, at every place and on every
    day. *)
Theorem night_requests_are_favorable
  (request : TrafficPredictionRequest) (w w' : World)
  (resp : TrafficPredictionResponse) :
  predict_traffic_range request w = (Ok resp, w') ->
  0 <= start_hour request -> end_hour request <= 5 ->
  (forall i, unit_draw (random_values w i)) ->
  (forall p, In p (predictions resp) ->
             traffic_level p = "Normal"%string /\ hp_severity p = 1)
  /\ insight resp
     = "Traffic conditions are favorable. Smooth commute expected throughout the selected time range."%string.
Proof.
  intros H H0 H5 Hu.
  destruct (all_hours_same_level _ _ _ _ normal_info H) as [Hall Hins];
    [| exact Hu |].
  { intros h u Hh Hd. apply night_value_normal; [lia | exact Hd]. }
  split; [| exact Hins].
  intros p Hp. destruct (Hall p Hp) as (Hl & _ & Hs). auto.
Qed.

Lemma night_requests_are_favorable_witness :
  insight (match fst (predict_traffic_range
                        {| place := "silk_board"; day := "Friday";
                           start_hour := 0; end_hour := 5 |} sample_world)
           with Ok resp => resp | Raise _ => sample_response end)
  = "Traffic conditions are favorable. Smooth commute expected throughout the selected time range."%string.
Proof.
  destruct (predict_traffic_range
              {| place := "silk_board"; day := "Friday";
                 start_hour := 0; end_hour := 5 |} sample_world)
    as [[resp | e] w'] eqn:E; [| vm_compute in E; discriminate].
  cbn [fst].
  apply (night_requests_are_favorable _ _ _ _ E);
    [cbn; lia | cbn; lia | exact sample_draws_unit].
Defined.

(** X14: a request within the evening rush 17-20 on a day that is not a
    weekend day, served while the draws are in [[0.0, 1.0)], gets only
    High predictions of severity 3 and the insight that names the peak
    hour and advises alternative routes, at every place. *)
Theorem weekday_evening_requests_are_high
  (request : TrafficPredictionRequest) (w w' : World)
  (resp : TrafficPredictionResponse) :
  predict_traffic_range request w = (Ok resp, w') ->
  17 <= start_hour request -> end_hour request <= 20 ->
  ~ In (day request) ["Saturday"; "Sunday"]%string ->
  (forall i, unit_draw (random_values w i)) ->
  (forall p, In p (predictions resp) ->
             traffic_level p = "High"%string /\ hp_severity p = 3)
  /\ insight resp
     = ("Peak congestion expected at " ++ str_of_Z (peak_hour resp)
        ++ ":00. Consider alternative routes or delay travel by 1-2 hours.")%string.
Proof.
  intros H H17 H20 Hd Hu.
  assert (Hp : dict_lookup base_traffic (normalize_place (place request))
               <> None).
  { apply predict_traffic_range_Ok in H. destruct H as (Hp & _).
    unfold known_place in Hp.
    change (dict_keys TRAFFIC_LOCATIONS) with (dict_keys base_traffic) in Hp.
    now apply dict_lookup_In. }
  destruct (all_hours_same_level _ _ _ _ high_info H) as [Hall Hins];
    [| exact Hu |].
  { intros h u Hh Hdr. apply evening_value_high; auto; lia. }
  split; [| exact Hins].
  intros p Hin. destruct (Hall p Hin) as (Hl & _ & Hs). auto.
Qed.

Lemma weekday_evening_requests_are_high_witness :
  exists resp,
    fst (predict_traffic_range
           {| place := "Whitefield"; day := "Tuesday";
              start_hour := 17; end_hour := 20 |} sample_world) = Ok resp
    /\ Forall (fun p => hp_severity p = 3) (predictions resp).
Proof.
  destruct (predict_traffic_range
              {| place := "Whitefield"; day := "Tuesday";
                 start_hour := 17; end_hour := 20 |} sample_world)
    as [[resp | e] w'] eqn:E; [| vm_compute in E; discriminate].
  exists resp. split; [reflexivity |].
  apply Forall_forall. intros p Hin.
  apply (weekday_evening_requests_are_high _ _ _ _ E);
    [cbn; lia | cbn; lia | cbn; intuition discriminate
     | exact sample_draws_unit | exact Hin].
Defined.

(** ** The status endpoints *)

Lemma parse_timestamps_app (fromisoformat : string -> result datetime)
  (l1 l2 : list StatusDoc) (r1 : list StatusCheck) :
  parse_timestamps fromisoformat l1 = Ok r1 ->
  parse_timestamps fromisoformat (l1 ++ l2)
  = match parse_timestamps fromisoformat l2 with
    | Ok r2 => Ok (r1 ++ r2)
    | Raise e => Raise e
    end.
Proof.
  revert r1. induction l1 as [| d l1 IH]; intros r1 H.
  - injection H as <-. cbn [app].
    now destruct (parse_timestamps fromisoformat l2).
  - cbn [app parse_timestamps] in *.
    destruct (fromisoformat (sd_timestamp d)) as [t | e]; [| discriminate].
    destruct (parse_timestamps fromisoformat l1) as [r | e];
      [| discriminate].
    injection H as <-. rewrite (IH r eq_refl).
    now destruct (parse_timestamps fromisoformat l2).
Qed.

Lemma parse_timestamps_Ok (fromisoformat : string -> result datetime)
  (docs : list StatusDoc) (l : list StatusCheck) :
  parse_timestamps fromisoformat docs = Ok l ->
  Forall2 (fun doc obj =>
             sc_id obj = sd_id doc
             /\ sc_client_name obj = sd_client_name doc
             /\ fromisoformat (sd_timestamp doc) = Ok (sc_timestamp obj))
    docs l.
Proof.
  revert l. induction docs as [| d docs IH]; intros l H;
    cbn [parse_timestamps] in H.
  - injection H as <-. constructor.
  - destruct (fromisoformat (sd_timestamp d)) as [t | e] eqn:E;
      [| discriminate].
    destruct (parse_timestamps fromisoformat docs) as [r | e];
      [| discriminate].
    injection H as <-. constructor; [| now apply IH].
    cbn [sc_id sc_client_name sc_timestamp]. auto.
Qed.

Lemma parse_timestamps_all (fromisoformat : string -> result datetime)
  (docs : list StatusDoc) :
  Forall (fun doc => exists t, fromisoformat (sd_timestamp doc) = Ok t)
    docs ->
  exists l, parse_timestamps fromisoformat docs = Ok l.
Proof.
  induction 1 as [| d docs [t Ht] _ [l IH]]; cbn [parse_timestamps].
  - eexists. reflexivity.
  - rewrite Ht, IH. eexists. reflexivity.
Qed.

Lemma parse_timestamps_Raise (fromisoformat : string -> result datetime)
  (docs : list StatusDoc) (e : exn) :
  parse_timestamps fromisoformat docs = Raise e ->
  exists doc, In doc docs /\ fromisoformat (sd_timestamp doc) = Raise e.
Proof.
  induction docs as [| d docs IH]; cbn [parse_timestamps]; [discriminate |].
  destruct (fromisoformat (sd_timestamp d)) as [t | e'] eqn:E.
  - destruct (parse_timestamps fromisoformat docs) as [r | e''];
      [discriminate |].
    intros [= ->]. destruct (IH eq_refl) as (doc & Hin & Hd).
    exists doc. split; [now right | exact Hd].
  - intros [= ->]. exists d. split; [now left | exact E].
Qed.

(** X15: [POST /status] returns a record with the client name of the
    input, the next uuid and the next clock reading; one document, the
    record with its timestamp in ISO format, is appended to the status
    collection, and the stored predictions are left as they were.  When
    [fromisoformat] reads that timestamp back and reads every timestamp
    stored before, and fewer than 1000 documents were stored before,
    [GET /status] then succeeds and lists the returned record last. *)
Theorem created_status_is_listed
  (fromisoformat : string -> result datetime)
  (input : StatusCheckCreate) (b : Backend) :
  exists obj b',
    create_status_check input b = (Ok obj, b')
    /\ sc_client_name obj = scc_client_name input
    /\ sc_id obj = uuid_values (world b) (uuid_pos (world b))
    /\ sc_timestamp obj = now_values (world b) (now_pos (world b))
    /\ status_checks b'
       = status_checks b
         ++ [{| sd_id := sc_id obj;
                sd_client_name := sc_client_name obj;
                sd_timestamp := isoformat (sc_timestamp obj) |}]
    /\ traffic_predictions (world b') = traffic_predictions (world b)
    /\ uuid_pos (world b') = S (uuid_pos (world b))
    /\ (fromisoformat (isoformat (sc_timestamp obj))
        = Ok (sc_timestamp obj) ->
        Forall (fun doc => exists t, fromisoformat (sd_timestamp doc) = Ok t)
          (status_checks b) ->
        (List.length (status_checks b) < 1000)%nat ->
        exists l,
          get_status_checks fromisoformat b' = (Ok (l ++ [obj]), b')
          /\ List.length l = List.length (status_checks b)).
Proof.
  unfold create_status_check, uuid4_str, now_isoformat.
  eexists _, _. split; [reflexivity |].
  cbn [sc_client_name sc_id sc_timestamp status_checks world
       traffic_predictions uuid_pos uuid_values now_values now_pos].
  repeat (split; [reflexivity |]).
  intros Hback Hall Hlen. unfold get_status_checks. cbn [status_checks].
  rewrite firstn_all2 by (rewrite length_app; cbn [List.length]; lia).
  destruct (parse_timestamps_all fromisoformat _ Hall) as [l El].
  rewrite (parse_timestamps_app fromisoformat _ _ l El).
  cbn [parse_timestamps sd_timestamp sd_id sd_client_name].
  rewrite Hback. exists l. split; [reflexivity |].
  apply parse_timestamps_Ok in El.
  symmetry. exact (Forall2_length El).
Qed.

Lemma created_status_is_listed_witness :
  exists obj,
    fst (create_status_check {| scc_client_name := "dashboard" |}
           {| world := sample_world; status_checks := [] |}) = Ok obj
    /\ fst (get_status_checks sample_fromisoformat
              (snd (create_status_check {| scc_client_name := "dashboard" |}
                      {| world := sample_world; status_checks := [] |})))
       = Ok [obj].
Proof.
  destruct (created_status_is_listed sample_fromisoformat
              {| scc_client_name := "dashboard" |}
              {| world := sample_world; status_checks := [] |})
    as (obj & b' & E & _ & _ & Ht & _ & _ & _ & H).
  destruct H as (l & El & Hl).
  - rewrite Ht. vm_compute. reflexivity.
  - constructor.
  - cbn [status_checks List.length]. lia.
  - exists obj. rewrite E. cbn [fst snd]. split; [reflexivity |].
    rewrite El. cbn [fst].
    destruct l; [reflexivity | discriminate Hl].
Defined.

(** X16: [GET /status] changes nothing.  It succeeds exactly when
    [fromisoformat] reads the timestamp of each of the first 1000 stored
    documents; it then lists as many records as are stored, up to 1000, in
    the order of the documents, each with the id and client name of its
    document and the [datetime] read from its timestamp.  Otherwise it
    raises the exception that [fromisoformat] raises on the timestamp of
    one of these documents. *)
Theorem status_listing_is_capped
  (fromisoformat : string -> result datetime) (b : Backend) :
  snd (get_status_checks fromisoformat b) = b
  /\ (forall l,
        fst (get_status_checks fromisoformat b) = Ok l ->
        List.length l = Nat.min 1000 (List.length (status_checks b))
        /\ Forall2 (fun doc obj =>
                      sc_id obj = sd_id doc
                      /\ sc_client_name obj = sd_client_name doc
                      /\ fromisoformat (sd_timestamp doc)
                         = Ok (sc_timestamp obj))
             (firstn 1000 (status_checks b)) l)
  /\ ((exists l, fst (get_status_checks fromisoformat b) = Ok l)
      <-> Forall (fun doc =>
                    exists t, fromisoformat (sd_timestamp doc) = Ok t)
            (firstn 1000 (status_checks b)))
  /\ (forall e,
        fst (get_status_checks fromisoformat b) = Raise e ->
        exists doc,
          In doc (firstn 1000 (status_checks b))
          /\ fromisoformat (sd_timestamp doc) = Raise e).
Proof.
  unfold get_status_checks. cbn [fst snd].
  split; [reflexivity |]. split; [| split].
  - intros l H. apply parse_timestamps_Ok in H.
    split; [| exact H].
    rewrite <- (Forall2_length H). apply length_firstn.
  - split.
    + intros [l H]. apply parse_timestamps_Ok in H.
      induction H as [| doc obj docs l (_ & _ & Ht) _ IH];
        constructor; eauto.
    + apply parse_timestamps_all.
  - intros e H. exact (parse_timestamps_Raise _ _ _ H).
Qed.

(** ** Two-decimal numbers are fixed points of [round(x, 2)] *)

Lemma rhe_error (a d : Z) :
  0 < d -> 2 * Z.abs (F64.round_half_even a d * d - a) <= d.
Proof.
  intros Hd. unfold F64.round_half_even.
  pose proof (Z.div_mod a d) as DM. pose proof (Z.mod_pos_bound a d Hd) as B.
  destruct (Z.compare_spec (2 * (a mod d)) d);
    try destruct (Z.even (a / d)); nia.
Qed.

Lemma rhe_near (X K n : Z) :
  0 < K -> 2 * Z.abs (X - n * K) < K -> F64.round_half_even X K = n.
Proof.
  intros HK H. unfold F64.round_half_even.
  destruct (Z_le_gt_dec (n * K) X) as [Hle | Hgt].
  - assert (Ed : X / K = n)
      by (symmetry; apply (Z.div_unique _ _ _ (X - n * K)); lia).
    assert (Em : X mod K = X - n * K)
      by (symmetry; apply (Z.mod_unique _ _ n); lia).
    rewrite Ed, Em.
    destruct (Z.compare_spec (2 * (X - n * K)) K); lia.
  - assert (Ed : X / K = n - 1)
      by (symmetry; apply (Z.div_unique _ _ _ (X - (n - 1) * K)); lia).
    assert (Em : X mod K = X - (n - 1) * K)
      by (symmetry; apply (Z.mod_unique _ _ (n - 1)); lia).
    rewrite Ed, Em.
    destruct (Z.compare_spec (2 * (X - (n - 1) * K)) K); lia.
Qed.

Lemma round2_of_ratio_100 (n : positive) :
  Zpos n < 2 ^ 40 ->
  F64.round2 (F64.of_ratio false n 100) = F64.of_ratio false n 100.
Proof.
  intros Hn.
  destruct (of_ratio_100 n) as (s & dq & Hs & Hd & Hb & E & HG & HM).
  set (M := F64.round_half_even (Zpos n * 2 ^ s) (100 * 2 ^ (dq - 53))) in *.
  set (G := dq - 53 - s) in *.
  pose proof (pow2_pos s Hs) as PS.
  pose proof (pow2_pos (dq - 53)) as PP.
  pose proof (pow2_pos (dq - 1)) as PD.
  assert (HG' : G <= -19).
  { assert (H : 2 ^ (dq + 5) < 2 ^ (40 + s)).
    { replace (dq + 5) with (dq - 1 + 6) by lia.
      rewrite !Z.pow_add_r by lia.
      change (2 ^ 6) with 64. nia. }
    apply pow2_lt_inv in H; subst G; lia. }
  assert (Herr := rhe_error (Zpos n * 2 ^ s) (100 * 2 ^ (dq - 53))).
  fold M in Herr.
  assert (ES : 2 ^ s = 2 ^ (dq - 53) * 2 ^ (- G)).
  { rewrite <- Z.pow_add_r by (subst G; lia). f_equal. subst G. lia. }
  set (P := 2 ^ (dq - 53)) in *. set (Q := 2 ^ (- G)) in *.
  assert (HQ : 2 ^ 19 <= Q) by (apply pow2_le; lia).
  change (2 ^ 19) with 524288 in HQ.
  assert (Hnear : 2 * Z.abs (100 * M - Zpos n * Q) <= 100).
  { rewrite ES in Herr.
    assert (P * (2 * Z.abs (100 * M - Zpos n * Q)) <= P * 100); [| nia].
    replace (P * (2 * Z.abs (100 * M - Zpos n * Q)))
      with (2 * Z.abs (M * (100 * P) - Zpos n * (P * Q))); [lia |].
    replace (M * (100 * P) - Zpos n * (P * Q))
      with (P * (100 * M - Zpos n * Q)) by ring.
    rewrite Z.abs_mul, (Z.abs_eq P) by lia. ring. }
  cut (F64.round2 (pack false (carry M G)) = F64.of_ratio false n 100).
  { intros C. rewrite <- E in C. exact C. }
  unfold carry.
  destruct (Z.eqb_spec M two53) as [EM | NM].
  - unfold pack. cbn [fst snd]. unfold two52 at 1.
    destruct (Z.leb_spec (G + 1) 971); [| lia].
    unfold F64.round2.
    rewrite (hundredths_at _ (G + 1) (G + 1)) by lia.
    rewrite Z.sub_diag, Z.pow_0_r, Z.mul_1_r.
    assert (EQ : Q = 2 * 2 ^ (- (G + 1))).
    { subst Q. replace (- G) with (- (G + 1) + 1) by lia.
      rewrite pow2_succ by lia. reflexivity. }
    rewrite (rhe_near _ _ (Zpos n)).
    + reflexivity.
    + apply pow2_pos. lia.
    + unfold two53 in EM. lia.
  - assert (HM' : 0 < M) by (unfold two52 in HM; lia).
    destruct M as [| pm | pm]; try lia.
    unfold pack. cbn [fst snd].
    destruct (Z.leb_spec G 971); [| lia].
    unfold F64.round2.
    rewrite (hundredths_at _ G G) by lia.
    rewrite Z.sub_diag, Z.pow_0_r, Z.mul_1_r.
    rewrite (rhe_near _ _ (Zpos n)).
    + reflexivity.
    + apply pow2_pos. lia.
    + fold Q. lia.
Qed.

Lemma round2_idempotent (x hi : float) :
  canonical_pos x -> canonical_pos hi -> (x <=? hi)%f64 = true ->
  hundredths_of hi < 2 ^ 40 ->
  F64.round2 (F64.round2 x) = F64.round2 x.
Proof.
  intros Hx Hy H Hh.
  destruct (leb_canonical_dle x hi Hx Hy H)
    as (mx & ex & my & ey & -> & -> & Hd).
  cbn [hundredths_of] in Hh.
  pose proof (hundredths_mono _ _ _ _ Hd) as Hm.
  unfold F64.round2 at 2 3.
  destruct (F64.hundredths mx ex) as [| p | p]; try reflexivity.
  apply round2_of_ratio_100. lia.
Qed.

Lemma decimal_check_true : decimal_check = true.
Proof. vm_compute. reflexivity. Qed.

Lemma jittered_canonical (place day : string) (hour : Z) (u : float) :
  unit_draw u ->
  canonical_pos (raw_traffic place day hour * jitter u)%f64
  /\ canonical_pos (raw_traffic place day hour * f1_1)%f64
  /\ (raw_traffic place day hour * jitter u
      <=? raw_traffic place day hour * f1_1)%f64 = true.
Proof.
  intros Hu.
  destruct (jittered_envelope place day hour u Hu) as [Hlo Hhi].
  destruct (jitter_bounds u Hu) as (Cj & _ & _).
  destruct (raw_traffic_normal place day hour) as [Nr Cr].
  pose proof envelope_check_true as C. unfold envelope_check in C.
  rewrite forallb_forall in C.
  specialize (C _ (raw_traffic_In place day hour)).
  apply andb_prop in C. destruct C as [C1 C2].
  apply is_normal_pos_spec in C1, C2.
  destruct C1 as [_ C1], C2 as [_ C2].
  rewrite (mul_comm f0_9), (mul_comm f1_1) in *.
  split; [| split; assumption].
  destruct (mul_class _ _ Nr Cj) as [E | [E | Ct]]; [| | assumption].
  - rewrite E, canonical_pos_above_zero in Hlo by assumption.
    discriminate.
  - rewrite E, canonical_pos_below_inf in Hhi by assumption.
    discriminate.
Qed.

Lemma traffic_rounded (place day : string) (hour : Z) (u : float) :
  unit_draw u ->
  F64.round2 (traffic_with_draw place day hour u)
  = traffic_with_draw place day hour u.
Proof.
  intros Hu. unfold traffic_with_draw.
  destruct (jittered_canonical place day hour u Hu) as (Ct & Ch & Hle).
  apply (round2_idempotent _ _ Ct Ch Hle).
  pose proof decimal_check_true as C. unfold decimal_check in C.
  rewrite forallb_forall in C.
  apply Z.ltb_lt, C, raw_traffic_In.
Qed.

(** ** Moderate numbers *)

Lemma moderate_spec (x : float) :
  moderate x = true ->
  exists m e, x = S754_finite false m e
              /\ two52 <= Zpos m < two53 /\ -500 <= e <= 500.
Proof.
  destruct x as [| | | [|] m e]; try discriminate. cbn [moderate].
  intros H. repeat (apply andb_prop in H; destruct H as [H ?]).
  apply Z.leb_le in H. apply Z.ltb_lt in H2.
  apply Z.leb_le in H0, H1.
  exists m, e. repeat split; assumption.
Qed.

Lemma moderate_canonical (x : float) : moderate x = true -> canonical_pos x.
Proof.
  intros H. destruct (moderate_spec x H) as (m & e & -> & Hm & He).
  exists m, e. split; [reflexivity |]. unfold canon. lia.
Qed.

Lemma moderate_between (lo x hi : float) :
  moderate lo = true -> moderate hi = true -> canonical_pos x ->
  (lo <=? x)%f64 = true -> (x <=? hi)%f64 = true -> moderate x = true.
Proof.
  intros Hlo Hhi Hx H1 H2.
  pose proof (moderate_canonical _ Hlo) as Clo.
  pose proof (moderate_canonical _ Hhi) as Chi.
  destruct (leb_canonical_dle lo x Clo Hx H1)
    as (ml & el & mx & ex & -> & -> & D1).
  destruct (leb_canonical_dle _ hi Hx Chi H2)
    as (mx' & ex' & mh & eh & [= <- <-] & -> & D2).
  destruct (moderate_spec _ Hlo) as (? & ? & [= <- <-] & Ml & El).
  destruct (moderate_spec _ Hhi) as (? & ? & [= <- <-] & Mh & Eh).
  destruct Hx as (? & ? & [= <- <-] & (Hm & He & Hn) & He').
  unfold two52, two53 in *.
  assert (Lo : el <= ex).
  { destruct (Z_le_gt_dec el ex) as [L | L]; [assumption | exfalso].
    apply (dle_at ex) in D1; [| lia | lia].
    rewrite Z.sub_diag, Z.pow_0_r in D1.
    pose proof (pow2_le 1 (el - ex)). change (2 ^ 1) with 2 in *. nia. }
  assert (Nx : 4503599627370496 <= Zpos mx) by lia.
  assert (Hi : ex <= eh).
  { destruct (Z_le_gt_dec ex eh) as [L | L]; [assumption | exfalso].
    apply (dle_at eh) in D2; [| lia | lia].
    rewrite Z.sub_diag, Z.pow_0_r in D2.
    pose proof (pow2_le 1 (ex - eh)). change (2 ^ 1) with 2 in *. nia. }
  cbn [moderate]. unfold two52, two53.
  repeat (apply andb_true_intro; split);
    try apply Z.leb_le; try apply Z.ltb_lt; lia.
Qed.

(** ** Division of moderate numbers *)

Lemma new_location_frac (D q r : Z) :
  0 < D -> 0 <= r < D ->
  shr_frac (q * D + r) D (shr_record_of_loc q (new_location D r)).
Proof.
  intros HD Hr. unfold shr_frac. rewrite shr_record_of_loc_m.
  assert (Ed : (q * D + r) / D = q)
    by (symmetry; apply (Z.div_unique _ _ _ r); lia).
  assert (Em : (q * D + r) mod D = r)
    by (symmetry; apply (Z.mod_unique _ _ q); lia).
  rewrite Ed, Em. split; [reflexivity |].
  unfold new_location.
  destruct (Z.even D) eqn:Ev.
  - unfold new_location_even.
    destruct (Z.eqb_spec r 0);
      [cbn [shr_record_of_loc shr_r shr_s]; assumption |].
    destruct (Z.compare_spec (2 * r) D);
      cbn [shr_record_of_loc shr_r shr_s]; lia.
  - unfold new_location_odd.
    destruct (Z.eqb_spec r 0);
      [cbn [shr_record_of_loc shr_r shr_s]; assumption |].
    assert (Hodd : D <> 2 * r).
    { intros E. rewrite E, Z.even_mul in Ev. discriminate. }
    destruct (Z.compare_spec (2 * r + 1) D);
      cbn [shr_record_of_loc shr_r shr_s]; lia.
Qed.

Lemma digits_normal (m : Z) : two52 <= m < two53 -> digits m = 53.
Proof.
  intros H. apply digits_unique; [| unfold two52 in H; lia].
  change (2 ^ (53 - 1)) with two52. change (2 ^ 53) with two53. exact H.
Qed.

Lemma div_core_normal (mx my : positive) (ex ey : Z) :
  two52 <= Zpos mx < two53 -> two52 <= Zpos my < two53 ->
  -1021 <= ex - ey ->
  SFdiv_core_binary F64.prec F64.emax (Zpos mx) ex (Zpos my) ey
  = ((Zpos mx * 2 ^ 53) / Zpos my, ex - ey - 53,
     new_location (Zpos my) ((Zpos mx * 2 ^ 53) mod Zpos my)).
Proof.
  intros Hx Hy He. unfold SFdiv_core_binary. rewrite fexp64_eq.
  fold (digits (Zpos mx)). fold (digits (Zpos my)).
  rewrite (digits_normal _ Hx), (digits_normal _ Hy).
  replace (Z.min (fexp64 (53 + ex - (53 + ey))) (ex - ey))
    with (ex - ey - 53) by (unfold fexp64; lia).
  replace (ex - ey - (ex - ey - 53)) with 53 by lia.
  rewrite Z.shiftl_mul_pow2 by lia.
  unfold Z.div, Z.modulo.
  destruct (Z.div_eucl (Zpos mx * 2 ^ 53) (Zpos my)) as [q r]. reflexivity.
Qed.

Lemma div_normal (mx my : positive) (ex ey : Z) :
  two52 <= Zpos mx < two53 -> two52 <= Zpos my < two53 ->
  -1021 <= ex - ey ->
  exists sh,
    (sh = 0 \/ sh = 1)
    /\ Zpos my * 2 ^ (52 + sh) <= Zpos mx * 2 ^ 53 < Zpos my * 2 ^ (53 + sh)
    /\ (S754_finite false mx ex / S754_finite false my ey)%f64
       = pack false
           (carry (F64.round_half_even (Zpos mx * 2 ^ 53)
                     (Zpos my * 2 ^ sh)) (ex - ey - 53 + sh))
    /\ two52 <= F64.round_half_even (Zpos mx * 2 ^ 53) (Zpos my * 2 ^ sh)
       <= two53.
Proof.
  intros Hx Hy He.
  set (N := Zpos mx * 2 ^ 53). set (D := Zpos my).
  pose proof (Z.div_mod N D) as DM.
  pose proof (Z.mod_pos_bound N D) as B.
  set (q := N / D) in *. set (r := N mod D) in *.
  assert (HD : 0 < D) by (subst D; lia).
  assert (Hq1 : two52 <= q).
  { subst q. apply Z.div_le_lower_bound; [assumption |].
    subst N D. unfold two52, two53 in *. change (2 ^ 53) with 9007199254740992.
    nia. }
  assert (Hq2 : q < 2 ^ 54).
  { subst q. apply Z.div_lt_upper_bound; [assumption |].
    subst N D. unfold two52, two53 in *. change (2 ^ 53) with 9007199254740992.
    change (2 ^ 54) with 18014398509481984. nia. }
  destruct (digits_bounds q) as (Hdq & Hqlo & Hqhi);
    [unfold two52 in *; lia |].
  assert (Hdq1 : 53 <= digits q).
  { pose proof (digits_le two52 q) as H. change (digits two52) with 53 in H.
    unfold two52 in *. lia. }
  assert (Hdq2 : digits q <= 54).
  { assert (H : 2 ^ (digits q - 1) < 2 ^ 54) by lia.
    apply pow2_lt_inv in H; lia. }
  set (sh := digits q - 53).
  assert (Hsh : shift_of q (ex - ey - 53) = sh)
    by (unfold shift_of, fexp64; subst sh; lia).
  exists sh. split; [subst sh; lia |].
  assert (Hb : D * 2 ^ (52 + sh) <= N < D * 2 ^ (53 + sh)).
  { replace (52 + sh) with (digits q - 1) by (subst sh; lia).
    replace (53 + sh) with (digits q) by (subst sh; lia).
    specialize (B HD). nia. }
  split; [exact Hb |].
  unfold F64.div, SFdiv. rewrite (div_core_normal mx my ex ey Hx Hy He).
  fold N D q r. cbn [xorb].
  destruct (binary_round_aux_frac false N D q (ex - ey - 53)
              (new_location D r)) as [E HM].
  - subst N. lia.
  - assumption.
  - unfold two52 in *. lia.
  - replace N with (q * D + r) by lia. apply new_location_frac; auto.
  - lia.
  - rewrite Hsh in E, HM. split; [exact E |]. split; [| lia].
    apply rhe_ge.
    + pose proof (pow2_pos sh). subst sh. nia.
    + rewrite two52_pow. rewrite Z.pow_add_r in Hb by (subst sh; lia).
      lia.
Qed.

Lemma f1_0_bits : f1_0 = S754_finite false 4503599627370496 (-52).
Proof. vm_compute. reflexivity. Qed.

Lemma div_one (x : float) : moderate x = true -> (x / f1_0)%f64 = x.
Proof.
  intros H. destruct (moderate_spec x H) as (m & e & -> & Hm & He).
  rewrite f1_0_bits.
  destruct (div_normal m 4503599627370496 e (-52))
    as (sh & Hsh & Hb & -> & HM); [assumption | unfold two52, two53; lia | lia |].
  assert (E1 : sh = 1).
  { destruct Hsh as [-> | ->]; [| reflexivity].
    change (2 ^ (53 + 0)) with 9007199254740992 in Hb.
    change (2 ^ 53) with 9007199254740992 in Hb.
    unfold two52 in Hm. lia. }
  subst sh.
  change (4503599627370496 * 2 ^ 1) with (2 ^ 53).
  rewrite rhe_exact by lia.
  unfold carry. destruct (Z.eqb_spec (Zpos m) two53); [lia |].
  unfold pack. cbn [fst snd].
  replace (e - -52 - 53 + 1) with e by lia.
  destruct (Z.leb_spec e 971); [reflexivity | lia].
Qed.

Lemma div_class (x d : float) :
  moderate x = true -> moderate d = true -> canonical_pos (x / d)%f64.
Proof.
  intros Hx Hd.
  destruct (moderate_spec x Hx) as (mx & ex & -> & Mx & Ex).
  destruct (moderate_spec d Hd) as (my & ey & -> & My & Ey).
  destruct (div_normal mx my ex ey Mx My) as (sh & Hsh & _ & -> & HM);
    [lia |].
  set (M := F64.round_half_even _ _) in *.
  unfold carry. unfold two52, two53 in *.
  destruct (Z.eqb_spec M 9007199254740992).
  - unfold pack. cbn [fst snd].
    destruct (Z.leb_spec (ex - ey - 53 + sh + 1) 971); [| lia].
    eexists _, _. split; [reflexivity |].
    unfold canon, two52, two53. lia.
  - destruct M as [| pm | pm]; try lia.
    unfold pack. cbn [fst snd].
    destruct (Z.leb_spec (ex - ey - 53 + sh) 971); [| lia].
    eexists _, _. split; [reflexivity |].
    unfold canon, two52, two53. lia.
Qed.

Lemma div_mono (x1 x2 d : float) :
  moderate x1 = true -> moderate x2 = true -> moderate d = true ->
  (x1 <=? x2)%f64 = true -> (x1 / d <=? x2 / d)%f64 = true.
Proof.
  intros H1 H2 Hd H.
  destruct (leb_canonical_dle x1 x2 (moderate_canonical _ H1)
              (moderate_canonical _ H2) H)
    as (m1 & e1 & m2 & e2 & -> & -> & Hle).
  destruct (moderate_spec _ H1) as (? & ? & [= <- <-] & M1 & E1).
  destruct (moderate_spec _ H2) as (? & ? & [= <- <-] & M2 & E2).
  destruct (moderate_spec d Hd) as (my & ey & -> & My & Ey).
  destruct (div_normal m1 my e1 ey M1 My) as (s1 & Hs1 & B1 & -> & R1);
    [lia |].
  destruct (div_normal m2 my e2 ey M2 My) as (s2 & Hs2 & B2 & -> & R2);
    [lia |].
  assert (He : e1 <= e2).
  { destruct (Z_le_gt_dec e1 e2) as [L | L]; [assumption | exfalso].
    apply (dle_at e2) in Hle; [| lia | lia].
    rewrite Z.sub_diag, Z.pow_0_r in Hle.
    pose proof (pow2_le 1 (e1 - e2)). change (2 ^ 1) with 2 in *.
    unfold two52, two53 in *. nia. }
  assert (Hm : e1 = e2 -> Zpos m1 <= Zpos m2).
  { intros ->. apply (dle_at e2) in Hle; [| lia | lia].
    rewrite Z.sub_diag, Z.pow_0_r in Hle. lia. }
  apply pack_le; [unfold carry;
    match goal with
    | |- context [?a =? two53] => destruct (Z.eqb_spec a two53)
    end; cbn [fst]; unfold two52 in *; lia |].
  change (2 ^ 53) with 9007199254740992 in *.
  apply carry_le;
    [unfold two52 in *; lia | unfold two52 in *; lia | | | lia].
  - split; [lia |].
    change (2 ^ (52 + 1)) with 9007199254740992 in *.
    change (2 ^ (53 + 0)) with 9007199254740992 in *.
    destruct Hs1 as [-> | ->], Hs2 as [-> | ->]; lia.
  - intros EG.
    destruct Hs1 as [-> | ->], Hs2 as [-> | ->].
    + apply rhe_mono; [lia |]. assert (e1 = e2) by lia. specialize (Hm H0).
      nia.
    + exfalso. lia.
    + assert (E : e2 = e1 + 1) by lia.
      change (2 ^ 0) with 1. change (2 ^ 1) with 2.
      rewrite <- (rhe_scale (Zpos m2 * 9007199254740992) (Zpos my * 1) 2)
        by lia.
      replace (Zpos my * 1 * 2) with (Zpos my * 2) by lia.
      apply rhe_mono; [lia |]. unfold two52, two53 in *. lia.
    + apply rhe_mono; [lia |]. assert (e1 = e2) by lia. specialize (Hm H0).
      nia.
Qed.

(** ** Sums of moderate numbers *)

Lemma add_zero_l (x : float) :
  canonical_pos x -> (F64.of_Z 0 + x)%f64 = x.
Proof. intros (m & e & -> & _). reflexivity. Qed.

Lemma add_comm_pos (x y : float) :
  canonical_pos x -> canonical_pos y -> (x + y)%f64 = (y + x)%f64.
Proof.
  intros (mx & ex & -> & _) (my & ey & -> & _).
  unfold F64.add, SFadd. cbn [cond_Zopp].
  rewrite (Z.min_comm ey ex), Z.add_comm. reflexivity.
Qed.

Lemma add_mono2 (x1 x2 y1 y2 : float) :
  canonical_pos x1 -> canonical_pos x2 ->
  canonical_pos y1 -> canonical_pos y2 ->
  (x1 <=? x2)%f64 = true -> (y1 <=? y2)%f64 = true ->
  (x1 + y1 <=? x2 + y2)%f64 = true.
Proof.
  intros Cx1 Cx2 Cy1 Cy2 Hx Hy.
  apply (leb_trans _ (x1 + y2)%f64).
  - now apply add_mono.
  - rewrite (add_comm_pos x1 y2), (add_comm_pos x2 y2) by assumption.
    now apply add_mono.
Qed.

Lemma sums_ok_moderate (acc c : float) (k : nat) :
  sums_ok acc c k = true -> moderate acc = true.
Proof. destruct k; cbn [sums_ok]; intros H; apply andb_prop in H; tauto. Qed.

Lemma sums_ok_last (c : float) (k : nat) (acc : float) :
  sums_ok acc c k = true ->
  moderate (fold_left F64.add (repeat c k) acc) = true.
Proof.
  revert acc. induction k as [| k IH]; intros acc H.
  - exact (sums_ok_moderate _ _ _ H).
  - cbn [repeat fold_left]. apply IH.
    cbn [sums_ok] in H. apply andb_prop in H. tauto.
Qed.

Lemma sums_between (lo hi : float) (l : list float) :
  moderate lo = true -> moderate hi = true ->
  (forall v, In v l ->
     canonical_pos v /\ (lo <=? v)%f64 = true /\ (v <=? hi)%f64 = true) ->
  forall accL acc accU,
    sums_ok accL lo (List.length l) = true ->
    sums_ok accU hi (List.length l) = true ->
    canonical_pos acc ->
    (accL <=? acc)%f64 = true -> (acc <=? accU)%f64 = true ->
    moderate (fold_left F64.add l acc) = true
    /\ (fold_left F64.add (repeat lo (List.length l)) accL
        <=? fold_left F64.add l acc)%f64 = true
    /\ (fold_left F64.add l acc
        <=? fold_left F64.add (repeat hi (List.length l)) accU)%f64 = true.
Proof.
  intros Mlo Mhi. induction l as [| v l IH]; intros Hl accL acc accU SL SU Ca H1 H2.
  - cbn [List.length repeat fold_left].
    split; [| split; assumption].
    apply (moderate_between accL acc accU); try assumption.
    + exact (sums_ok_moderate _ _ _ SL).
    + exact (sums_ok_moderate _ _ _ SU).
  - cbn [List.length repeat fold_left].
    cbn [List.length sums_ok] in SL, SU.
    apply andb_prop in SL, SU. destruct SL as [ML SL], SU as [MU SU].
    destruct (Hl v (or_introl eq_refl)) as (Cv & Hv1 & Hv2).
    pose proof (moderate_canonical _ ML) as CL.
    pose proof (moderate_canonical _ MU) as CU.
    pose proof (moderate_canonical _ Mlo) as Clo.
    pose proof (moderate_canonical _ Mhi) as Chi.
    pose proof (add_mono2 accL acc lo v CL Ca Clo Cv H1 Hv1) as B1.
    pose proof (add_mono2 acc accU v hi Ca CU Cv Chi H2 Hv2) as B2.
    apply IH; try assumption.
    + intros v' Hv'. apply Hl. now right.
    + pose proof (moderate_canonical _ (sums_ok_moderate _ _ _ SL)) as CL'.
      pose proof (moderate_canonical _ (sums_ok_moderate _ _ _ SU)) as CU'.
      destruct (add_class acc v Ca Cv) as [E | [E | C]]; [| | assumption].
      * rewrite E, canonical_pos_above_zero in B1 by assumption.
        discriminate.
      * rewrite E, canonical_pos_below_inf in B2 by assumption.
        discriminate.
Qed.

(** ** The values of the generator have two decimals *)

Lemma round2_class (x : float) :
  canonical_pos x ->
  F64.round2 x = S754_zero false \/ F64.round2 x = S754_infinity false
  \/ canonical_pos (F64.round2 x).
Proof.
  intros (m & e & -> & _). unfold F64.round2.
  destruct (F64.hundredths m e) as [| p | p]; [now left | | now left].
  destruct (of_ratio_100 p) as (s & dq & _ & _ & _ & -> & HG & HM).
  apply pack_class. right. unfold carry.
  match goal with
  | |- context [?a =? two53] => destruct (Z.eqb_spec a two53)
  end; cbn [fst snd]; unfold canon, two52, two53 in *; lia.
Qed.

Lemma moderate_291 : moderate (F64.of_Z 291) = true.
Proof. vm_compute. reflexivity. Qed.

Lemma moderate_243 : moderate (F64.of_Z 243) = true.
Proof. vm_compute. reflexivity. Qed.

Lemma moderate_6325 : moderate (F64.of_Z 6325) = true.
Proof. vm_compute. reflexivity. Qed.

Lemma value_canonical (place day : string) (hour : Z) (u : float) :
  unit_draw u -> canonical_pos (traffic_with_draw place day hour u).
Proof.
  intros Hu.
  destruct (range_check_spec _ _ _ place day hour u range_check_all
              (raw_traffic_In place day hour) Hu) as [Hlo Hhi].
  destruct (jittered_canonical place day hour u Hu) as (Ct & _ & _).
  unfold traffic_with_draw in *.
  destruct (round2_class _ Ct) as [E | [E | C]]; [| | assumption].
  - rewrite E in Hlo. vm_compute in Hlo. discriminate.
  - rewrite E in Hhi. vm_compute in Hhi. discriminate.
Qed.

Lemma value_moderate (place day : string) (hour : Z) (u : float) :
  unit_draw u -> moderate (traffic_with_draw place day hour u) = true.
Proof.
  intros Hu.
  destruct (range_check_spec _ _ _ place day hour u range_check_all
              (raw_traffic_In place day hour) Hu) as [Hlo Hhi].
  exact (moderate_between _ _ _ moderate_243 moderate_6325
           (value_canonical place day hour u Hu) Hlo Hhi).
Qed.

Lemma value_two_decimals (place day : string) (hour : Z) (u : float) :
  unit_draw u ->
  exists n,
    traffic_with_draw place day hour u = F64.of_ratio false n 100
    /\ 24300 <= Zpos n <= 632500.
Proof.
  intros Hu.
  destruct (range_check_spec _ _ _ place day hour u range_check_all
              (raw_traffic_In place day hour) Hu) as [Hlo Hhi].
  destruct (jittered_canonical place day hour u Hu)
    as ((m & e & Et & _) & _ & _).
  assert (Ev : traffic_with_draw place day hour u
               = match F64.hundredths m e with
                 | Zpos p => F64.of_ratio false p 100
                 | _ => S754_zero false
                 end)
    by (unfold traffic_with_draw; rewrite Et; reflexivity).
  rewrite Ev in Hlo, Hhi |- *.
  destruct (F64.hundredths m e) as [| n | n];
    [vm_compute in Hlo; discriminate | | vm_compute in Hlo; discriminate].
  exists n. split; [reflexivity |].
  split.
  - destruct (Z_le_gt_dec 24300 (Zpos n)) as [L | L]; [assumption | exfalso].
    assert (Hn : (n <= 24299)%positive) by lia.
    pose proof (of_ratio_100_mono _ _ Hn) as H1.
    assert (H2 : (F64.of_ratio false 24299 100 <? F64.of_Z 243)%f64 = true)
      by (vm_compute; reflexivity).
    pose proof (leb_ltb_trans _ _ _ H1 H2) as H3.
    rewrite (leb_ltb_false _ _ Hlo) in H3. discriminate.
  - destruct (Z_le_gt_dec (Zpos n) 632500) as [L | L]; [assumption | exfalso].
    assert (Hn : (632501 <= n)%positive) by lia.
    pose proof (of_ratio_100_mono _ _ Hn) as H1.
    assert (H2 : (F64.of_Z 6325 <? F64.of_ratio false 632501 100)%f64 = true)
      by (vm_compute; reflexivity).
    pose proof (ltb_leb_trans _ _ _ H2 H1) as H3.
    rewrite (leb_ltb_false _ _ Hhi) in H3. discriminate.
Qed.

(** X17: for a draw in [[0.0, 1.0)], the value the generator returns is
    the binary64 number nearest to [n / 100] for an integer [n] from 24300
    to 632500: a number with at most two decimals, which rounding to two
    decimals again leaves as it is. *)
Theorem generator_value_has_two_decimals
  (place day : string) (hour : Z) (w : World) :
  unit_draw (random_values w (random_pos w)) ->
  exists v n,
    fst (predict_traffic_value place day hour w) = Ok v
    /\ v = F64.of_ratio false n 100
    /\ 24300 <= Zpos n <= 632500
    /\ F64.round2 v = v.
Proof.
  intros Hu.
  destruct (value_two_decimals place day hour _ Hu) as (n & Ev & Hn).
  exists (traffic_with_draw place day hour (random_values w (random_pos w))), n.
  split; [reflexivity |]. split; [exact Ev |]. split; [exact Hn |].
  exact (traffic_rounded place day hour _ Hu).
Qed.

Lemma generator_value_has_two_decimals_witness :
  exists v n,
    fst (predict_traffic_value "hebbal" "Friday" 18 sample_world) = Ok v
    /\ v = F64.of_ratio false n 100 /\ 24300 <= Zpos n <= 632500.
Proof.
  destruct (generator_value_has_two_decimals "hebbal" "Friday" 18
              sample_world (sample_draws_unit 0%nat))
    as (v & n & E & Ev & Hn & _).
  exists v, n. auto.
Defined.

(** ** The average of a response *)

Lemma run_hours_values (P : float -> Prop) place day l draws pos :
  (forall h u, In h l -> unit_draw u ->
               P (traffic_with_draw place day h u)) ->
  (forall i, unit_draw (draws i)) ->
  forall v, In v (map traffic_value (run_hours place day l draws pos)) ->
            P v.
Proof.
  intros HP Hu. revert pos.
  induction l as [| h l IH]; intros pos v; cbn [run_hours map].
  - intros [].
  - intros [<- | Hin].
    + cbn [hourly traffic_value]. apply HP; [now left | apply Hu].
    + apply (IH (fun h' u' Hh' => HP h' u' (or_intror Hh')) (S pos) v Hin).
Qed.

Lemma check_291 : average_check (F64.of_Z 291) = true.
Proof. vm_compute. reflexivity. Qed.

Lemma check_6325 : average_check (F64.of_Z 6325) = true.
Proof. vm_compute. reflexivity. Qed.

Lemma average_check_spec (c : float) (k : nat) :
  average_check c = true -> (k < 24)%nat ->
  sums_ok c c k = true
  /\ moderate (F64.of_Z (Z.of_nat (S k))) = true
  /\ (F64.round2 (fold_left F64.add (repeat c k) c
                  / F64.of_Z (Z.of_nat (S k))) <=? c)%f64 = true
  /\ (c <=? F64.round2 (fold_left F64.add (repeat c k) c
                        / F64.of_Z (Z.of_nat (S k))))%f64 = true
  /\ hundredths_of (fold_left F64.add (repeat c k) c
                    / F64.of_Z (Z.of_nat (S k)))%f64 < 2 ^ 40.
Proof.
  intros C Hk. unfold average_check in C. rewrite forallb_forall in C.
  specialize (C k). cbv zeta in C.
  assert (Hin : In k (seq 0 24)) by (apply in_seq; lia).
  specialize (C Hin).
  repeat (apply andb_prop in C; destruct C as [C ?]).
  apply Z.ltb_lt in H. auto.
Qed.

Lemma average_between (lo hi : float) (vs : list float) :
  average_check lo = true -> average_check hi = true ->
  vs <> [] -> (List.length vs <= 24)%nat ->
  (forall v, In v vs ->
     canonical_pos v /\ (lo <=? v)%f64 = true /\ (v <=? hi)%f64 = true) ->
  let average :=
    F64.round2 (py_sum vs / F64.of_Z (Z.of_nat (List.length vs)))%f64 in
  (lo <=? average)%f64 = true /\ (average <=? hi)%f64 = true
  /\ F64.round2 average = average.
Proof.
  intros CL CU Hne Hlen Hvs.
  destruct vs as [| v1 rest]; [congruence |]. clear Hne.
  cbn [List.length] in Hlen |- *.
  set (k := List.length rest) in *.
  destruct (average_check_spec lo k CL) as (SL & Mn & _ & L2 & _); [lia |].
  destruct (average_check_spec hi k CU) as (SU & _ & U1 & _ & Uh); [lia |].
  destruct (Hvs v1 (or_introl eq_refl)) as (C1 & H1 & H2).
  pose proof (sums_ok_moderate _ _ _ SL) as Mlo.
  pose proof (sums_ok_moderate _ _ _ SU) as Mhi.
  destruct (sums_between lo hi rest Mlo Mhi
              (fun v Hv => Hvs v (or_intror Hv)) lo v1 hi SL SU C1 H1 H2)
    as (Ms & B1 & B2).
  fold k in B1, B2.
  pose proof (sums_ok_last _ _ _ SL) as ML.
  pose proof (sums_ok_last _ _ _ SU) as MU.
  unfold py_sum. cbn [fold_left]. rewrite (add_zero_l v1 C1).
  set (s := fold_left F64.add rest v1) in *.
  set (n := F64.of_Z (Z.of_nat (S k))) in *.
  set (L := fold_left F64.add (repeat lo k) lo) in *.
  set (U := fold_left F64.add (repeat hi k) hi) in *.
  pose proof (div_mono L s n ML Ms Mn B1) as D1.
  pose proof (div_mono s U n Ms MU Mn B2) as D2.
  pose proof (div_class L n ML Mn) as CLn.
  pose proof (div_class s n Ms Mn) as Csn.
  pose proof (div_class U n MU Mn) as CUn.
  cbv zeta. split; [| split].
  - apply (leb_trans _ _ _ L2). now apply round2_mono.
  - apply (leb_trans _ (F64.round2 (U / n)%f64)); [| exact U1].
    now apply round2_mono.
  - exact (round2_idempotent _ _ Csn CUn D2 Uh).
Qed.

Lemma py_range_single (a : Z) : py_range a (a + 1) = [a].
Proof.
  unfold py_range. replace (a + 1 - a) with 1 by lia.
  change (Z.to_nat 1) with 1%nat. cbn [seq map].
  change (Z.of_nat 0) with 0. now rewrite Z.add_0_r.
Qed.

(** X18: a request for a single hour, served with a draw in [[0.0, 1.0)],
    gets one prediction, for that hour, and its value is both the peak and
    the average of the response: the sum of one value, divided by 1 and
    rounded to two decimals, is the value itself. *)
Theorem single_hour_report
  (request : TrafficPredictionRequest) (w w' : World)
  (resp : TrafficPredictionResponse) :
  predict_traffic_range request w = (Ok resp, w') ->
  start_hour request = end_hour request ->
  unit_draw (random_values w (random_pos w)) ->
  exists p,
    predictions resp = [p]
    /\ hour p = start_hour request
    /\ peak_hour resp = start_hour request
    /\ peak_traffic resp = traffic_value p
    /\ average_traffic resp = traffic_value p.
Proof.
  intros H Heq Hu. apply predict_traffic_range_Ok in H.
  destruct H as (_ & _ & _ & location & peak & _ & Hmax & -> & _).
  unfold hours_of in *. rewrite <- Heq, py_range_single in *.
  cbn [run_hours py_max max_loop] in Hmax. injection Hmax as <-.
  eexists. split; [reflexivity |].
  cbn [success_response peak_hour peak_traffic average_traffic hourly hour
       traffic_value run_hours map List.length].
  repeat (split; [reflexivity |]).
  set (v := traffic_with_draw _ _ _ _).
  unfold py_sum. cbn [fold_left].
  rewrite (add_zero_l v) by (apply value_canonical; exact Hu).
  change (F64.of_Z (Z.of_nat 1)) with f1_0.
  rewrite div_one by (apply value_moderate; exact Hu).
  apply traffic_rounded. exact Hu.
Qed.

Lemma single_hour_report_witness :
  exists resp p,
    fst (predict_traffic_range
           {| place := "KR Puram"; day := "Saturday";
              start_hour := 9; end_hour := 9 |} sample_world) = Ok resp
    /\ predictions resp = [p]
    /\ average_traffic resp = traffic_value p.
Proof.
  destruct (predict_traffic_range
              {| place := "KR Puram"; day := "Saturday";
                 start_hour := 9; end_hour := 9 |} sample_world)
    as [[resp | e] w'] eqn:E; [| vm_compute in E; discriminate].
  destruct (single_hour_report _ _ _ _ E eq_refl (sample_draws_unit 0%nat))
    as (p & Hp & _ & _ & _ & Ha).
  exists resp, p. auto.
Defined.

(** X19: for a request whose hours are within 0..23, served while the
    draws are in [[0.0, 1.0)], the average of the response lies between
    291 and 6325, as every value does, and has at most two decimals:
    rounding it to two decimals again leaves it as it is. *)
Theorem average_is_within_the_value_range
  (request : TrafficPredictionRequest) (w w' : World)
  (resp : TrafficPredictionResponse) :
  predict_traffic_range request w = (Ok resp, w') ->
  0 <= start_hour request -> end_hour request <= 23 ->
  (forall i, unit_draw (random_values w i)) ->
  (F64.of_Z 291 <=? average_traffic resp)%f64 = true
  /\ (average_traffic resp <=? F64.of_Z 6325)%f64 = true
  /\ F64.round2 (average_traffic resp) = average_traffic resp.
Proof.
  intros H H0 H23 Hu. apply predict_traffic_range_Ok in H.
  destruct H as (Hp & _ & Hr & location & peak & _ & _ & -> & _).
  assert (Hb : dict_lookup base_traffic (normalize_place (place request))
               <> None).
  { unfold known_place in Hp.
    change (dict_keys TRAFFIC_LOCATIONS) with (dict_keys base_traffic) in Hp.
    now apply dict_lookup_In. }
  cbn [average_traffic success_response].
  set (preds := run_hours _ _ _ _ _).
  assert (Hlen : List.length preds
                 = Z.to_nat (end_hour request + 1 - start_hour request)).
  { subst preds. rewrite run_hours_length. apply py_range_length. }
  rewrite <- (length_map traffic_value preds).
  apply (average_between (F64.of_Z 291) (F64.of_Z 6325)
           (map traffic_value preds) check_291 check_6325).
  - intros E. apply (f_equal (@List.length float)) in E.
    rewrite length_map, Hlen in E. cbn [List.length] in E. lia.
  - rewrite length_map, Hlen. lia.
  - subst preds. apply run_hours_values; [| exact Hu].
    intros h u _ Hd. split; [now apply value_canonical |].
    exact (range_check_spec _ _ _ _ _ h u range_check_known
             (known_raw_traffic_In _ _ h Hb) Hd).
Qed.

Lemma average_is_within_the_value_range_witness :
  (F64.of_Z 291 <=? average_traffic sample_response)%f64 = true
  /\ (average_traffic sample_response <=? F64.of_Z 6325)%f64 = true.
Proof.
  assert (E : predict_traffic_range sample_request sample_world
              = (Ok sample_response,
                 snd (predict_traffic_range sample_request sample_world)))
    by (vm_compute; reflexivity).
  destruct (average_is_within_the_value_range _ _ _ _ E)
    as (H1 & H2 & _);
    [cbn; lia | cbn; lia | exact sample_draws_unit |].
  split; assumption.
Defined.
